(** * A shallow embedding of the video generation pipelines

  The development follows the three Python sources of the repository:

  - [approach-2-api-pipeline/pipeline.py]   (module [Pipeline]),
  - [approach-3-hybrid/generate_assets.py]  (module [Assets]),
  - [approach-3-hybrid/orchestrate.py]      (module [Orchestrate]).

  Python values are modelled as follows.  Integers are [Z] or [nat],
  strings are [string], lists are [list].  A coroutine or function that
  touches the file system is a state transformer over [World]; its outcome
  is a returned value, a raised exception, or [Pending] when a polling loop
  has not left the loop within the number of iterations granted to it.
  Times and durations of scripts and clips, which the Python code holds in
  [float], are modelled by exact rationals [Q].  The renderer of
  orchestrate.py computes in binary64 as the interpreter does: the frame
  time [frame_num / fps], its comparisons with the scene bounds, and the
  colours of the default gradient. *)

From Stdlib Require Import QArith PrimFloat Uint63 FloatOps SpecFloat.
From stdpp Require Import gmap strings list pretty.

Local Open Scope Z_scope.

(** ** Python runtime: exceptions and outcomes *)

Module Py.

(** An exception is its class name and its message. *)
Record exn := Exn { exn_class : string; exn_msg : string }.

Definition RuntimeError (msg : string) : exn := Exn "RuntimeError" msg.
Definition IndexError : exn := Exn "IndexError" "list index out of range".
Definition ZeroDivisionError : exn :=
  Exn "ZeroDivisionError" "integer division or modulo by zero".
Definition ValueError (msg : string) : exn := Exn "ValueError" msg.
Definition FileNotFoundError (path : string) : exn :=
  Exn "FileNotFoundError" path.
Definition HTTPStatusError (url : string) : exn := Exn "HTTPStatusError" url.
Definition CalledProcessError (cmd : string) : exn :=
  Exn "CalledProcessError" cmd.
Definition JSONDecodeError : exn := Exn "JSONDecodeError" "".

(** The two error kinds of the specification's taxonomy that the claims
    mention.  No source file raises either of them. *)
Definition is_timeout (e : exn) : bool := String.eqb (exn_class e) "TimeoutError".
Definition is_validation (e : exn) : bool :=
  String.eqb (exn_class e) "ValidationError".

Inductive outcome (A : Type) : Type :=
| Ret (a : A)
| Raise (e : exn)
| Pending.
Arguments Ret {A} a.
Arguments Raise {A} e.
Arguments Pending {A}.

Definition obind {A B} (o : outcome A) (k : A -> outcome B) : outcome B :=
  match o with
  | Ret a => k a
  | Raise e => Raise e
  | Pending => Pending
  end.

(** [a // b] on integers. *)
Definition floordiv (a b : Z) : outcome Z :=
  if b =? 0 then Raise ZeroDivisionError else Ret (a / b).

(** [a % b] on integers. *)
Definition pymod (a b : Z) : outcome Z :=
  if b =? 0 then Raise ZeroDivisionError else Ret (a mod b).

(** [l[i]] for a non-negative index. *)
Definition getitem {A} (l : list A) (i : Z) : outcome A :=
  if i <? 0 then Raise IndexError
  else match l !! Z.to_nat i with
       | Some x => Ret x
       | None => Raise IndexError
       end.

(** An integer as a float: exact for the small integers of the sources. *)
Definition float_of_Z (z : Z) : float := PrimFloat.of_uint63 (Uint63.of_Z z).

(** [int(x)] for a finite float: truncation towards zero. *)
Definition py_int (x : float) : Z :=
  match Prim2SF x with
  | S754_finite s m e =>
      let magnitude := if 0 <=? e then Z.shiftl (Zpos m) e
                       else Z.shiftr (Zpos m) (- e) in
      if s then - magnitude else magnitude
  | _ => 0
  end.

(** Truth value of an optional string such as the result of [os.getenv]. *)
Definition truthy (o : option string) : bool :=
  match o with
  | Some s => negb (String.eqb s "")
  | None => false
  end.

(** [sep.join(items)]: the separator goes between consecutive items. *)
Definition join (sep : string) (items : list string) : string :=
  match items with
  | [] => ""
  | x :: rest => fold_left (fun acc y => acc +:+ sep +:+ y) rest x
  end.

(** The characters [str.strip()] removes from an ASCII string. *)
Definition is_space (c : Ascii.ascii) : bool :=
  let n := Ascii.nat_of_ascii c in
  ((9 <=? n)%nat && (n <=? 13)%nat) || ((28 <=? n)%nat && (n <=? 32)%nat).

Fixpoint lstrip (s : string) : string :=
  match s with
  | String c s' => if is_space c then lstrip s' else s
  | EmptyString => EmptyString
  end.

Fixpoint rstrip (s : string) : string :=
  match s with
  | String c s' =>
      match rstrip s' with
      | EmptyString => if is_space c then EmptyString else String c EmptyString
      | r => String c r
      end
  | EmptyString => EmptyString
  end.

Definition strip (s : string) : string := rstrip (lstrip s).

(** [s.split()]: the maximal runs of characters that are not white space;
    [cur] is the run being read. *)
Fixpoint split_go (cur : string) (s : string) : list string :=
  match s with
  | EmptyString => if String.eqb cur "" then [] else [cur]
  | String c s' =>
      if is_space c then
        if String.eqb cur "" then split_go "" s' else cur :: split_go "" s'
      else split_go (cur +:+ String c EmptyString) s'
  end.

Definition split (s : string) : list string := split_go "" s.

(** [for word in words: ...] of the two placeholder producers, which wrap
    the prompt the same way up to the width [limit]:
    [current_line.append(word)], and when the joined line is longer than
    [limit], [lines.append(" ".join(current_line[:-1]))] and
    [current_line = [word]]. *)
Fixpoint wrap_loop (limit : nat) (words lines current_line : list string)
  : list string * list string :=
  match words with
  | [] => (lines, current_line)
  | word :: rest =>
      let current_line := current_line ++ [word] in
      if (limit <? String.length (join " " current_line))%nat then
        wrap_loop limit rest (lines ++ [join " " (removelast current_line)]) [word]
      else wrap_loop limit rest lines current_line
  end.

(** The loop followed by [if current_line: lines.append(" ".join(current_line))]. *)
Definition wrap_lines (limit : nat) (words : list string) : list string :=
  let '(lines, current_line) := wrap_loop limit words [] [] in
  match current_line with
  | [] => lines
  | _ => lines ++ [join " " current_line]
  end.

End Py.
Export Py.

Notation "x <~ c1 ;; c2" := (obind c1 (fun x => c2))
  (at level 100, c1 at next level, right associativity).

(** ** The world outside the interpreter *)

Module Sys.

(** What a path of the file system holds: a directory, or a regular file
    tagged with the step that wrote it and what it was written from. *)
Inductive Blob :=
| BDir
| BFile (producer : string) (payload : string)
| BManifest (theme style : string) (backgrounds characters props : list string).

(** Calls that leave the process, in the order they are made. *)
Inductive Call :=
| CallClaude (topic style : string) (duration : Z)
| CallReplicatePost (version prompt : string)
| CallReplicateGet (url : string)
| CallDownload (url : string)
| CallOpenAIImage (prompt size : string)
| CallOpenAISpeech (text voice : string)
| CallEdgeTTS (text voice : string)
| CallFfmpeg (output : string)
| CallFfprobe (target : string)
| CallSleep (seconds : Z).

Record World := mkWorld {
  files : gmap string Blob;
  calls : list Call
}.

(** A prediction document as the Replicate API returns it. *)
Record Prediction := mkPrediction {
  status : string;
  output : string;
  error : string
}.

(** One scene of the JSON object the script model replies with. *)
Record SceneData := mkSceneData {
  sd_start_time : Q;
  sd_end_time : Q;
  sd_narration : string;
  sd_visual_prompt : string;
  sd_text_overlay : option string
}.

Inductive ClaudeReply :=
| ReplyHttpError
| ReplyNotJson
| ReplyMissingKey (key : string)
| ReplyData (title : string) (scenes : list SceneData).

Inductive ProcResult :=
| ExitOk
| ExitFail (partial_output : bool).

(** The behaviour of the remote services, of the encoder binaries and of
    the clock during one run. *)
Record Env := mkEnv {
  getenv : string -> option string;
  rembg_installed : bool;
  claude_reply : string -> string -> Z -> ClaudeReply;
  (** [Some url]: the prediction was created and is polled at [url]. *)
  replicate_post : string -> option string;
  (** The document returned by the [k]-th poll of [url]. *)
  replicate_get : string -> nat -> Prediction;
  openai_image_ok : string -> bool;
  openai_speech_ok : string -> bool;
  edge_tts_error : string -> option exn;
  ffmpeg_run : string -> ProcResult;
  ffprobe_stdout : string -> string;
  float_of_string : string -> option Q;
  now_script : string;
  now_video : string
}.

(** Effectful code: a state transformer over the world with an outcome. *)
Definition M (A : Type) : Type := World -> outcome A * World.

Definition ret {A} (a : A) : M A := fun w => (Ret a, w).
Definition raise {A} (e : exn) : M A := fun w => (Raise e, w).
Definition pending {A} : M A := fun w => (Pending, w).
Definition lift {A} (o : outcome A) : M A := fun w => (o, w).

Definition bind {A B} (m : M A) (k : A -> M B) : M B :=
  fun w =>
    match m w with
    | (Ret a, w') => k a w'
    | (Raise e, w') => (Raise e, w')
    | (Pending, w') => (Pending, w')
    end.

Definition call (c : Call) : M unit :=
  fun w => (Ret tt, mkWorld (files w) (calls w ++ [c])).

Definition path_exists (p : string) : M bool :=
  fun w => (Ret (bool_decide (is_Some (files w !! p))), w).

(** Create or overwrite the regular file [p]. *)
Definition write_file (p : string) (b : Blob) : M unit :=
  fun w => (Ret tt, mkWorld (<[p := b]> (files w)) (calls w)).

(** [p.mkdir(parents=True, exist_ok=True)] *)
Definition mkdir (p : string) : M unit :=
  fun w =>
    match files w !! p with
    | Some (BFile _ _) | Some (BManifest _ _ _ _ _) =>
        (Raise (Exn "FileExistsError" p), w)
    | _ => (Ret tt, mkWorld (<[p := BDir]> (files w)) (calls w))
    end.

(** [p.unlink()] *)
Definition unlink (p : string) : M unit :=
  fun w =>
    match files w !! p with
    | Some (BFile _ _) | Some (BManifest _ _ _ _ _) =>
        (Ret tt, mkWorld (delete p (files w)) (calls w))
    | Some BDir => (Raise (Exn "IsADirectoryError" p), w)
    | None => (Raise (FileNotFoundError p), w)
    end.

(** [dir / name] *)
Definition joinpath (dir name : string) : string := dir +:+ "/" +:+ name.

(** [for x in xs: f x] *)
Fixpoint for_each {A} (xs : list A) (f : A -> M unit) : M unit :=
  match xs with
  | [] => ret tt
  | x :: rest => bind (f x) (fun _ => for_each rest f)
  end.

End Sys.
Export Sys.

Notation "x <- c1 ;; c2" := (Sys.bind c1 (fun x => c2))
  (at level 100, c1 at next level, right associativity).
Notation "c1 ;;; c2" := (Sys.bind c1 (fun _ => c2))
  (at level 100, right associativity).

(** ** pipeline.py: the API pipeline *)

Module Pipeline.

(** *** Data models *)

Record Scene := mkSceneRec {
  index : nat;
  start_time : Q;
  end_time : Q;
  narration : string;
  visual_prompt : string;
  text_overlay : option string
}.

Record VideoScript := mkVideoScript {
  title : string;
  topic : string;
  style : string;
  total_duration : Q;
  scenes : list Scene
}.

(** [VideoScript.to_narration] *)
Definition to_narration (script : VideoScript) : string :=
  join " " (map narration (scenes script)).

Record GeneratedAsset := mkAsset {
  path : string;
  asset_type : string;
  duration : Q;
  metadata : list (string * string)
}.

(** *** Script generation *)

(** The list comprehension over [enumerate(data["scenes"])], from
    position [i] on. *)
Fixpoint scenes_from (i : nat) (data : list SceneData) : list Scene :=
  match data with
  | [] => []
  | s :: rest =>
      mkSceneRec i (sd_start_time s) (sd_end_time s) (sd_narration s)
                 (sd_visual_prompt s) (sd_text_overlay s)
      :: scenes_from (S i) rest
  end.

(** [ClaudeScriptProvider.generate_script] *)
Definition generate_script (env : Env) (topic style : string) (duration : Z)
  : M VideoScript :=
  call (CallClaude topic style duration) ;;;
  match claude_reply env topic style duration with
  | ReplyHttpError => raise (HTTPStatusError "https://api.anthropic.com/v1/messages")
  | ReplyNotJson => raise JSONDecodeError
  | ReplyMissingKey key => raise (Exn "KeyError" key)
  | ReplyData title data =>
      ret (mkVideoScript title topic style (inject_Z duration)
                         (scenes_from 0 data))
  end.

(** *** Video generation *)

Inductive VideoProvider :=
| ReplicateVideoProvider (model : string)
| FallbackImageProvider.

(** The [while True] loop of [ReplicateVideoProvider.generate_clip].
    [k] counts the polls already made; [fuel] bounds the iterations the
    model follows. *)
Fixpoint poll_video (env : Env) (fuel : nat) (url : string) (k : nat)
  : M string :=
  match fuel with
  | O => pending
  | S fuel' =>
      call (CallSleep 5) ;;;
      call (CallReplicateGet url) ;;;
      let prediction := replicate_get env url k in
      if String.eqb (status prediction) "succeeded" then
        ret (output prediction)
      else if String.eqb (status prediction) "failed" then
        raise (RuntimeError ("Video generation failed: " +:+ error prediction))
      else poll_video env fuel' url (S k)
  end.

Definition slash : Ascii.ascii := Ascii.ascii_of_nat 47.
Definition dot : Ascii.ascii := Ascii.ascii_of_nat 46.

(** The part of a path before its last suffix, as [with_suffix] cuts it:
    the suffix starts at the last dot of the final component, unless that
    dot is the component's first or last character. *)
Fixpoint cut_suffix_rev (seen : nat) (r : string) : option string :=
  match r with
  | EmptyString => None
  | String c r' =>
      if Ascii.eqb c slash then None
      else if Ascii.eqb c dot then
        match seen, r' with
        | O, _ => None
        | _, EmptyString => None
        | _, String c' _ =>
            if Ascii.eqb c' slash then None else Some r'
        end
      else cut_suffix_rev (S seen) r'
  end.

Definition with_suffix (p suffix : string) : string :=
  match cut_suffix_rev 0 (String.rev p) with
  | Some r => String.rev r +:+ suffix
  | None => p +:+ suffix
  end.

Definition run_ffmpeg (env : Env) (output : string) : M unit :=
  call (CallFfmpeg output) ;;;
  match ffmpeg_run env output with
  | ExitOk => write_file output (BFile "ffmpeg" output)
  | ExitFail partial =>
      (if partial then write_file output (BFile "ffmpeg-partial" output)
       else ret tt) ;;;
      raise (CalledProcessError "ffmpeg")
  end.

(** [generate_clip] of the two providers. *)
Definition generate_clip (env : Env) (fuel : nat) (provider : VideoProvider)
    (prompt : string) (duration : Q) (output_path : string)
  : M GeneratedAsset :=
  match provider with
  | ReplicateVideoProvider model =>
      call (CallReplicatePost model prompt) ;;;
      match replicate_post env prompt with
      | None => raise (HTTPStatusError "https://api.replicate.com/v1/predictions")
      | Some prediction_url =>
          video_url <- poll_video env fuel prediction_url 0 ;;
          call (CallDownload video_url) ;;;
          write_file output_path (BFile "replicate" video_url) ;;;
          ret (mkAsset output_path "video" duration
                       [("model", model); ("prompt", prompt)])
      end
  | FallbackImageProvider =>
      let image_path := with_suffix output_path ".png" in
      write_file image_path (BFile "placeholder-image" prompt) ;;;
      run_ffmpeg env output_path ;;;
      unlink image_path ;;;
      ret (mkAsset output_path "video" duration
                   [("type", "image_fallback"); ("prompt", prompt)])
  end.

(** *** Text to speech *)

Inductive TTSProvider :=
| EdgeTTSProvider
| OpenAITTSProvider.

Definition default_voice (provider : TTSProvider) : string :=
  match provider with
  | EdgeTTSProvider => "en-US-GuyNeural"
  | OpenAITTSProvider => "onyx"
  end.

(** [float(result.stdout.strip()) if result.stdout.strip() else 0] *)
Definition probed_duration (env : Env) (stdout : string) : outcome Q :=
  if negb (String.eqb (strip stdout) "") then
    match float_of_string env (strip stdout) with
    | Some d => Ret d
    | None => Raise (ValueError (strip stdout))
    end
  else Ret 0%Q.

(** [generate_audio] of the two providers. *)
Definition generate_audio (env : Env) (provider : TTSProvider)
    (text output_path voice : string) : M GeneratedAsset :=
  match provider with
  | EdgeTTSProvider =>
      call (CallEdgeTTS text voice) ;;;
      match edge_tts_error env text with
      | Some e => raise e
      | None =>
          write_file output_path (BFile "edge-tts" text) ;;;
          call (CallFfprobe output_path) ;;;
          duration <- lift (probed_duration env (ffprobe_stdout env output_path)) ;;
          ret (mkAsset output_path "audio" duration [("voice", voice)])
      end
  | OpenAITTSProvider =>
      call (CallOpenAISpeech text voice) ;;;
      if openai_speech_ok env text then
        write_file output_path (BFile "openai-tts" text) ;;;
        call (CallFfprobe output_path) ;;;
        duration <- lift (probed_duration env (ffprobe_stdout env output_path)) ;;
        ret (mkAsset output_path "audio" duration
                     [("voice", voice); ("provider", "openai")])
      else raise (HTTPStatusError "https://api.openai.com/v1/audio/speech")
  end.

(** *** Video compiler *)

(** [VideoCompiler.compile] *)
Definition compile (env : Env) (output_dir : string)
    (video_clips : list GeneratedAsset) (audio : GeneratedAsset)
    (script : VideoScript) : M string :=
  let output_path := joinpath output_dir ("video_" +:+ now_video env +:+ ".mp4") in
  let concat_file := joinpath output_dir "concat.txt" in
  write_file concat_file
    (BFile "concat-list" (join "," (map path video_clips))) ;;;
  let temp_video := joinpath output_dir "temp_concat.mp4" in
  run_ffmpeg env temp_video ;;;
  run_ffmpeg env output_path ;;;
  unlink concat_file ;;;
  unlink temp_video ;;;
  ret output_path.

(** *** Main pipeline *)

(** [f"{i:02d}"] *)
Definition fmt_02d (i : nat) : string :=
  if (i <? 10)%nat then "0" +:+ pretty i else pretty i.

Definition clip_path (output_dir : string) (i : nat) : string :=
  joinpath output_dir ("clip_" +:+ fmt_02d i +:+ ".mp4").

Definition script_path (env : Env) (output_dir : string) : string :=
  joinpath output_dir ("script_" +:+ now_script env +:+ ".json").

Definition audio_path (output_dir : string) : string :=
  joinpath output_dir "voiceover.mp3".

Record VideoPipeline := mkPipeline {
  video_provider : VideoProvider;
  tts_provider : TTSProvider;
  output_dir : string
}.

(** Step 3: the loop over [enumerate(script.scenes)], from position [i]
    on; the clips are returned in the order they were appended. *)
Fixpoint generate_clips (env : Env) (fuel : nat) (self : VideoPipeline)
    (i : nat) (todo : list Scene) : M (list GeneratedAsset) :=
  match todo with
  | [] => ret []
  | scene :: rest =>
      let clip_duration := (end_time scene - start_time scene)%Q in
      clip <- generate_clip env fuel (video_provider self)
                (visual_prompt scene) clip_duration
                (clip_path (output_dir self) i) ;;
      clips <- generate_clips env fuel self (S i) rest ;;
      ret (clip :: clips)
  end.

(** Steps 1 to 3 of [VideoPipeline.generate]: script (saved as JSON),
    voiceover, one clip per scene. *)
Definition generate_inputs (env : Env) (fuel : nat) (self : VideoPipeline)
    (topic style : string) (duration : Z)
  : M (VideoScript * GeneratedAsset * list GeneratedAsset) :=
  script <- generate_script env topic style duration ;;
  write_file (script_path env (output_dir self))
             (BFile "json.dump" (title script)) ;;;
  audio <- generate_audio env (tts_provider self) (to_narration script)
             (audio_path (output_dir self))
             (default_voice (tts_provider self)) ;;
  clips <- generate_clips env fuel self 0 (scenes script) ;;
  ret (script, audio, clips).

(** "Cleanup clips" *)
Definition cleanup (clips : list GeneratedAsset) (audio : GeneratedAsset)
  : M unit :=
  for_each clips (fun clip => unlink (path clip)) ;;;
  unlink (path audio).

(** [VideoPipeline.generate] *)
Definition generate (env : Env) (fuel : nat) (self : VideoPipeline)
    (topic style : string) (duration : Z) : M string :=
  inputs <- generate_inputs env fuel self topic style duration ;;
  let '(script, audio, clips) := inputs in
  (* Step 4: Compile final video *)
  final_path <- compile env (output_dir self) clips audio script ;;
  cleanup clips audio ;;;
  ret final_path.

(** *** The text drawn on the fallback image *)

(** "Wrap text" of [FallbackImageProvider.generate_clip]. *)
Definition wrap_prompt (prompt : string) : list string :=
  wrap_lines 30 (split prompt).

(** The lines drawn, [lines[:5]], each with the [y_offset] it is drawn
    at. *)
Definition drawn_lines (prompt : string) : list (Z * string) :=
  imap (fun i line => (800 + 50 * Z.of_nat i, line)) (take 5 (wrap_prompt prompt)).

End Pipeline.

(** ** generate_assets.py: the AI asset generator *)

Module Assets.

Record AssetConfig := mkAssetConfig {
  name : string;
  prompt : string;
  width : Z;
  height : Z;
  style_suffix : string;
  remove_background : bool
}.

Record Theme := mkTheme {
  description : string;
  backgrounds : list AssetConfig;
  characters : list AssetConfig;
  props : list AssetConfig
}.

(** Theme definitions with asset prompts *)
Definition theme_uno_no_mercy : Theme :=
  mkTheme "UNO No Mercy card game explainer"
  [
    mkAssetConfig "bg_intro"
      "Dark dramatic background with subtle UNO card colors (red, blue, green, yellow) as accent lighting, abstract geometric shapes, cinematic mood"
      1080 1920 "" false;
    mkAssetConfig "bg_dramatic"
      "Intense dark background with spotlight effect, red and black color scheme, dramatic shadows, tension atmosphere"
      1080 1920 "" false;
    mkAssetConfig "bg_chaos"
      "Chaotic abstract background with scattered playing cards, glitch effects, neon UNO colors on dark background, motion blur"
      1080 1920 "" false;
    mkAssetConfig "bg_outro"
      "Ominous dark background with subtle evil red glow, vignette effect, minimal and foreboding atmosphere"
      1080 1920 "" false ]
  [
    mkAssetConfig "character_neutral"
      "Cartoon-style young adult character, casual confident pose, neutral expression, colorful modern clothing, facing forward, clean lines"
      512 768 "" true;
    mkAssetConfig "character_shocked"
      "Cartoon-style young adult character, shocked surprised expression, wide eyes, hands up in disbelief, expressive pose"
      512 768 "" true;
    mkAssetConfig "character_mischievous"
      "Cartoon-style young adult character, mischievous evil grin, raised eyebrow, scheming pose, hands together like plotting"
      512 768 "" true;
    mkAssetConfig "character_serious"
      "Cartoon-style young adult character, dead serious intense expression, arms crossed, stern look, authoritative pose"
      512 768 "" true ]
  [
    mkAssetConfig "card_stack"
      "Stack of colorful UNO cards, red blue green yellow, fanned out arrangement, dramatic lighting, isolated on transparent background"
      400 300 "" true;
    mkAssetConfig "plus_ten_card"
      "Single UNO card with +10 text, dramatic glow effect, rainbow wild card colors, menacing appearance"
      200 300 "" true ].

Definition theme_financial_basics : Theme :=
  mkTheme "Personal finance fundamentals explainer"
  [
    mkAssetConfig "bg_intro"
      "Clean modern gradient background, soft blue and green tones, professional financial aesthetic, subtle geometric patterns"
      1080 1920 "" false;
    mkAssetConfig "bg_growth"
      "Abstract upward trending graph background, green glow, wealth and prosperity feeling, clean minimal design"
      1080 1920 "" false;
    mkAssetConfig "bg_warning"
      "Subtle red gradient background, warning atmosphere, credit card silhouette faded in background, cautionary mood"
      1080 1920 "" false;
    mkAssetConfig "bg_success"
      "Triumphant golden hour gradient background, warm orange and yellow tones, achievement and success feeling"
      1080 1920 "" false ]
  [
    mkAssetConfig "character_friendly"
      "Friendly professional cartoon character, business casual attire, welcoming smile, approachable pose, clean modern style"
      512 768 "" true;
    mkAssetConfig "character_explaining"
      "Professional cartoon character pointing and explaining, hand gesture toward side, teaching pose, confident expression"
      512 768 "" true ]
  [
    mkAssetConfig "pie_chart"
      "Clean 3D pie chart with three sections in blue, green, and orange, modern infographic style, transparent background"
      400 400 "" true;
    mkAssetConfig "money_stack"
      "Stack of dollar bills with coins, clean illustration style, growth arrow, transparent background"
      300 300 "" true ].

Definition THEMES : gmap string Theme :=
  list_to_map [("uno-no-mercy", theme_uno_no_mercy);
               ("financial-basics", theme_financial_basics)].

(** Style modifiers *)
Definition STYLES : gmap string string :=
  list_to_map [
    ("cartoon", ", cartoon style, 2D animated, clean lines, vibrant colors, Pixar-like quality");
    ("anime", ", anime style, Japanese animation, expressive, detailed shading");
    ("realistic", ", photorealistic, high detail, cinematic lighting, 8K quality");
    ("minimal", ", minimalist design, flat colors, clean geometric shapes, modern aesthetic");
    ("retro", ", retro 80s style, neon colors, synthwave aesthetic, VHS texture") ].

(** *** Image generation providers *)

Record ImageGenerator := mkImageGenerator {
  provider : string;
  replicate_token : option string;
  openai_key : option string
}.

(** [ImageGenerator.__init__] *)
Definition new_generator (env : Env) (provider : string) : ImageGenerator :=
  mkImageGenerator provider (getenv env "REPLICATE_API_TOKEN")
                   (getenv env "OPENAI_API_KEY").

Definition sdxl_version : string :=
  "39ed52f2a78e934b3ba6e2a89f5b1c712de7dfea535525255b1aa35c5565e08b".

(** The [while True] loop of [_generate_replicate]; [k] counts the polls
    already made, [fuel] bounds the iterations the model follows. *)
Fixpoint poll_image (env : Env) (fuel : nat) (url : string) (k : nat)
  : M string :=
  match fuel with
  | O => pending
  | S fuel' =>
      call (CallSleep 3) ;;;
      call (CallReplicateGet url) ;;;
      let result := replicate_get env url k in
      if String.eqb (status result) "succeeded" then
        ret (output result)
      else if String.eqb (status result) "failed" then
        raise (RuntimeError ("Generation failed: " +:+ error result))
      else poll_image env fuel' url (S k)
  end.

(** [ImageGenerator._generate_replicate] *)
Definition _generate_replicate (env : Env) (fuel : nat) (self : ImageGenerator)
    (prompt : string) (width height : Z) (output_path : string) : M string :=
  call (CallReplicatePost sdxl_version prompt) ;;;
  match replicate_post env prompt with
  | None => raise (HTTPStatusError "https://api.replicate.com/v1/predictions")
  | Some url =>
      image_url <- poll_image env fuel url 0 ;;
      call (CallDownload image_url) ;;;
      write_file output_path (BFile "replicate" image_url) ;;;
      (if (1024 <? width) || (1024 <? height)
       then write_file output_path (BFile "replicate-resized" image_url)
       else ret tt) ;;;
      ret output_path
  end.

(** [ImageGenerator._generate_openai] *)
Definition _generate_openai (env : Env) (self : ImageGenerator)
    (prompt : string) (width height : Z) (output_path : string) : M string :=
  let size := if width <? height then "1024x1792" else "1792x1024" in
  let size := if width =? height then "1024x1024" else size in
  call (CallOpenAIImage prompt size) ;;;
  if openai_image_ok env prompt then
    (* the URL of the reply is not modelled; the prompt stands for it *)
    call (CallDownload prompt) ;;;
    write_file output_path (BFile "openai" prompt) ;;;
    write_file output_path (BFile "openai-resized" prompt) ;;;
    ret output_path
  else raise (HTTPStatusError "https://api.openai.com/v1/images/generations").

(** [ImageGenerator._generate_placeholder]: drawn locally and saved. *)
Definition _generate_placeholder (self : ImageGenerator)
    (prompt : string) (width height : Z) (output_path : string) : M string :=
  write_file output_path (BFile "placeholder" prompt) ;;;
  ret output_path.

(** [ImageGenerator.generate] *)
Definition generate (env : Env) (fuel : nat) (self : ImageGenerator)
    (prompt : string) (width height : Z) (output_path : string) : M string :=
  if String.eqb (provider self) "replicate" && truthy (replicate_token self) then
    _generate_replicate env fuel self prompt width height output_path
  else if String.eqb (provider self) "openai" && truthy (openai_key self) then
    _generate_openai env self prompt width height output_path
  else
    _generate_placeholder self prompt width height output_path.

(** [remove_background]: rewrites the image in place when rembg can be
    imported, and leaves it as it is otherwise. *)
Definition remove_background_file (env : Env) (image_path : string) : M string :=
  if rembg_installed env then
    write_file image_path (BFile "rembg" image_path) ;;;
    ret image_path
  else ret image_path.

(** *** Asset generation pipeline *)

(** One of the three loops of [generate_theme_assets]; [strip_bg] says
    whether the loop has the [if asset.remove_background] step. *)
Definition generate_category (env : Env) (fuel : nat)
    (generator : ImageGenerator) (dir style_suffix : string)
    (strip_bg : bool) (assets : list AssetConfig) : M unit :=
  for_each assets (fun asset =>
    let output_path := joinpath dir (name asset +:+ ".png") in
    generate env fuel generator (prompt asset +:+ style_suffix)
             (width asset) (height asset) output_path ;;;
    if strip_bg && remove_background asset
    then remove_background_file env output_path ;;; ret tt
    else ret tt).

Definition manifest_entries (category : string) (assets : list AssetConfig)
  : list string :=
  map (fun a => category +:+ "/" +:+ name a +:+ ".png") assets.

(** [generate_theme_assets] *)
Definition generate_theme_assets (env : Env) (fuel : nat)
    (theme_name style_name output_dir provider : string) : M unit :=
  match THEMES !! theme_name with
  | None => ret tt
  | Some theme =>
      let style_suffix := default "" (STYLES !! style_name) in
      let dir_backgrounds := joinpath output_dir "backgrounds" in
      let dir_characters := joinpath output_dir "characters" in
      let dir_props := joinpath output_dir "props" in
      mkdir dir_backgrounds ;;;
      mkdir dir_characters ;;;
      mkdir dir_props ;;;
      let generator := new_generator env provider in
      generate_category env fuel generator dir_backgrounds style_suffix
                        false (backgrounds theme) ;;;
      generate_category env fuel generator dir_characters style_suffix
                        true (characters theme) ;;;
      generate_category env fuel generator dir_props style_suffix
                        true (props theme) ;;;
      write_file (joinpath output_dir "manifest.json")
        (BManifest theme_name style_name
           (manifest_entries "backgrounds" (backgrounds theme))
           (manifest_entries "characters" (characters theme))
           (manifest_entries "props" (props theme)))
  end.

(** *** The text drawn on a placeholder *)

(** "Wrap text" of [ImageGenerator._generate_placeholder]. *)
Definition wrap_prompt (prompt : string) : list string :=
  wrap_lines 40 (split prompt).

(** The lines drawn, [lines[:8]], each with the [y_offset] it is drawn
    at; the first offset is [height // 2 - len(lines) * 15]. *)
Definition drawn_lines (prompt : string) (height : Z) : list (Z * string) :=
  let lines := wrap_prompt prompt in
  let y_offset := height / 2 - Z.of_nat (length lines) * 15 in
  imap (fun i line => (y_offset + 30 * Z.of_nat i, line)) (take 8 lines).

End Assets.

(** ** orchestrate.py: the hybrid pipeline and its Python renderer *)

Module Orchestrate.

(** One entry of the [scenes] list of [_render_frames_python].  A bound is
    written as the literal of the source and enters a comparison as the
    binary64 number nearest to it; the integer bounds of the source are
    represented exactly. *)
Record SceneDef := mkScene {
  scene_start : Q;
  scene_end : Q;
  scene_text : string;
  scene_bg_idx : Z
}.

(** [a < b] on exact rationals. *)
Definition Qltb (a b : Q) : bool := negb (Qle_bool b a).

(** A non-negative literal as the interpreter holds it. *)
Definition float_of_Q (q : Q) : float :=
  PrimFloat.div (float_of_Z (Qnum q)) (float_of_Z (Zpos (Qden q))).

(** [time = frame_num / fps]: the true division of two non-negative
    integers below 2^53, which are converted exactly; the quotient is
    rounded to the nearest binary64 number. *)
Definition frame_time (frame_num fps : Z) : outcome float :=
  if fps =? 0 then Raise (Exn "ZeroDivisionError" "division by zero")
  else Ret (PrimFloat.div (float_of_Z frame_num) (float_of_Z fps)).

(** [scene["start"] <= time < scene["end"]] on the rounded time. *)
Definition scene_covers (scene : SceneDef) (time : float) : bool :=
  PrimFloat.leb (float_of_Q (scene_start scene)) time
  && PrimFloat.ltb time (float_of_Q (scene_end scene)).

(** The [for scene in scenes: ... break] loop; [current] is the value
    [current_scene] holds when the loop starts. *)
Fixpoint scan_scenes (time : float) (scenes : list SceneDef) (current : SceneDef)
  : SceneDef :=
  match scenes with
  | [] => current
  | scene :: rest =>
      if scene_covers scene time then scene
      else scan_scenes time rest current
  end.

(** "Find current scene": [current_scene = scenes[0]] and then the loop. *)
Definition find_current_scene (scenes : list SceneDef) (time : float)
  : outcome SceneDef :=
  first <~ getitem scenes 0 ;;
  Ret (scan_scenes time scenes first).

(** "Add character if available": the index of the character pasted on
    frame [frame_num]; [None] when [characters] is empty and the block is
    skipped.  [n] is [len(characters)]. *)
Definition character_index (frame_num total_frames : Z) (n : nat)
  : outcome (option Z) :=
  if (n =? 0)%nat then Ret None
  else
    char_idx <~ (if 1 <? Z.of_nat n
                 then width <~ floordiv total_frames (Z.of_nat n) ;;
                      floordiv frame_num width
                 else Ret 0) ;;
    Ret (Some (Z.min char_idx (Z.of_nat n - 1))).

(** *** The pipeline object and its stages *)

Record HybridPipeline := mkHybrid {
  theme : string;
  style : string;
  output_dir : string
}.

Definition assets_dir (self : HybridPipeline) : string :=
  joinpath (output_dir self) "assets".

Definition frames_dir (self : HybridPipeline) : string :=
  joinpath (output_dir self) "frames".

(** The [provider] argument [_generate_assets] passes on. *)
Definition assets_provider (env : Env) : string :=
  if truthy (getenv env "REPLICATE_API_TOKEN") then "replicate"
  else "placeholder".

(** [HybridPipeline._generate_assets] *)
Definition _generate_assets (env : Env) (fuel : nat) (self : HybridPipeline)
  : M unit :=
  Assets.generate_theme_assets env fuel (theme self) (style self)
    (assets_dir self) (assets_provider env).

(** *** The Python renderer *)

(** Images held by the renderer: a background opened from a file and
    resized to the frame; an image built pixel by pixel, in which every one
    of the [width] pixels of row [y] has the colour [rows[y]]; a character
    opened and converted to RGBA. *)
Inductive Image :=
| Background (file : string) (width height : Z)
| Gradient (width : Z) (rows : list (Z * Z * Z))
| Character (file : string).

Record Frame := mkFrame {
  frame_num : Z;
  frame_background : Image;
  frame_text : string;
  frame_character : option Image
}.

(** Video settings *)
Definition width : Z := 1080.
Definition height : Z := 1920.
Definition fps : Z := 30.
Definition duration : Z := 75.
Definition total_frames : Z := fps * duration.

(** [range(n)] *)
Definition range (n : Z) : list Z := map Z.of_nat (seq 0 (Z.to_nat n)).

(** The colour [(r, g, b)] that "Create default gradient background" puts
    on every pixel of row [y], computed in binary64 and truncated as the
    source does. *)
Definition gradient_pixel (y : Z) : Z * Z * Z :=
  let ratio := PrimFloat.div (float_of_Z y) (float_of_Z height) in
  (py_int (PrimFloat.add (float_of_Z 20) (PrimFloat.mul ratio (float_of_Z 20))),
   py_int (PrimFloat.add (float_of_Z 15) (PrimFloat.mul ratio (float_of_Z 15))),
   py_int (PrimFloat.add (float_of_Z 30) (PrimFloat.mul ratio (float_of_Z 20)))).

(** "Create default gradient background": the two nested loops over
    [range(height)] and [range(width)]. *)
Definition default_gradient : Image :=
  Gradient width (map gradient_pixel (range height)).

(** "Load manifest": the two file lists the renderer reads from it. *)
Definition load_manifest (self : HybridPipeline)
  : M (list string * list string) :=
  fun w =>
    match files w !! joinpath (assets_dir self) "manifest.json" with
    | Some (BManifest _ _ bg_files char_files _) => (Ret (bg_files, char_files), w)
    | Some (BFile _ _) => (Raise JSONDecodeError, w)
    | Some BDir => (Raise (Exn "IsADirectoryError" "manifest.json"), w)
    | None => (Ret ([], []), w)
    end.

(** The steps of the three programs that write an image file. *)
Definition image_producers : list string :=
  [ "placeholder"; "replicate"; "replicate-resized"; "openai"; "openai-resized";
    "rembg"; "placeholder-image"; "frame"; "rust-engine" ].

(** [Image.open(p)] followed by [resize] or [convert], which read the
    file: a directory cannot be opened, and a file that holds no image is
    refused. *)
Definition image_open (p : string) : M unit :=
  fun w =>
    match files w !! p with
    | Some (BFile producer _) =>
        if existsb (String.eqb producer) image_producers then (Ret tt, w)
        else (Raise (Exn "UnidentifiedImageError" p), w)
    | Some (BManifest _ _ _ _ _) => (Raise (Exn "UnidentifiedImageError" p), w)
    | Some BDir => (Raise (Exn "IsADirectoryError" p), w)
    | None => (Raise (FileNotFoundError p), w)
    end.

(** The loops "Load background if available" and "Load character if
    available": files that do not exist are skipped, the others are opened
    in the order of the manifest. *)
Fixpoint load_images (self : HybridPipeline) (mk : string -> Image)
    (names : list string) : M (list Image) :=
  match names with
  | [] => ret []
  | file :: rest =>
      let p := joinpath (assets_dir self) file in
      present <- path_exists p ;;
      (if present : bool then image_open p else ret tt) ;;;
      loaded <- load_images self mk rest ;;
      ret (if present : bool then mk p :: loaded else loaded)
  end.

(** [if not backgrounds: ... backgrounds = [bg]] *)
Definition or_default_gradient (backgrounds : list Image) : list Image :=
  match backgrounds with
  | [] => [default_gradient]
  | _ => backgrounds
  end.

(** The line break of the scene texts. *)
Definition nl : string := String (Ascii.ascii_of_nat 10) EmptyString.

(** Scene definitions (simplified); [n] is [len(backgrounds)]. *)
Definition scenes (n : nat) : list SceneDef :=
  let at_least (k : nat) (idx : Z) : Z := if (k <? n)%nat then idx else 0 in
  [ mkScene 0 3 "UNO NO MERCY" 0;
    mkScene 3 15 ("168 CARDS" +:+ nl +:+ "6 PLAYERS" +:+ nl +:+ "25 = ELIMINATED") 0;
    mkScene 15 30 ("+2  +4  +10" +:+ nl +:+ "STACK THEM!") (at_least 1%nat 1);
    mkScene 30 45 ("PLOT TWIST" +:+ nl +:+ "+4 HAS A COLOR!") (at_least 1%nat 1);
    mkScene 45 60 ("7 = SWAP" +:+ nl +:+ "0 = PASS ALL" +:+ nl +:+ "SKIP EVERYONE")
            (at_least 2%nat 2);
    mkScene 60 70 ("DRAW UNTIL" +:+ nl +:+ "YOU CAN PLAY") (at_least 1%nat 1);
    mkScene 70 75 "Who wants to play?" (at_least 3%nat 3) ].

(** The body of [for frame_num in range(total_frames)] up to the frame
    that is saved. *)
Definition render_frame (scenes : list SceneDef)
    (backgrounds characters : list Image) (frame_num : Z) : outcome Frame :=
  time <~ frame_time frame_num fps ;;
  current_scene <~ find_current_scene scenes time ;;
  bg_idx <~ pymod (scene_bg_idx current_scene) (Z.of_nat (length backgrounds)) ;;
  frame <~ getitem backgrounds bg_idx ;;
  char_idx <~ character_index frame_num total_frames (length characters) ;;
  match char_idx with
  | Some i =>
      char <~ getitem characters i ;;
      Ret (mkFrame frame_num frame (scene_text current_scene) (Some char))
  | None => Ret (mkFrame frame_num frame (scene_text current_scene) None)
  end.

(** [f"{frame_num:05d}"] *)
Definition fmt_05d (i : nat) : string :=
  let digits := pretty i in
  Nat.iter (5 - String.length digits) (String.append "0") digits.

(** [self.frames_dir / f"frame_{frame_num:05d}.png"] *)
Definition frame_path (self : HybridPipeline) (frame_num : Z) : string :=
  joinpath (frames_dir self) ("frame_" +:+ fmt_05d (Z.to_nat frame_num) +:+ ".png").

(** The frame loop: each frame is saved with [frame.save(frame_path)]
    before the next one is rendered.  The source returns nothing; the
    model returns the frames in the order in which they were saved. *)
Fixpoint render_and_save (self : HybridPipeline) (scenes : list SceneDef)
    (backgrounds characters : list Image) (frame_nums : list Z)
  : M (list Frame) :=
  match frame_nums with
  | [] => ret []
  | f :: rest =>
      frame <- lift (render_frame scenes backgrounds characters f) ;;
      write_file (frame_path self f) (BFile "frame" (frame_text frame)) ;;;
      frames <- render_and_save self scenes backgrounds characters rest ;;
      ret (frame :: frames)
  end.

(** [HybridPipeline._render_frames_python] *)
Definition _render_frames_python (self : HybridPipeline) : M (list Frame) :=
  manifest <- load_manifest self ;;
  loaded_bg <- load_images self (fun p => Background p width height)
                 (fst manifest) ;;
  let backgrounds := or_default_gradient loaded_bg in
  characters <- load_images self Character (snd manifest) ;;
  render_and_save self (scenes (length backgrounds)) backgrounds characters
                  (range total_frames).

(** *** The Rust engine, voiceover and final video *)

(** What the two [cargo] processes of [_render_frames] do: their return
    codes, and the names of the frame files the engine leaves in the frames
    directory. *)
Record Cargo := mkCargo {
  build_returncode : Z;
  run_returncode : Z;
  engine_frames : list string
}.

(** [HybridPipeline._render_frames]; [rust_project] is the path of the
    engine's sources. *)
Definition _render_frames (cargo : Cargo) (rust_project : string)
    (self : HybridPipeline) : M unit :=
  found <- path_exists rust_project ;;
  if negb found then
    _render_frames_python self ;;; ret tt
  else if negb (build_returncode cargo =? 0) then
    _render_frames_python self ;;; ret tt
  else
    for_each (engine_frames cargo)
             (fun name => write_file (joinpath (frames_dir self) name)
                                     (BFile "rust-engine" name)) ;;;
    if negb (run_returncode cargo =? 0) then
      _render_frames_python self ;;; ret tt
    else ret tt.

(** The narration [_generate_voiceover] speaks. *)
Definition voiceover_script : string :=
  "So you think you know UNO? Nah. Let me tell you about NO MERCY." +:+ nl +:+ nl +:+
  "168 cards. SIX players max. And if you get 25 cards in your hand? You're DEAD. Eliminated. Gone. That's the Mercy Rule and there IS no mercy." +:+ nl +:+ nl +:+
  "Plus 2? That's cute. Plus 4? Getting warmer. PLUS 10. And guess what? You can STACK them. Someone hits you with a plus 4? Throw down a plus 6. Now THEY draw 10." +:+ nl +:+ nl +:+
  "But here's what NO ONE tells you. That plus 4? It's NOT a wild card anymore. It has a COLOR. Red plus 4 only plays on RED." +:+ nl +:+ nl +:+
  "Play a 7, you SWAP your entire hand with someone. Play a 0, EVERYONE passes their hand. Skip Everyone? You skip THE WHOLE TABLE." +:+ nl +:+ nl +:+
  "And if you can't play? You draw until you CAN play. No stopping. Just pain." +:+ nl +:+ nl +:+
  "This game has ended friendships. Who wants to play?".

(** [HybridPipeline._generate_voiceover] *)
Definition _generate_voiceover (env : Env) (self : HybridPipeline) : M string :=
  let audio_path := joinpath (output_dir self) "voiceover.mp3" in
  let script_path := joinpath (output_dir self) "script.txt" in
  write_file script_path (BFile "write_text" voiceover_script) ;;;
  call (CallEdgeTTS voiceover_script "en-US-GuyNeural") ;;;
  match edge_tts_error env voiceover_script with
  | Some e => raise e
  | None =>
      write_file audio_path (BFile "edge-tts" voiceover_script) ;;;
      ret audio_path
  end.

(** [HybridPipeline._compile_video] *)
Definition _compile_video (env : Env) (self : HybridPipeline)
    (audio_path : string) : M string :=
  let output_path :=
    joinpath (output_dir self) ("hybrid_video_" +:+ now_video env +:+ ".mp4") in
  Pipeline.run_ffmpeg env output_path ;;;
  ret output_path.

(** [HybridPipeline.run] *)
Definition run (env : Env) (cargo : Cargo) (rust_project : string) (fuel : nat)
    (self : HybridPipeline) : M string :=
  (* Step 1: Generate AI assets *)
  _generate_assets env fuel self ;;;
  (* Step 2: Generate frames with Rust engine *)
  _render_frames cargo rust_project self ;;;
  (* Step 3: Generate voiceover *)
  audio_path <- _generate_voiceover env self ;;
  (* Step 4: Compile final video *)
  video_path <- _compile_video env self audio_path ;;
  ret video_path.

End Orchestrate.

(** ** Vocabulary of the statements *)

Module Props.

(** *** Remote jobs *)

(** A prediction document whose status ends the polling loop. *)
Definition terminal (p : Prediction) : bool :=
  String.eqb (status p) "succeeded" || String.eqb (status p) "failed".

(** Seconds spent in [asyncio.sleep] so far. *)
Definition slept (w : World) : Z :=
  fold_right (fun c acc => match c with CallSleep s => s + acc | _ => acc end)
             0 (calls w).

(** The log of outside calls only grows. *)
Definition grows {A} (m : M A) : Prop :=
  forall w, calls w `prefix_of` calls (snd (m w)).

(** *** Files *)

Definition is_file (w : World) (p : string) : Prop :=
  exists producer payload, files w !! p = Some (BFile producer payload).

(** The three paths [VideoCompiler.compile] works on. *)
Definition final_path (env : Env) (dir : string) : string :=
  joinpath dir ("video_" +:+ now_video env +:+ ".mp4").
Definition concat_path (dir : string) : string := joinpath dir "concat.txt".
Definition temp_path (dir : string) : string := joinpath dir "temp_concat.mp4".

(** Paths of the clips [i], [i+1], ..., [i+n-1]. *)
Definition clip_paths (dir : string) (i n : nat) : list string :=
  map (Pipeline.clip_path dir) (seq i n).

(** The intermediate artifacts of a run with [n] scenes are all on disk. *)
Record inputs_ready (env : Env) (self : Pipeline.VideoPipeline) (n : nat)
    (w : World) : Prop := {
  ready_script :
    is_file w (Pipeline.script_path env (Pipeline.output_dir self));
  ready_audio : is_file w (Pipeline.audio_path (Pipeline.output_dir self));
  ready_clips : forall i, (i < n)%nat ->
    is_file w (Pipeline.clip_path (Pipeline.output_dir self) i)
}.

(** The number a string of decimal digits denotes. *)
Definition digit_value (c : Ascii.ascii) : N :=
  N.of_nat (Ascii.nat_of_ascii c) - 48.

Fixpoint decimal_go (acc : N) (s : string) : N :=
  match s with
  | EmptyString => acc
  | String c s' => decimal_go (acc * 10 + digit_value c) s'
  end.

Definition decimal_value (s : string) : N := decimal_go 0 s.

(** *** Speech synthesis *)

(** The request a provider sends for [text]. *)
Definition tts_call (provider : Pipeline.TTSProvider) (text voice : string)
  : Call :=
  match provider with
  | Pipeline.EdgeTTSProvider => CallEdgeTTS text voice
  | Pipeline.OpenAITTSProvider => CallOpenAISpeech text voice
  end.

(** The provider produced the audio artifact for [text]. *)
Definition synthesized (env : Env) (provider : Pipeline.TTSProvider)
    (text : string) : Prop :=
  match provider with
  | Pipeline.EdgeTTSProvider => edge_tts_error env text = None
  | Pipeline.OpenAITTSProvider => openai_speech_ok env text = true
  end.

(** *** The specification's wording, for comparison with the code *)

(** Scene indices are the positions in the scene list: unique, zero-based
    and contiguous. *)
Definition indexed (scenes : list Pipeline.Scene) : Prop :=
  forall i s, scenes !! i = Some s -> Pipeline.index s = i.

(** The scene whose index is [i]. *)
Definition scene_at (scenes : list Pipeline.Scene) (i : nat)
  : option Pipeline.Scene :=
  List.find (fun s => Nat.eqb (Pipeline.index s) i) scenes.

Definition narration_at (scenes : list Pipeline.Scene) (i : nat) : string :=
  match scene_at scenes i with
  | Some s => Pipeline.narration s
  | None => ""
  end.

(** The narrations of the scenes with index [0], [1], ..., [n-1], each
    taken once, in this order, joined with single spaces. *)
Fixpoint spec_narration (scenes : list Pipeline.Scene) (n : nat) : string :=
  match n with
  | O => ""
  | S n' =>
      match n' with
      | O => narration_at scenes 0
      | S _ => spec_narration scenes n' +:+ " " +:+ narration_at scenes n'
      end
  end.

(** Frame [f] lies in the [i]-th of [k] equal parts of
    [[0, total_frames)], that is [i*T/k <= f < (i+1)*T/k]. *)
Definition spec_equal_partition (total_frames : Z) (k : nat) (i f : Z) : Prop :=
  i * total_frames <= f * Z.of_nat k < (i + 1) * total_frames.

(** *** The renderer's timeline, as the specification reads it *)

(** The time of frame [f]: the exact quotient [f / frame_rate]. *)
Definition exact_time (f fps : Z) : Q := inject_Z f / inject_Z fps.

(** [t] lies in the half-open interval [[start, end)] of the scene. *)
Definition in_interval (scene : Orchestrate.SceneDef) (t : Q) : Prop :=
  (Orchestrate.scene_start scene <= t)%Q /\ (t < Orchestrate.scene_end scene)%Q.

Definition in_intervalb (scene : Orchestrate.SceneDef) (t : Q) : bool :=
  Qle_bool (Orchestrate.scene_start scene) t
  && Orchestrate.Qltb t (Orchestrate.scene_end scene).

(** Number of scenes whose interval contains [t]. *)
Definition covering (scenes : list Orchestrate.SceneDef) (t : Q) : nat :=
  length (List.filter (fun s => in_intervalb s t) scenes).

(** Frame [f] of a render with [n] backgrounds, checked by evaluation: the
    renderer computes a time and selects a scene; the interval of that
    scene contains the exact time; it is the only scene of the list whose
    interval does; and on every scene of the list the renderer's test on
    the rounded time gives the answer of the test on the exact time. *)
Definition frame_checked (n : nat) (f : Z) : bool :=
  match Orchestrate.frame_time f Orchestrate.fps with
  | Ret time =>
      match Orchestrate.find_current_scene (Orchestrate.scenes n) time with
      | Ret scene =>
          let t := exact_time f Orchestrate.fps in
          in_intervalb scene t
          && Nat.eqb (covering (Orchestrate.scenes n) t) 1
          && forallb (fun s => Bool.eqb (Orchestrate.scene_covers s time)
                                        (in_intervalb s t))
                     (Orchestrate.scenes n)
      | _ => false
      end
  | _ => false
  end.

(** *** What the renderer finds on disk *)

(** [Image.open] accepts the file at [p]. *)
Definition opens_as_image (w : World) (p : string) : Prop :=
  exists producer payload,
    files w !! p = Some (BFile producer payload) /\
    existsb (String.eqb producer) Orchestrate.image_producers = true.

(** The files of a manifest list that exist, in the order of the list. *)
Definition present_files (self : Orchestrate.HybridPipeline) (w : World)
    (names : list string) : list string :=
  List.filter
    (fun file => bool_decide
                   (is_Some (files w !! joinpath (Orchestrate.assets_dir self) file)))
    names.


(** *** Wrapped text *)

(** A line made of the words [g] respects the width [limit], or is a
    single word that could not be broken. *)
Definition fits (limit : nat) (g : list string) : Prop :=
  (String.length (join " " g) <= limit)%nat \/ length g = 1%nat.

(** *** Polling traces *)

(** The calls of [n] turns of a polling loop that sleeps [secs] seconds
    before it asks for the prediction at [url]. *)
Definition poll_calls (url : string) (secs : Z) (n : nat) : list Call :=
  concat (replicate n [CallSleep secs; CallReplicateGet url]).

(** *** What a stage does to the paths of the file system *)

(** [p] can be made a directory: nothing is there, or a directory is. *)
Definition free_for_dir (w : World) (p : string) : Prop :=
  files w !! p = None \/ files w !! p = Some BDir.

(** [m] leaves the path [p] as it found it, whatever its outcome. *)
Definition untouched {A} (p : string) (m : M A) : Prop :=
  forall w, files (snd (m w)) !! p = files w !! p.

(** [m] leaves the path [p] as it found it unless it returns. *)
Definition untouched_unless_returns {A} (p : string) (m : M A) : Prop :=
  forall w, (forall a, fst (m w) <> Ret a) ->
            files (snd (m w)) !! p = files w !! p.

(** [m] removes no path: whatever was on disk before is on disk after. *)
Definition keeps {A} (m : M A) : Prop :=
  forall w p, is_Some (files w !! p) -> is_Some (files (snd (m w)) !! p).

(** *** Asset generation *)

(** The generator has no credentials for the provider it was asked for,
    so that [generate] falls through to the placeholder. *)
Definition offline (g : Assets.ImageGenerator) : Prop :=
  (Assets.provider g = "replicate" -> truthy (Assets.replicate_token g) = false) /\
  (Assets.provider g = "openai" -> truthy (Assets.openai_key g) = false).

(** The file of the asset [a] in the category directory [dir]. *)
Definition asset_path (dir : string) (a : Assets.AssetConfig) : string :=
  joinpath dir (Assets.name a +:+ ".png").

(** *** The hybrid pipeline *)

(** The frame [fr] rendered for frame number [f]: it shows the background
    and the text of one of the scenes, and a character if there are any. *)
Definition frame_ok (backgrounds characters : list Orchestrate.Image) (f : Z)
    (fr : Orchestrate.Frame) : Prop :=
  Orchestrate.frame_num fr = f /\
  (exists s, s ∈ Orchestrate.scenes (length backgrounds) /\
     backgrounds !! Z.to_nat (Orchestrate.scene_bg_idx s)
       = Some (Orchestrate.frame_background fr) /\
     Orchestrate.frame_text fr = Orchestrate.scene_text s) /\
  match Orchestrate.frame_character fr with
  | Some c => c ∈ characters
  | None => characters = []
  end.

(** The frame [fr] shows a background and a character that
    [generate_theme_assets] wrote for the theme [th]. *)
Definition from_theme (self : Orchestrate.HybridPipeline) (th : Assets.Theme)
    (fr : Orchestrate.Frame) : Prop :=
  (exists a, a ∈ Assets.backgrounds th /\
     Orchestrate.frame_background fr
     = Orchestrate.Background
         (joinpath (Orchestrate.assets_dir self)
                   ("backgrounds/" +:+ Assets.name a +:+ ".png"))
         Orchestrate.width Orchestrate.height) /\
  (exists c, c ∈ Assets.characters th /\
     Orchestrate.frame_character fr
     = Some (Orchestrate.Character
               (joinpath (Orchestrate.assets_dir self)
                         ("characters/" +:+ Assets.name c +:+ ".png")))).

(** The three files [run] leaves in the output directory. *)
Definition video_path (env : Env) (self : Orchestrate.HybridPipeline) : string :=
  joinpath (Orchestrate.output_dir self)
           ("hybrid_video_" +:+ now_video env +:+ ".mp4").
Definition voiceover_path (self : Orchestrate.HybridPipeline) : string :=
  joinpath (Orchestrate.output_dir self) "voiceover.mp3".
Definition voiceover_script_path (self : Orchestrate.HybridPipeline) : string :=
  joinpath (Orchestrate.output_dir self) "script.txt".

End Props.
Export Props.

(** ** Concrete runs *)

Module Runs.

Definition empty_world : World := mkWorld ∅ [].

Definition job_url : string := "https://api.replicate.com/v1/predictions/p1".

(** A Replicate job that stays in "processing" however often it is
    polled. *)
Definition stuck_env : Env :=
  mkEnv (fun _ => None) false
        (fun _ _ _ => ReplyHttpError)
        (fun _ => Some job_url)
        (fun _ _ => mkPrediction "processing" "" "")
        (fun _ => false) (fun _ => false) (fun _ => None)
        (fun _ => ExitOk) (fun _ => "") (fun _ => None)
        "20240101_000000" "20240101_000001".

(** A Replicate token is set; the job is refused by the service on the
    third poll. *)
Definition failing_env : Env :=
  mkEnv (fun v => if String.eqb v "REPLICATE_API_TOKEN"
                  then Some "r8_token" else None)
        false
        (fun _ _ _ => ReplyHttpError)
        (fun _ => Some job_url)
        (fun _ k => if (k <? 2)%nat then mkPrediction "processing" "" ""
                    else mkPrediction "failed" "" "NSFW content detected")
        (fun _ => false) (fun _ => false) (fun _ => None)
        (fun _ => ExitOk) (fun _ => "") (fun _ => None)
        "20240101_000000" "20240101_000001".

(** The script model replies with a scene that ends before it starts, a
    scene that overlaps its predecessor, and a last scene that ends at 40
    seconds of a 60 second video.  Speech synthesis and the encoder
    succeed; the duration probe prints nothing. *)
Definition backwards_scenes : list SceneData :=
  [ mkSceneData 0 5 "Hook." "a door" None;
    mkSceneData 5 2 "Oops." "a clock" (Some "WAIT");
    mkSceneData 1 40 "End." "a sunset" None ].

Definition quiet_env : Env :=
  mkEnv (fun _ => None) false
        (fun _ _ _ => ReplyData "Backwards" backwards_scenes)
        (fun _ => None)
        (fun _ _ => mkPrediction "processing" "" "")
        (fun _ => false) (fun _ => true) (fun _ => None)
        (fun _ => ExitOk) (fun _ => "") (fun _ => None)
        "20240101_000000" "20240101_000001".

(** The providers [main] of pipeline.py wires with [--use-openai-tts]. *)
Definition demo_pipeline : Pipeline.VideoPipeline :=
  Pipeline.mkPipeline Pipeline.FallbackImageProvider
                      Pipeline.OpenAITTSProvider "./output".

Definition demo_inputs :=
  Pipeline.generate_inputs quiet_env 1 demo_pipeline "doors" "dramatic" 60
                           empty_world.

Definition demo_script : Pipeline.VideoScript :=
  match fst demo_inputs with
  | Ret (script, _, _) => script
  | _ => Pipeline.mkVideoScript "" "" "" 0 []
  end.

Definition demo_audio : Pipeline.GeneratedAsset :=
  match fst demo_inputs with
  | Ret (_, audio, _) => audio
  | _ => Pipeline.mkAsset "" "" 0 []
  end.

Definition demo_clips : list Pipeline.GeneratedAsset :=
  match fst demo_inputs with
  | Ret (_, _, clips) => clips
  | _ => []
  end.

(** The timeline of the specification's example: two scenes covering
    [[0, 10)]. *)
Definition two_scenes : list Orchestrate.SceneDef :=
  [ Orchestrate.mkScene 0 5 "first" 0; Orchestrate.mkScene 5 10 "second" 1 ].

(** The hybrid pipeline as [main] of orchestrate.py builds it by default. *)
Definition demo_hybrid : Orchestrate.HybridPipeline :=
  Orchestrate.mkHybrid "uno-no-mercy" "cartoon" "./output".

(** An assets directory without a background: the manifest lists none, and
    names one character file, which is on disk, 2251 times, once more than
    there are frames. *)
Definition crowd : list string :=
  replicate (Z.to_nat (Orchestrate.total_frames + 1))
            "characters/character_neutral.png".


(** The same crowd of characters next to one background. *)
Definition crowded_stage_world : World :=
  mkWorld
    (<["./output/assets/manifest.json" :=
         BManifest "uno-no-mercy" "cartoon" ["backgrounds/bg_intro.png"] crowd []]>
       (<["./output/assets/backgrounds/bg_intro.png" := BFile "placeholder" "intro"]>
          (<["./output/assets/characters/character_neutral.png" :=
               BFile "placeholder" "a player"]> ∅)))
    [].

(** A Replicate token is set; the job succeeds on the third poll. *)
Definition ready_env : Env :=
  mkEnv (fun v => if String.eqb v "REPLICATE_API_TOKEN"
                  then Some "r8_token" else None)
        false
        (fun _ _ _ => ReplyHttpError)
        (fun _ => Some job_url)
        (fun _ k => if (k <? 2)%nat then mkPrediction "processing" "" ""
                    else mkPrediction "succeeded" "https://replicate.delivery/out" "")
        (fun _ => false) (fun _ => false) (fun _ => None)
        (fun _ => ExitOk) (fun _ => "") (fun _ => None)
        "20240101_000000" "20240101_000001".

(** The script model replies, but speech synthesis is refused. *)
Definition mute_env : Env :=
  mkEnv (fun _ => None) false
        (fun _ _ _ => ReplyData "Backwards" backwards_scenes)
        (fun _ => None)
        (fun _ _ => mkPrediction "processing" "" "")
        (fun _ => false) (fun _ => false) (fun _ => None)
        (fun _ => ExitOk) (fun _ => "") (fun _ => None)
        "20240101_000000" "20240101_000001".

(** Script and speech succeed and the duration probe prints a number; the
    encoder fails on the second clip without leaving a file. *)
Definition studio_env : Env :=
  mkEnv (fun _ => None) false
        (fun _ _ _ => ReplyData "Backwards" backwards_scenes)
        (fun _ => None)
        (fun _ _ => mkPrediction "processing" "" "")
        (fun _ => false) (fun _ => true) (fun _ => None)
        (fun out => if String.eqb out "./output/clip_01.mp4"
                    then ExitFail false else ExitOk)
        (fun _ => "12.5 ")
        (fun s => if String.eqb s "12.5" then Some (25 # 2)%Q else None)
        "20240101_000000" "20240101_000001".

Definition studio_script : Pipeline.VideoScript :=
  Pipeline.mkVideoScript "Backwards" "doors" "dramatic" (inject_Z 60)
                         (Pipeline.scenes_from 0 backwards_scenes).


(** A prompt whose first word is wider than both placeholder images
    allow. *)
Definition long_word : string :=
  "Supercalifragilisticexpialidociousantidisestablishmentarianism".
Definition long_prompt : string := long_word +:+ " door".

Definition rust_project : string := "../uno-no-mercy-video".

(** An engine that does not build, and one that builds, runs and leaves
    two frames. *)
Definition no_engine : Orchestrate.Cargo := Orchestrate.mkCargo 101 0 [].
Definition good_engine : Orchestrate.Cargo :=
  Orchestrate.mkCargo 0 0 ["frame_00000.png"; "frame_00001.png"].

(** The engine's sources are there. *)
Definition engine_world : World :=
  mkWorld (<[rust_project := BDir]> ∅) [].

(** A manifest with one background that is on disk and one character that
    is not. *)
Definition stage_world : World :=
  mkWorld
    (<["./output/assets/manifest.json" :=
         BManifest "uno-no-mercy" "cartoon"
                   ["backgrounds/bg_intro.png"]
                   ["characters/character_shocked.png"] []]>
       (<["./output/assets/backgrounds/bg_intro.png" :=
            BFile "placeholder" "intro"]> ∅))
    [].

End Runs.
Export Runs.

(** * Properties *)

(** ** Strings and paths *)

Section Strings.

Lemma string_app_cons c (a b : string) : String c a +:+ b = String c (a +:+ b).
Proof. reflexivity. Qed.

Lemma string_app_length (a b : string) :
  String.length (a +:+ b) = (String.length a + String.length b)%nat.
Proof.
  induction a as [|c a IH]; [reflexivity|].
  rewrite string_app_cons. cbn [String.length]. now rewrite IH.
Qed.

Lemma string_app_assoc (a b c : string) : (a +:+ b) +:+ c = a +:+ b +:+ c.
Proof.
  induction a as [|x a IH]; [reflexivity|].
  rewrite !string_app_cons. now rewrite IH.
Qed.

Lemma string_app_eq_length (a b x y : string) :
  String.length a = String.length b -> a +:+ x = b +:+ y -> a = b /\ x = y.
Proof.
  revert b. induction a as [|c a IH]; intros [|d b] Hlen Heq;
    try discriminate Hlen.
  - split; [reflexivity|exact Heq].
  - rewrite !string_app_cons in Heq. injection Heq as -> Heq.
    injection Hlen as Hlen.
    destruct (IH b Hlen Heq) as [-> ->]. split; reflexivity.
Qed.

(** Two strings with endings of the same length are equal only if the
    endings are. *)
Lemma string_app_same_end (a b x y : string) :
  String.length x = String.length y -> a +:+ x = b +:+ y -> a = b /\ x = y.
Proof.
  intros Hlen Heq. apply string_app_eq_length; [|assumption].
  apply (f_equal String.length) in Heq. rewrite !string_app_length in Heq. lia.
Qed.

Lemma joinpath_inj dir a b : joinpath dir a = joinpath dir b -> a = b.
Proof.
  unfold joinpath. intros H. apply String.app_inj in H. now injection H.
Qed.

Lemma decimal_go_acc s : forall acc,
  decimal_go acc s = (acc * 10 ^ N.of_nat (String.length s) + decimal_go 0 s)%N.
Proof.
  induction s as [|c s IH]; intros acc; cbn [decimal_go String.length].
  - simpl. lia.
  - rewrite (IH (acc * 10 + digit_value c)%N), (IH (0 * 10 + digit_value c)%N).
    rewrite Nat2N.inj_succ, N.pow_succ_r'. lia.
Qed.

Lemma decimal_value_cons c s :
  decimal_value (String c s)
  = (digit_value c * 10 ^ N.of_nat (String.length s) + decimal_value s)%N.
Proof.
  unfold decimal_value. cbn [decimal_go]. rewrite decimal_go_acc. lia.
Qed.

Lemma digit_value_pretty d : (d < 10)%N -> digit_value (pretty_N_char d) = d.
Proof.
  intros H.
  assert (d = 0 \/ d = 1 \/ d = 2 \/ d = 3 \/ d = 4 \/ d = 5 \/ d = 6 \/ d = 7
          \/ d = 8 \/ d = 9)%N as Hd by lia.
  repeat (destruct Hd as [->|Hd]; [reflexivity|]). now subst.
Qed.

Lemma decimal_value_pretty_go x : forall s,
  decimal_value (pretty_N_go x s)
  = (x * 10 ^ N.of_nat (String.length s) + decimal_value s)%N.
Proof.
  induction (N.lt_wf_0 x) as [x _ IH]; intros s.
  destruct (N.eq_dec x 0%N) as [->|Hx].
  - rewrite pretty_N_go_0. lia.
  - rewrite pretty_N_go_step by lia.
    rewrite IH by (apply N.div_lt; lia).
    rewrite decimal_value_cons, digit_value_pretty by (apply N.mod_lt; lia).
    cbn [String.length]. rewrite Nat2N.inj_succ, N.pow_succ_r'.
    pose proof (N.div_mod x 10 ltac:(lia)). nia.
Qed.

(** Reading back a printed number gives the number. *)
Lemma decimal_value_pretty (i : nat) : decimal_value (pretty i) = N.of_nat i.
Proof.
  unfold pretty, pretty_nat, pretty, pretty_N.
  destruct (decide (N.of_nat i = 0%N)) as [->|_]; [reflexivity|].
  rewrite decimal_value_pretty_go. cbn. lia.
Qed.

End Strings.

(** ** The state transformer *)

Section Calls.

Lemma grows_ret {A} (a : A) : grows (ret a).
Proof. intros w. reflexivity. Qed.

Lemma grows_raise {A} e : grows (@raise A e).
Proof. intros w. reflexivity. Qed.

Lemma grows_pending {A} : grows (@pending A).
Proof. intros w. reflexivity. Qed.

Lemma grows_lift {A} (o : outcome A) : grows (lift o).
Proof. intros w. reflexivity. Qed.

Lemma grows_call c : grows (call c).
Proof. intros w. simpl. now apply prefix_app_r. Qed.

Lemma grows_write_file p b : grows (write_file p b).
Proof. intros w. reflexivity. Qed.

Lemma grows_unlink p : grows (unlink p).
Proof. intros w. unfold unlink. destruct (files w !! p) as [[]|]; reflexivity. Qed.

Lemma grows_mkdir p : grows (mkdir p).
Proof. intros w. unfold mkdir. destruct (files w !! p) as [[]|]; reflexivity. Qed.

Lemma grows_path_exists p : grows (path_exists p).
Proof. intros w. reflexivity. Qed.

(** A prefix of the log after [m] is a prefix of the log after anything
    that follows [m]. *)
Lemma bind_prefix {A B} (m : M A) (k : A -> M B) w l :
  l `prefix_of` calls (snd (m w)) -> (forall a, grows (k a)) ->
  l `prefix_of` calls (snd (Sys.bind m k w)).
Proof.
  intros Hm Hk. unfold Sys.bind.
  destruct (m w) as [[a|e|] w']; simpl in *; try assumption.
  etransitivity; [exact Hm|apply Hk].
Qed.

Lemma grows_bind {A B} (m : M A) (k : A -> M B) :
  grows m -> (forall a, grows (k a)) -> grows (Sys.bind m k).
Proof. intros Hm Hk w. apply bind_prefix; [apply Hm|exact Hk]. Qed.

Lemma grows_for_each {A} (xs : list A) f :
  (forall x, grows (f x)) -> grows (for_each xs f).
Proof.
  intros Hf. induction xs; simpl; [apply grows_ret|].
  apply grows_bind; [apply Hf|intros _; exact IHxs].
Qed.

Lemma slept_app w c :
  slept (mkWorld (files w) (calls w ++ [c])) =
  slept w + match c with CallSleep s => s | _ => 0 end.
Proof.
  unfold slept. simpl. induction (calls w) as [|c' l IH]; simpl.
  - destruct c; lia.
  - rewrite IH. destruct c'; lia.
Qed.

End Calls.

Create HintDb grows.
#[export] Hint Resolve grows_ret grows_raise grows_pending grows_lift grows_call
grows_write_file grows_unlink grows_mkdir grows_path_exists : grows.

Ltac grows_step :=
match goal with
| |- grows (Sys.bind _ _) => apply grows_bind; [|intros ?]
| |- grows (match ?x with _ => _ end) => destruct x
| |- grows (for_each _ _) => apply grows_for_each; intros ?
| |- grows _ => solve [auto with grows]
end.

(** ** Remote jobs: the two polling loops *)

Section Poller.

Import Pipeline Assets.

Variable env : Env.
Variable url : string.

(** One turn of either loop on a document that is not terminal. *)
Ltac poll_turn :=
  unfold Sys.bind at 1; cbn [call]; unfold Sys.bind at 1; cbn [call files calls].

Lemma poll_video_running fuel : forall k w,
  (forall j, terminal (replicate_get env url j) = false) ->
  exists w', poll_video env fuel url k w = (Pending, w') /\
             files w' = files w /\
             slept w' = slept w + 5 * Z.of_nat fuel.
Proof.
  induction fuel as [|fuel IH]; intros k w Hrun.
  - exists w. simpl. repeat split; lia.
  - specialize (Hrun k) as Hk. unfold terminal in Hk.
    apply orb_false_iff in Hk as [Hs Hf].
    cbn [poll_video]. poll_turn. rewrite Hs, Hf.
    destruct (IH (S k)
                (mkWorld (files w) ((calls w ++ [CallSleep 5]) ++ [CallReplicateGet url]))
                Hrun) as (w' & -> & Hfiles & Hslept).
    exists w'. split; [reflexivity|]. split; [exact Hfiles|].
    rewrite Hslept.
    rewrite (slept_app (mkWorld (files w) (calls w ++ [CallSleep 5]))).
    rewrite (slept_app w). lia.
Qed.

Lemma poll_image_running fuel : forall k w,
  (forall j, terminal (replicate_get env url j) = false) ->
  exists w', poll_image env fuel url k w = (Pending, w') /\
             files w' = files w /\
             slept w' = slept w + 3 * Z.of_nat fuel.
Proof.
  induction fuel as [|fuel IH]; intros k w Hrun.
  - exists w. simpl. repeat split; lia.
  - specialize (Hrun k) as Hk. unfold terminal in Hk.
    apply orb_false_iff in Hk as [Hs Hf].
    cbn [poll_image]. poll_turn. rewrite Hs, Hf.
    destruct (IH (S k)
                (mkWorld (files w) ((calls w ++ [CallSleep 3]) ++ [CallReplicateGet url]))
                Hrun) as (w' & -> & Hfiles & Hslept).
    exists w'. split; [reflexivity|]. split; [exact Hfiles|].
    rewrite Hslept.
    rewrite (slept_app (mkWorld (files w) (calls w ++ [CallSleep 3]))).
    rewrite (slept_app w). lia.
Qed.

(** Both loops leave as soon as a poll returns a terminal document: with
    the output on "succeeded", with a [RuntimeError] carrying the remote
    reason on "failed". *)
Lemma poll_video_reaches fuel : forall n k w,
  (forall j, (j < n)%nat -> terminal (replicate_get env url (k + j)) = false) ->
  terminal (replicate_get env url (k + n)) = true ->
  (n < fuel)%nat ->
  exists w', files w' = files w /\
    poll_video env fuel url k w =
      (if String.eqb (status (replicate_get env url (k + n))) "succeeded"
       then Ret (output (replicate_get env url (k + n)))
       else Raise (RuntimeError ("Video generation failed: " +:+
                                  error (replicate_get env url (k + n)))), w').
Proof.
  induction fuel as [|fuel IH]; intros n k w Hrun Hterm Hfuel; [lia|].
  cbn [poll_video]. poll_turn.
  destruct n as [|n].
  - rewrite Nat.add_0_r in *. unfold terminal in Hterm.
    destruct (String.eqb (status (replicate_get env url k)) "succeeded") eqn:E.
    + eexists. split; [|reflexivity]. reflexivity.
    + simpl in Hterm. rewrite Hterm. eexists. split; [|reflexivity]. reflexivity.
  - pose proof (Hrun 0%nat ltac:(lia)) as H0. rewrite Nat.add_0_r in H0.
    unfold terminal in H0. apply orb_false_iff in H0 as [-> ->].
    edestruct (IH n (S k)) as (w' & Hf & ->).
    + intros j Hj. replace (S k + j)%nat with (k + S j)%nat by lia. apply Hrun. lia.
    + replace (S k + n)%nat with (k + S n)%nat by lia. exact Hterm.
    + lia.
    + replace (S k + n)%nat with (k + S n)%nat by lia.
      exists w'. split; [exact Hf|reflexivity].
Qed.

Lemma poll_image_reaches fuel : forall n k w,
  (forall j, (j < n)%nat -> terminal (replicate_get env url (k + j)) = false) ->
  terminal (replicate_get env url (k + n)) = true ->
  (n < fuel)%nat ->
  exists w', files w' = files w /\
    poll_image env fuel url k w =
      (if String.eqb (status (replicate_get env url (k + n))) "succeeded"
       then Ret (output (replicate_get env url (k + n)))
       else Raise (RuntimeError ("Generation failed: " +:+
                                  error (replicate_get env url (k + n)))), w').
Proof.
  induction fuel as [|fuel IH]; intros n k w Hrun Hterm Hfuel; [lia|].
  cbn [poll_image]. poll_turn.
  destruct n as [|n].
  - rewrite Nat.add_0_r in *. unfold terminal in Hterm.
    destruct (String.eqb (status (replicate_get env url k)) "succeeded") eqn:E.
    + eexists. split; [|reflexivity]. reflexivity.
    + simpl in Hterm. rewrite Hterm. eexists. split; [|reflexivity]. reflexivity.
  - pose proof (Hrun 0%nat ltac:(lia)) as H0. rewrite Nat.add_0_r in H0.
    unfold terminal in H0. apply orb_false_iff in H0 as [-> ->].
    edestruct (IH n (S k)) as (w' & Hf & ->).
    + intros j Hj. replace (S k + j)%nat with (k + S j)%nat by lia. apply Hrun. lia.
    + replace (S k + n)%nat with (k + S n)%nat by lia. exact Hterm.
    + lia.
    + replace (S k + n)%nat with (k + S n)%nat by lia.
      exists w'. split; [exact Hf|reflexivity].
Qed.

Lemma poll_video_files fuel : forall k w,
  files (snd (poll_video env fuel url k w)) = files w.
Proof.
  induction fuel as [|fuel IH]; intros k w; [reflexivity|].
  cbn [poll_video]. poll_turn.
  destruct (String.eqb _ "succeeded"); [reflexivity|].
  destruct (String.eqb _ "failed"); [reflexivity|].
  now rewrite IH.
Qed.

Lemma grows_poll_video fuel : forall k, grows (poll_video env fuel url k).
Proof.
  induction fuel as [|fuel IH]; intros k; cbn [poll_video]; [apply grows_pending|].
  repeat grows_step.
Qed.

(** C1, as the code has it: the polling loops of
    [ReplicateVideoProvider.generate_clip] and
    [ImageGenerator._generate_replicate] have no wall-clock budget.  While
    the backend reports neither "succeeded" nor "failed", after any number
    [n] of polls the loop has slept [5 * n] (respectively [3 * n]) seconds,
    has touched no file and is still polling: it has neither returned nor
    raised, so no time-out error is ever raised. *)
Theorem poll_loops_have_no_budget (n : nat) (w : World) :
  (forall j, terminal (replicate_get env url j) = false) ->
  (exists w', poll_video env n url 0 w = (Pending, w') /\
              files w' = files w /\ slept w' = slept w + 5 * Z.of_nat n) /\
  (exists w', poll_image env n url 0 w = (Pending, w') /\
              files w' = files w /\ slept w' = slept w + 3 * Z.of_nat n).
Proof.
  intros Hrun. split.
  - now apply poll_video_running.
  - now apply poll_image_running.
Qed.

End Poller.

Lemma poll_loops_have_no_budget_witness :
  (exists w', Pipeline.poll_video stuck_env 100 job_url 0 empty_world = (Pending, w') /\
              files w' = files empty_world /\ slept w' = slept empty_world + 5 * 100) /\
  (exists w', Assets.poll_image stuck_env 100 job_url 0 empty_world = (Pending, w') /\
              files w' = files empty_world /\ slept w' = slept empty_world + 3 * 100).
Proof.
  apply (poll_loops_have_no_budget stuck_env job_url 100 empty_world).
  intros j. reflexivity.
Defined.

(** The calls that contain the loops do not end either. *)
Lemma generate_clip_pending env fuel model prompt d out w url :
  replicate_post env prompt = Some url ->
  (forall j, terminal (replicate_get env url j) = false) ->
  fst (Pipeline.generate_clip env fuel (Pipeline.ReplicateVideoProvider model)
                              prompt d out w) = Pending.
Proof.
  intros Hpost Hrun. unfold Pipeline.generate_clip.
  unfold Sys.bind at 1. cbn [call]. rewrite Hpost. unfold Sys.bind at 1.
  destruct (poll_video_running env url fuel 0
              (mkWorld (files w)
                       (calls w ++ [CallReplicatePost model prompt])) Hrun)
    as (w' & -> & _). reflexivity.
Qed.

Lemma generate_replicate_pending env fuel self prompt wd ht out w url :
  replicate_post env prompt = Some url ->
  (forall j, terminal (replicate_get env url j) = false) ->
  fst (Assets._generate_replicate env fuel self prompt wd ht out w) = Pending.
Proof.
  intros Hpost Hrun. unfold Assets._generate_replicate.
  unfold Sys.bind at 1. cbn [call]. rewrite Hpost. unfold Sys.bind at 1.
  destruct (poll_image_running env url fuel 0
              (mkWorld (files w)
                       (calls w ++ [CallReplicatePost Assets.sdxl_version prompt]))
              Hrun)
    as (w' & -> & _). reflexivity.
Qed.

(** C1, as the specification has it, fails on a job that never leaves
    "processing": whatever number of polls is granted, neither loop raises
    a time-out error (or anything else); it is still polling, and so is the
    call of [generate_clip] around it. *)
Lemma stuck_job_never_times_out :
  (forall fuel,
     fst (Pipeline.poll_video stuck_env fuel job_url 0 empty_world) = Pending) /\
  (forall fuel,
     fst (Assets.poll_image stuck_env fuel job_url 0 empty_world) = Pending) /\
  (forall fuel,
     fst (Pipeline.generate_clip stuck_env fuel
            (Pipeline.ReplicateVideoProvider "stability-ai/stable-video-diffusion")
            "a red door" 5 "./output/clip_00.mp4" empty_world) = Pending) /\
  ~ (exists fuel e w,
       Pipeline.poll_video stuck_env fuel job_url 0 empty_world = (Raise e, w) /\
       is_timeout e = true) /\
  ~ (exists fuel e w,
       Assets.poll_image stuck_env fuel job_url 0 empty_world = (Raise e, w) /\
       is_timeout e = true).
Proof.
  assert (Hrun : forall j, terminal (replicate_get stuck_env job_url j) = false)
    by reflexivity.
  repeat split.
  - intros fuel.
    destruct (poll_video_running stuck_env job_url fuel 0 empty_world Hrun)
      as (w' & -> & _). reflexivity.
  - intros fuel.
    destruct (poll_image_running stuck_env job_url fuel 0 empty_world Hrun)
      as (w' & -> & _). reflexivity.
  - intros fuel. now apply (generate_clip_pending stuck_env fuel _ _ _ _ _ job_url).
  - intros (fuel & e & w & H & _).
    destruct (poll_video_running stuck_env job_url fuel 0 empty_world Hrun)
      as (w' & H' & _). congruence.
  - intros (fuel & e & w & H & _).
    destruct (poll_image_running stuck_env job_url fuel 0 empty_world Hrun)
      as (w' & H' & _). congruence.
Qed.

(** ** pipeline.py *)

Section PipelineNarration.

Import Pipeline.

Lemma join_snoc sep (l : list string) x :
  join sep (l ++ [x]) = match l with [] => x | _ => join sep l +:+ sep +:+ x end.
Proof.
  destruct l as [|a l]; [reflexivity|].
  unfold join. simpl. rewrite fold_left_app. reflexivity.
Qed.

Lemma scene_at_offset (l : list Scene) : forall off,
  (forall i s, l !! i = Some s -> index s = (off + i)%nat) ->
  forall i, List.find (fun s => Nat.eqb (index s) (off + i)) l = l !! i.
Proof.
  induction l as [|a l IH]; intros off Hidx i.
  - now destruct i.
  - pose proof (Hidx 0%nat a eq_refl) as Ha. rewrite Nat.add_0_r in Ha.
    destruct i as [|i]; simpl.
    + rewrite Nat.add_0_r, Ha, Nat.eqb_refl. reflexivity.
    + destruct (Nat.eqb_spec (index a) (off + S i)) as [E|_]; [lia|].
      replace (off + S i)%nat with (S off + i)%nat by lia.
      apply IH. intros j s Hj. rewrite (Hidx (S j) s Hj). lia.
Qed.

Lemma scene_at_indexed scenes i : indexed scenes -> scene_at scenes i = scenes !! i.
Proof. intros H. apply (scene_at_offset scenes 0%nat). exact H. Qed.

Lemma spec_narration_take scenes : indexed scenes -> forall n,
  (n <= length scenes)%nat ->
  spec_narration scenes n = join " " (map narration (take n scenes)).
Proof.
  intros Hidx. induction n as [|n IH]; intros Hn; [reflexivity|].
  destruct (lookup_lt_is_Some_2 scenes n ltac:(lia)) as [x Hx].
  rewrite (take_S_r _ _ _ Hx), map_app. cbn [map]. rewrite join_snoc.
  destruct n as [|n].
  - rewrite take_0. cbn. unfold narration_at.
    now rewrite (scene_at_indexed _ _ Hidx), Hx.
  - change (spec_narration scenes (S (S n))) with
      (spec_narration scenes (S n) +:+ " " +:+ narration_at scenes (S n)).
    rewrite IH by lia. unfold narration_at.
    rewrite (scene_at_indexed _ _ Hidx), Hx.
    destruct scenes as [|a l]; [discriminate|]. reflexivity.
Qed.

Lemma to_narration_in_index_order script :
  indexed (scenes script) ->
  to_narration script = spec_narration (scenes script) (length (scenes script)).
Proof.
  intros H. rewrite (spec_narration_take _ H) by lia. now rewrite take_ge by lia.
Qed.

Lemma scenes_from_lookup data : forall off i s,
  scenes_from off data !! i = Some s ->
  exists d, data !! i = Some d /\
    s = mkSceneRec (off + i) (sd_start_time d) (sd_end_time d) (sd_narration d)
                   (sd_visual_prompt d) (sd_text_overlay d).
Proof.
  induction data as [|d data IH]; intros off i s H; [now destruct i|].
  destruct i as [|i]; simpl in H.
  - injection H as <-. exists d. rewrite Nat.add_0_r. split; reflexivity.
  - destruct (IH _ _ _ H) as (d' & Hd & ->). exists d'. split; [exact Hd|].
    f_equal. lia.
Qed.

Lemma scenes_from_lookup_data data : forall off i d,
  data !! i = Some d ->
  scenes_from off data !! i =
    Some (mkSceneRec (off + i) (sd_start_time d) (sd_end_time d) (sd_narration d)
                     (sd_visual_prompt d) (sd_text_overlay d)).
Proof.
  induction data as [|d0 data IH]; intros off i d H; [now destruct i|].
  destruct i as [|i]; simpl in *.
  - injection H as <-. now rewrite Nat.add_0_r.
  - rewrite (IH (S off) i d H). do 2 f_equal. lia.
Qed.

Lemma scenes_from_indexed data : indexed (scenes_from 0 data).
Proof.
  intros i s H. destruct (scenes_from_lookup _ _ _ _ H) as (d & _ & ->). reflexivity.
Qed.

Lemma generate_script_inv env topic style duration w script w1 :
  generate_script env topic style duration w = (Ret script, w1) ->
  exists title data,
    claude_reply env topic style duration = ReplyData title data /\
    script = mkVideoScript title topic style (inject_Z duration) (scenes_from 0 data) /\
    w1 = mkWorld (files w) (calls w ++ [CallClaude topic style duration]).
Proof.
  unfold generate_script. unfold Sys.bind. cbn [call].
  destruct (claude_reply env topic style duration); cbn; intros [= <- <-]; eauto.
Qed.

Lemma grows_run_ffmpeg env out : grows (run_ffmpeg env out).
Proof. unfold run_ffmpeg. repeat grows_step. Qed.

Lemma grows_generate_clip env fuel provider prompt d out :
  grows (generate_clip env fuel provider prompt d out).
Proof.
  unfold generate_clip. destruct provider; repeat grows_step;
    auto using grows_poll_video, grows_run_ffmpeg.
Qed.

Lemma grows_generate_clips env fuel self todo : forall i,
  grows (generate_clips env fuel self i todo).
Proof.
  induction todo as [|s todo IH]; intros i; cbn [generate_clips]; [apply grows_ret|].
  apply grows_bind; [apply grows_generate_clip|intros clip].
  apply grows_bind; [apply IH|intros clips]. apply grows_ret.
Qed.

Lemma grows_compile env dir clips audio script :
  grows (compile env dir clips audio script).
Proof. unfold compile. repeat grows_step; apply grows_run_ffmpeg. Qed.

Lemma grows_cleanup clips audio : grows (cleanup clips audio).
Proof. unfold cleanup. repeat grows_step. Qed.

(** The first thing [generate_audio] does is to send the text. *)
Lemma generate_audio_calls env provider text out voice w :
  (calls w ++ [tts_call provider text voice])
    `prefix_of` calls (snd (generate_audio env provider text out voice w)).
Proof.
  unfold generate_audio. destruct provider; unfold Sys.bind at 1; cbn [call tts_call].
  - destruct (edge_tts_error env text); [reflexivity|].
    match goal with |- _ `prefix_of` calls (snd (?m ?w')) =>
      assert (grows m) as H by (repeat grows_step); apply (H w') end.
  - destruct (openai_speech_ok env text); [|reflexivity].
    match goal with |- _ `prefix_of` calls (snd (?m ?w')) =>
      assert (grows m) as H by (repeat grows_step); apply (H w') end.
Qed.

Lemma generate_calls_speech env fuel self topic style duration w script w1 :
  generate_script env topic style duration w = (Ret script, w1) ->
  (calls w1 ++ [tts_call (tts_provider self) (to_narration script)
                         (default_voice (tts_provider self))])
    `prefix_of` calls (snd (generate env fuel self topic style duration w)).
Proof.
  intros Hgen. unfold generate. apply bind_prefix.
  - unfold generate_inputs. unfold Sys.bind at 1. rewrite Hgen.
    unfold Sys.bind at 1. cbn [write_file]. apply bind_prefix.
    + exact (generate_audio_calls env _ _ _ _ (mkWorld _ (calls w1))).
    + intros audio.
      apply grows_bind; [apply grows_generate_clips|intros; apply grows_ret].
  - intros [[script' audio] clips].
    apply grows_bind; [apply grows_compile|intros].
    apply grows_bind; [apply grows_cleanup|intros; apply grows_ret].
Qed.

(** C8: for every valid script (scene indices are the positions of the
    scenes), [to_narration] is the text made of the narrations of the
    scenes 0, 1, ..., n-1, each taken once and in index order, joined by
    single spaces; every script that [generate_script] returns is valid, and
    this text is what [VideoPipeline.generate] sends to speech synthesis
    right after the script call. *)
Theorem narration_in_index_order :
  (forall script,
     indexed (scenes script) ->
     to_narration script
     = spec_narration (scenes script) (length (scenes script))) /\
  (forall env fuel self topic style duration w script w1,
     generate_script env topic style duration w = (Ret script, w1) ->
     indexed (scenes script) /\
     (calls w1 ++
        [tts_call (tts_provider self)
           (spec_narration (scenes script) (length (scenes script)))
           (default_voice (tts_provider self))])
       `prefix_of` calls (snd (generate env fuel self topic style duration w))).
Proof.
  split; [exact to_narration_in_index_order|].
  intros env fuel self topic style duration w script w1 Hgen.
  assert (Hidx : indexed (scenes script)).
  { destruct (generate_script_inv _ _ _ _ _ _ _ Hgen) as (t & data & _ & -> & _).
    apply scenes_from_indexed. }
  split; [exact Hidx|].
  rewrite <- (to_narration_in_index_order script Hidx).
  now apply generate_calls_speech.
Qed.

End PipelineNarration.

Lemma narration_in_index_order_witness :
  Pipeline.to_narration demo_script = "Hook. Oops. End." /\
  (calls (snd (Pipeline.generate_script quiet_env "doors" "dramatic" 60 empty_world))
     ++ [CallOpenAISpeech "Hook. Oops. End." "onyx"])
    `prefix_of`
    calls (snd (Pipeline.generate quiet_env 1 demo_pipeline "doors" "dramatic" 60
                                  empty_world)).
Proof.
  split.
  - rewrite (proj1 narration_in_index_order demo_script).
    + reflexivity.
    + intros i s H.
      destruct i as [|[|[|i]]]; vm_compute in H; try discriminate;
        injection H as <-; reflexivity.
  - exact (proj2 (proj2 narration_in_index_order quiet_env 1%nat demo_pipeline
                   "doors" "dramatic" 60 empty_world demo_script
                   (snd (Pipeline.generate_script quiet_env "doors" "dramatic" 60
                                                  empty_world))
                   eq_refl)).
Defined.

Section PipelineScript.

Import Pipeline.

Lemma scenes_from_narrations data : forall off,
  map narration (scenes_from off data) = map sd_narration data.
Proof. induction data as [|d data IH]; intros off; simpl; [reflexivity|]. now rewrite IH. Qed.

(** C2, as the code has it: [generate_script] checks no scene interval.
    Whatever scene list the script service replies with (also one with
    [end_time <= start_time], with overlapping scenes, or with a last
    [end_time] different from the requested duration), the script returned
    carries that list unchanged, scene [i] with index [i] and the times as
    given; no outcome of [generate_script] is a validation error; and
    [VideoPipeline.generate] goes on to the speech-synthesis request. *)
Theorem generate_script_accepts_any_intervals (env : Env) (topic style : string)
    (duration : Z) (w : World) :
  (forall e w',
     generate_script env topic style duration w = (Raise e, w') ->
     is_validation e = false) /\
  (forall title data,
     claude_reply env topic style duration = ReplyData title data ->
     generate_script env topic style duration w =
       (Ret (mkVideoScript title topic style (inject_Z duration)
                           (scenes_from 0 data)),
        mkWorld (files w) (calls w ++ [CallClaude topic style duration])) /\
     (forall i d,
        data !! i = Some d ->
        scenes_from 0 data !! i =
          Some (mkSceneRec i (sd_start_time d) (sd_end_time d) (sd_narration d)
                           (sd_visual_prompt d) (sd_text_overlay d))) /\
     (forall fuel self,
        (calls w ++ [CallClaude topic style duration;
                     tts_call (tts_provider self)
                              (join " " (map sd_narration data))
                              (default_voice (tts_provider self))])
          `prefix_of`
          calls (snd (generate env fuel self topic style duration w)))).
Proof.
  split.
  - unfold generate_script. unfold Sys.bind. cbn [call].
    destruct (claude_reply env topic style duration); cbn;
      intros e w' [= <- _]; reflexivity.
  - intros title data Hreply.
    assert (Hgen : generate_script env topic style duration w =
      (Ret (mkVideoScript title topic style (inject_Z duration) (scenes_from 0 data)),
       mkWorld (files w) (calls w ++ [CallClaude topic style duration]))).
    { unfold generate_script. unfold Sys.bind. cbn [call]. now rewrite Hreply. }
    split; [exact Hgen|]. split.
    + intros i d Hd. exact (scenes_from_lookup_data data 0%nat i d Hd).
    + intros fuel self.
      pose proof (generate_calls_speech env fuel self _ _ _ _ _ _ Hgen) as H.
      unfold to_narration in H. cbn [scenes calls] in H.
      rewrite scenes_from_narrations in H.
      rewrite <- app_assoc in H. exact H.
Qed.

End PipelineScript.

Lemma generate_script_accepts_any_intervals_witness :
  Pipeline.generate_script quiet_env "doors" "dramatic" 60 empty_world =
    (Ret (Pipeline.mkVideoScript "Backwards" "doors" "dramatic" (inject_Z 60)
            (Pipeline.scenes_from 0 backwards_scenes)),
     mkWorld ∅ [CallClaude "doors" "dramatic" 60]).
Proof.
  exact (proj1 (proj2 (generate_script_accepts_any_intervals
                         quiet_env "doors" "dramatic" 60 empty_world)
                      "Backwards" backwards_scenes eq_refl)).
Defined.

(** C2, as the specification has it, fails on a reply whose second scene
    ends before it starts, whose third scene starts before the second ends
    and whose last scene ends at 40 of 60 seconds: the script is accepted,
    the run sends it to speech synthesis and to the encoder, and returns the
    final video. *)
Lemma backwards_scenes_are_not_rejected :
  existsb (fun d => Qle_bool (sd_end_time d) (sd_start_time d)) backwards_scenes
    = true /\
  match backwards_scenes with
  | [_; second; last] =>
      Orchestrate.Qltb (sd_start_time last) (sd_end_time second)
      && negb (Qeq_bool (sd_end_time last) 60)
  | _ => false
  end = true /\
  Pipeline.scenes demo_script =
    [ Pipeline.mkSceneRec 0 0 5 "Hook." "a door" None;
      Pipeline.mkSceneRec 1 5 2 "Oops." "a clock" (Some "WAIT");
      Pipeline.mkSceneRec 2 1 40 "End." "a sunset" None ] /\
  fst (Pipeline.generate_script quiet_env "doors" "dramatic" 60 empty_world)
    = Ret demo_script /\
  fst (Pipeline.generate quiet_env 1 demo_pipeline "doors" "dramatic" 60 empty_world)
    = Ret "./output/video_20240101_000001.mp4" /\
  calls (snd (Pipeline.generate quiet_env 1 demo_pipeline "doors" "dramatic" 60
                                empty_world))
    = [ CallClaude "doors" "dramatic" 60;
        CallOpenAISpeech "Hook. Oops. End." "onyx";
        CallFfprobe "./output/voiceover.mp3";
        CallFfmpeg "./output/clip_00.mp4";
        CallFfmpeg "./output/clip_01.mp4";
        CallFfmpeg "./output/clip_02.mp4";
        CallFfmpeg "./output/temp_concat.mp4";
        CallFfmpeg "./output/video_20240101_000001.mp4" ].
Proof. repeat split; vm_compute; reflexivity. Qed.

Section PipelineSpeech.

Import Pipeline.

Lemma probed_duration_empty env stdout :
  strip stdout = "" -> probed_duration env stdout = Ret 0%Q.
Proof. intros H. unfold probed_duration. rewrite H. reflexivity. Qed.

(** C9: when the provider has produced the audio artifact and the duration
    probe prints nothing (or only white space), [generate_audio] of either
    provider returns an audio asset for the output path whose duration is
    0; it raises nothing. *)
Theorem generate_audio_empty_probe (env : Env) (provider : TTSProvider)
    (text output_path voice : string) (w : World) :
  synthesized env provider text ->
  strip (ffprobe_stdout env output_path) = "" ->
  exists asset w',
    generate_audio env provider text output_path voice w = (Ret asset, w') /\
    duration asset = 0%Q /\ path asset = output_path /\
    asset_type asset = "audio".
Proof.
  intros Hsyn Hprobe. destruct provider; simpl in Hsyn; unfold generate_audio.
  - unfold Sys.bind at 1. cbn [call]. rewrite Hsyn.
    unfold Sys.bind at 1. cbn [write_file]. unfold Sys.bind at 1. cbn [call].
    unfold Sys.bind at 1. unfold lift. rewrite (probed_duration_empty _ _ Hprobe).
    do 2 eexists. split; [reflexivity|]. repeat split.
  - unfold Sys.bind at 1. cbn [call]. rewrite Hsyn.
    unfold Sys.bind at 1. cbn [write_file]. unfold Sys.bind at 1. cbn [call].
    unfold Sys.bind at 1. unfold lift. rewrite (probed_duration_empty _ _ Hprobe).
    do 2 eexists. split; [reflexivity|]. repeat split.
Qed.

End PipelineSpeech.

Lemma generate_audio_empty_probe_witness :
  exists asset w',
    Pipeline.generate_audio quiet_env Pipeline.OpenAITTSProvider "Hook. Oops. End."
      "./output/voiceover.mp3" "onyx" empty_world = (Ret asset, w') /\
    Pipeline.duration asset = 0%Q /\
    Pipeline.path asset = "./output/voiceover.mp3" /\
    Pipeline.asset_type asset = "audio".
Proof.
  apply (generate_audio_empty_probe quiet_env Pipeline.OpenAITTSProvider);
    reflexivity.
Defined.

Section PipelineArtifacts.

Import Pipeline.

Lemma decimal_value_fmt_02d i : decimal_value (fmt_02d i) = N.of_nat i.
Proof.
  unfold fmt_02d. destruct (i <? 10)%nat; [|apply decimal_value_pretty].
  change (decimal_value ("0" +:+ pretty i)) with (decimal_go (0 * 10 + 0) (pretty i)).
  apply decimal_value_pretty.
Qed.

Lemma fmt_02d_inj i j : fmt_02d i = fmt_02d j -> i = j.
Proof.
  intros H. apply (f_equal decimal_value) in H.
  rewrite !decimal_value_fmt_02d in H. lia.
Qed.

Lemma clip_path_inj dir i j : clip_path dir i = clip_path dir j -> i = j.
Proof.
  intros H. apply joinpath_inj, String.app_inj in H.
  apply string_app_same_end in H as [H _]; [|reflexivity].
  now apply fmt_02d_inj.
Qed.

(** The image written next to a clip never has the name of a pipeline
    artifact. *)
Lemma with_suffix_ends p suffix : exists stem, with_suffix p suffix = stem +:+ suffix.
Proof. unfold with_suffix. destruct (cut_suffix_rev 0 (String.rev p)); eauto. Qed.

Lemma png_not_clip out dir i : with_suffix out ".png" <> clip_path dir i.
Proof.
  destruct (with_suffix_ends out ".png") as [stem ->]. unfold clip_path, joinpath.
  intros H.
  replace (dir +:+ "/" +:+ "clip_" +:+ fmt_02d i +:+ ".mp4")
    with ((dir +:+ "/" +:+ "clip_" +:+ fmt_02d i) +:+ ".mp4") in H
    by (rewrite !string_app_assoc; reflexivity).
  apply string_app_same_end in H as [_ H]; [discriminate|reflexivity].
Qed.

Lemma png_not_audio out dir : with_suffix out ".png" <> audio_path dir.
Proof.
  destruct (with_suffix_ends out ".png") as [stem ->]. unfold audio_path, joinpath.
  intros H.
  change (dir +:+ "/" +:+ "voiceover.mp3") with (dir +:+ "/voiceover" +:+ ".mp3") in H.
  rewrite <- string_app_assoc in H.
  apply string_app_same_end in H as [_ H]; [discriminate|reflexivity].
Qed.

Lemma png_not_script out env dir : with_suffix out ".png" <> script_path env dir.
Proof.
  destruct (with_suffix_ends out ".png") as [stem ->]. unfold script_path, joinpath.
  intros H.
  replace (dir +:+ "/" +:+ "script_" +:+ now_script env +:+ ".json")
    with ((dir +:+ "/" +:+ "script_" +:+ now_script env +:+ ".") +:+ "json") in H
    by (rewrite !string_app_assoc; reflexivity).
  apply string_app_same_end in H as [_ H]; [discriminate|reflexivity].
Qed.

Ltac distinct_names :=
  let H := fresh in
  unfold clip_path, audio_path, script_path, final_path, concat_path, temp_path;
  intros H; apply joinpath_inj in H; cbv [String.append] in H; discriminate.

Section Names.

Variables (env : Env) (dir : string).

Lemma clip_not_audio i : clip_path dir i <> audio_path dir. Proof. distinct_names. Qed.
Lemma clip_not_script i : clip_path dir i <> script_path env dir. Proof. distinct_names. Qed.
Lemma clip_not_final i : clip_path dir i <> final_path env dir. Proof. distinct_names. Qed.
Lemma clip_not_concat i : clip_path dir i <> concat_path dir. Proof. distinct_names. Qed.
Lemma clip_not_temp i : clip_path dir i <> temp_path dir. Proof. distinct_names. Qed.
Lemma audio_not_script : audio_path dir <> script_path env dir. Proof. distinct_names. Qed.
Lemma audio_not_final : audio_path dir <> final_path env dir. Proof. distinct_names. Qed.
Lemma audio_not_concat : audio_path dir <> concat_path dir. Proof. distinct_names. Qed.
Lemma audio_not_temp : audio_path dir <> temp_path dir. Proof. distinct_names. Qed.
Lemma script_not_final : script_path env dir <> final_path env dir. Proof. distinct_names. Qed.
Lemma script_not_concat : script_path env dir <> concat_path dir. Proof. distinct_names. Qed.
Lemma script_not_temp : script_path env dir <> temp_path dir. Proof. distinct_names. Qed.
Lemma final_not_concat : final_path env dir <> concat_path dir. Proof. distinct_names. Qed.
Lemma final_not_temp : final_path env dir <> temp_path dir. Proof. distinct_names. Qed.
Lemma concat_not_temp : concat_path dir <> temp_path dir. Proof. distinct_names. Qed.

End Names.

Lemma generate_clip_ret env fuel provider prompt d out w a w' :
  generate_clip env fuel provider prompt d out w = (Ret a, w') ->
  with_suffix out ".png" <> out ->
  path a = out /\ is_file w' out /\
  (forall p, p <> out ->
     files w' !! p = files w !! p \/
     (p = with_suffix out ".png" /\ files w' !! p = None)).
Proof.
  intros H Hpng. destruct provider as [model|]; unfold generate_clip in H.
  - unfold Sys.bind at 1 in H. cbn [call] in H.
    destruct (replicate_post env prompt) as [url|]; [|discriminate].
    unfold Sys.bind at 1 in H.
    match type of H with context [poll_video ?e ?f ?u ?k ?w0] =>
      pose proof (poll_video_files e u f k w0) as Hfiles;
      destruct (poll_video e f u k w0) as [[video_url|e'|] w2] end;
      try discriminate.
    cbn [Sys.bind ret call write_file files calls] in H. injection H as <- <-.
    cbn [snd] in Hfiles. unfold is_file. cbn [path files].
    split; [reflexivity|]. split.
    + do 2 eexists. apply lookup_insert_eq.
    + intros p Hp. left. rewrite lookup_insert_ne by congruence. now rewrite Hfiles.
  - unfold Sys.bind at 1 in H. cbn [write_file] in H.
    unfold Sys.bind at 1 in H. unfold run_ffmpeg in H. unfold Sys.bind at 1 in H. cbn [call] in H.
    destruct (ffmpeg_run env out) as [|partial].
    + cbn [write_file] in H. unfold Sys.bind at 1 in H. unfold unlink at 1 in H.
      cbn [files calls] in H.
      rewrite lookup_insert_ne, lookup_insert_eq in H by congruence.
      cbn [Sys.bind ret files calls] in H. injection H as <- <-.
      unfold is_file. cbn [path files].
      split; [reflexivity|]. split.
      * do 2 eexists. rewrite lookup_delete_ne by congruence. apply lookup_insert_eq.
      * intros p Hp. destruct (decide (p = with_suffix out ".png")) as [->|Hne].
        -- right. split; [reflexivity|]. apply lookup_delete_eq.
        -- left. rewrite lookup_delete_ne, !lookup_insert_ne by congruence. reflexivity.
    + destruct partial; cbn [Sys.bind ret raise write_file] in H; discriminate.
Qed.

Lemma generate_audio_ret env provider text out voice w a w' :
  generate_audio env provider text out voice w = (Ret a, w') ->
  path a = out /\ is_file w' out /\
  (forall p, p <> out -> files w' !! p = files w !! p).
Proof.
  intros H. unfold generate_audio in H.
  destruct provider; unfold Sys.bind at 1 in H; cbn [call] in H.
  - destruct (edge_tts_error env text); [discriminate|].
    unfold Sys.bind at 1 in H. cbn [write_file] in H. unfold Sys.bind at 1 in H. cbn [call] in H.
    unfold Sys.bind at 1 in H. unfold lift in H.
    destruct (probed_duration env (ffprobe_stdout env out)); try discriminate.
    cbn [Sys.bind ret files calls] in H. injection H as <- <-.
    unfold is_file. cbn [path files]. split; [reflexivity|]. split.
    + do 2 eexists. apply lookup_insert_eq.
    + intros p Hp. now rewrite lookup_insert_ne by congruence.
  - destruct (openai_speech_ok env text); [|discriminate].
    unfold Sys.bind at 1 in H. cbn [write_file] in H. unfold Sys.bind at 1 in H. cbn [call] in H.
    unfold Sys.bind at 1 in H. unfold lift in H.
    destruct (probed_duration env (ffprobe_stdout env out)); try discriminate.
    cbn [Sys.bind ret files calls] in H. injection H as <- <-.
    unfold is_file. cbn [path files]. split; [reflexivity|]. split.
    + do 2 eexists. apply lookup_insert_eq.
    + intros p Hp. now rewrite lookup_insert_ne by congruence.
Qed.

Lemma generate_clips_ret env fuel self todo : forall i w clips w',
  generate_clips env fuel self i todo w = (Ret clips, w') ->
  map path clips = clip_paths (output_dir self) i (length todo) /\
  (forall p, p ∈ clip_paths (output_dir self) i (length todo) -> is_file w' p) /\
  (forall p, p ∉ clip_paths (output_dir self) i (length todo) ->
     files w' !! p = files w !! p \/
     ((exists out, p = with_suffix out ".png") /\ files w' !! p = None)).
Proof.
  induction todo as [|scene todo IH]; intros i w clips w' H.
  - cbn [generate_clips ret] in H. injection H as <- <-. split; [reflexivity|]. split.
    + intros p Hp. inversion Hp.
    + intros p _. now left.
  - cbn [generate_clips] in H. unfold Sys.bind at 1 in H.
    destruct (generate_clip _ _ _ _ _ _ w) as [[clip|e|] w1] eqn:Hclip; try discriminate.
    unfold Sys.bind at 1 in H.
    destruct (generate_clips _ _ _ _ _ w1) as [[rest|e|] w2] eqn:Hrest; try discriminate.
    cbn [ret] in H. injection H as <- <-.
    apply generate_clip_ret in Hclip as (Hpath & Hfile & Hother);
      [|apply png_not_clip].
    destruct (IH _ _ _ _ Hrest) as (Hpaths & Hfiles & Hothers).
    cbn [length]. unfold clip_paths in *. cbn [seq map].
    split; [now rewrite Hpath, Hpaths|]. split.
    + intros p Hp. apply elem_of_cons in Hp as [->|Hp]; [|now apply Hfiles].
      destruct (Hothers (clip_path (output_dir self) i)) as [Heq|[[out Hout] _]].
      * intros Hin. apply list_elem_of_fmap in Hin as (j & Hj & Hin).
        apply clip_path_inj in Hj. subst j.
        apply elem_of_seq in Hin. lia.
      * destruct Hfile as (a & b & Hf). exists a, b. now rewrite Heq.
      * exfalso. symmetry in Hout. exact (png_not_clip _ _ _ Hout).
    + intros p Hp. apply not_elem_of_cons in Hp as [Hp1 Hp2].
      destruct (Hothers p Hp2) as [Heq|Hgone]; [|now right].
      rewrite Heq. destruct (Hother p Hp1) as [Heq1|[Heq1 Hnone]]; [now left|].
      right. split; [eauto|assumption].
Qed.

Lemma compile_frame env dir clips audio script w o w' :
  compile env dir clips audio script w = (o, w') ->
  (forall p, p <> concat_path dir -> p <> temp_path dir -> p <> final_path env dir ->
     files w' !! p = files w !! p) /\
  match o with
  | Ret final =>
      final = final_path env dir /\ is_file w' final /\
      files w' !! concat_path dir = None /\ files w' !! temp_path dir = None
  | Raise e => e = CalledProcessError "ffmpeg"
  | Pending => False
  end.
Proof.
  pose proof (concat_not_temp dir) as Hct.
  pose proof (final_not_concat env dir) as Hfc.
  pose proof (final_not_temp env dir) as Hft.
  unfold compile. fold (final_path env dir) (concat_path dir) (temp_path dir).
  intros H. unfold Sys.bind at 1 in H. cbn [write_file] in H.
  unfold Sys.bind at 1 in H. unfold run_ffmpeg at 1 in H. unfold Sys.bind at 1 in H.
  cbn [call] in H.
  destruct (ffmpeg_run env (temp_path dir)) as [|partial1].
  - cbn [write_file] in H. unfold Sys.bind at 1 in H. unfold run_ffmpeg at 1 in H.
    unfold Sys.bind at 1 in H. cbn [call] in H.
    destruct (ffmpeg_run env (final_path env dir)) as [|partial2].
    + cbn [write_file] in H. unfold Sys.bind at 1 in H. unfold unlink at 1 in H.
      cbn [files calls] in H.
      rewrite !lookup_insert_ne, lookup_insert_eq in H by congruence.
      unfold Sys.bind at 1 in H. unfold unlink at 1 in H. cbn [files calls] in H.
      rewrite lookup_delete_ne, lookup_insert_ne, lookup_insert_eq in H by congruence.
      cbn [ret] in H. injection H as <- <-. unfold is_file. cbn [files]. split.
      * intros p H1 H2 H3. now rewrite !lookup_delete_ne, !lookup_insert_ne by congruence.
      * split; [reflexivity|]. split; [|split].
        -- do 2 eexists. rewrite !lookup_delete_ne by congruence. apply lookup_insert_eq.
        -- rewrite lookup_delete_ne by congruence. apply lookup_delete_eq.
        -- apply lookup_delete_eq.
    + destruct partial2; cbn [Sys.bind ret raise write_file files calls] in H;
        injection H as <- <-; cbn [files]; (split; [|reflexivity]); intros p H1 H2 H3;
        now rewrite ?lookup_insert_ne by congruence.
  - destruct partial1; cbn [Sys.bind ret raise write_file files calls] in H;
      injection H as <- <-; cbn [files]; (split; [|reflexivity]); intros p H1 H2 H3;
      now rewrite ?lookup_insert_ne by congruence.
Qed.

Lemma unlink_each (clips : list GeneratedAsset) : forall w,
  NoDup (map path clips) ->
  (forall p, p ∈ map path clips -> is_file w p) ->
  exists w',
    for_each clips (fun clip => unlink (path clip)) w = (Ret tt, w') /\
    (forall p, p ∈ map path clips -> files w' !! p = None) /\
    (forall p, p ∉ map path clips -> files w' !! p = files w !! p).
Proof.
  induction clips as [|clip clips IH]; intros w Hnd Hfiles.
  - exists w. split; [reflexivity|]. split; [intros p Hp; inversion Hp|reflexivity].
  - cbn [map] in *. apply NoDup_cons in Hnd as [Hnotin Hnd].
    destruct (Hfiles (path clip)) as (a & b & Hf); [apply list_elem_of_here|].
    cbn [for_each]. unfold Sys.bind at 1. unfold unlink at 1. rewrite Hf.
    edestruct (IH (mkWorld (delete (path clip) (files w)) (calls w)) Hnd)
      as (w' & Hrun & Hgone & Hkeep).
    { intros p Hp. destruct (Hfiles p) as (a' & b' & Hf'); [now apply list_elem_of_further|].
      exists a', b'. cbn [files]. rewrite lookup_delete_ne; [exact Hf'|].
      intros <-. contradiction. }
    exists w'. split; [exact Hrun|]. split.
    + intros p Hp. apply elem_of_cons in Hp as [->|Hp]; [|now apply Hgone].
      rewrite Hkeep by assumption. cbn [files]. apply lookup_delete_eq.
    + intros p Hp. apply not_elem_of_cons in Hp as [Hp1 Hp2].
      rewrite Hkeep by assumption. cbn [files]. now rewrite lookup_delete_ne by congruence.
Qed.

Lemma cleanup_ok clips audio w :
  NoDup (map path clips) ->
  (forall p, p ∈ map path clips -> is_file w p) ->
  is_file w (path audio) -> path audio ∉ map path clips ->
  exists w',
    cleanup clips audio w = (Ret tt, w') /\
    (forall p, p ∈ map path clips -> files w' !! p = None) /\
    files w' !! path audio = None /\
    (forall p, p ∉ map path clips -> p <> path audio -> files w' !! p = files w !! p).
Proof.
  intros Hnd Hfiles Haudio Hnotin.
  destruct (unlink_each clips w Hnd Hfiles) as (w1 & Hrun & Hgone & Hkeep).
  unfold cleanup. unfold Sys.bind at 1. rewrite Hrun.
  destruct Haudio as (a & b & Hf). rewrite <- Hkeep in Hf by assumption.
  unfold unlink. rewrite Hf. eexists. split; [reflexivity|]. cbn [files]. split; [|split].
  - intros p Hp. rewrite lookup_delete_ne; [now apply Hgone|]. intros <-. contradiction.
  - apply lookup_delete_eq.
  - intros p Hp Hne. rewrite lookup_delete_ne by congruence. now apply Hkeep.
Qed.

Lemma generate_inputs_inv env fuel self topic style duration w0 script audio clips w3 :
  generate_inputs env fuel self topic style duration w0 = (Ret (script, audio, clips), w3) ->
  exists w1 w2,
    generate_script env topic style duration w0 = (Ret script, w1) /\
    generate_audio env (tts_provider self) (to_narration script)
      (audio_path (output_dir self)) (default_voice (tts_provider self))
      (mkWorld (<[script_path env (output_dir self) := BFile "json.dump" (title script)]>
                  (files w1)) (calls w1)) = (Ret audio, w2) /\
    generate_clips env fuel self 0 (scenes script) w2 = (Ret clips, w3).
Proof.
  unfold generate_inputs. intros H. unfold Sys.bind at 1 in H.
  destruct (generate_script env topic style duration w0) as [[script'|e|] w1]; try discriminate.
  unfold Sys.bind at 1 in H. cbn [write_file] in H. unfold Sys.bind at 1 in H.
  destruct (generate_audio _ _ _ _ _ _) as [[audio'|e|] w2] eqn:Haudio; try discriminate.
  unfold Sys.bind at 1 in H.
  destruct (generate_clips _ _ _ _ _ w2) as [[clips'|e|] w3'] eqn:Hclips; try discriminate.
  cbn [ret] in H. injection H as <- <- <- <-. eauto.
Qed.

Lemma clip_paths_elem dir n p :
  p ∈ clip_paths dir 0 n <-> exists i, (i < n)%nat /\ p = clip_path dir i.
Proof.
  unfold clip_paths. rewrite list_elem_of_fmap. split.
  - intros (i & -> & Hi). apply elem_of_seq in Hi. exists i. split; [lia|reflexivity].
  - intros (i & Hi & ->). exists i. split; [reflexivity|]. apply elem_of_seq. lia.
Qed.

Lemma clip_paths_NoDup dir n : NoDup (clip_paths dir 0 n).
Proof.
  unfold clip_paths. apply NoDup_fmap_2; [|apply NoDup_seq].
  intros i j. apply clip_path_inj.
Qed.

(** C3, as the code has it: for every run that reaches final assembly,
    the script JSON, the voice track and every clip are on disk when
    assembly starts.  If assembly succeeds, [generate] returns the path of
    the final video, which is on disk; every clip and the voice track are
    gone; the script JSON is kept; and every other path is either absent or
    holds what it held before the run, so the final video is the only new
    artifact besides the script.  If assembly fails, [generate] raises the
    assembly error and the script JSON, the voice track and every clip are
    still on disk. *)
Theorem generate_cleans_up_after_assembly (env : Env) (fuel : nat)
    (self : VideoPipeline) (topic style : string) (duration : Z)
    (w0 w3 : World) (script : VideoScript) (audio : GeneratedAsset)
    (clips : list GeneratedAsset) :
  generate_inputs env fuel self topic style duration w0
    = (Ret (script, audio, clips), w3) ->
  let dir := output_dir self in
  let n := length (scenes script) in
  inputs_ready env self n w3 /\
  (forall final w4,
     compile env dir clips audio script w3 = (Ret final, w4) ->
     exists w5,
       generate env fuel self topic style duration w0 = (Ret final, w5) /\
       final = final_path env dir /\ is_file w5 final /\
       is_file w5 (script_path env dir) /\
       files w5 !! audio_path dir = None /\
       (forall i, (i < n)%nat -> files w5 !! clip_path dir i = None) /\
       (forall p, p = final \/ p = script_path env dir \/
                  files w5 !! p = None \/ files w5 !! p = files w0 !! p)) /\
  (forall e w4,
     compile env dir clips audio script w3 = (Raise e, w4) ->
     generate env fuel self topic style duration w0 = (Raise e, w4) /\
     inputs_ready env self n w4).
Proof.
  intros Hin dir n. subst dir n.
  destruct (generate_inputs_inv _ _ _ _ _ _ _ _ _ _ _ Hin) as (w1 & w2 & Hs & Ha & Hc).
  apply generate_script_inv in Hs as (title & data & _ & _ & Hw1).
  apply generate_audio_ret in Ha as (Hapath & Hafile & Haother).
  apply generate_clips_ret in Hc as (Hcpaths & Hcfiles & Hcother).
  assert (Hfiles1 : files w1 = files w0) by (subst w1; reflexivity).
  (* what the clip stage leaves of a path that is no clip and no image *)
  assert (Hkeep : forall p, p ∉ clip_paths (output_dir self) 0 (length (scenes script)) ->
            (forall out, p <> with_suffix out ".png") ->
            files w3 !! p = files w2 !! p).
  { intros p Hp Hpng. destruct (Hcother p Hp) as [Heq|[[out Hout] _]]; [exact Heq|].
    exfalso. exact (Hpng out Hout). }
  assert (Hnotclip : forall p, (forall i, p <> clip_path (output_dir self) i) -> p ∉ clip_paths (output_dir self) 0 (length (scenes script))).
  { intros p Hp Hel. apply clip_paths_elem in Hel as (i & _ & ->). exact (Hp i eq_refl). }
  assert (Hready : inputs_ready env self (length (scenes script)) w3).
  { split.
    - unfold is_file. rewrite (Hkeep (script_path env (output_dir self))).
      + rewrite Haother by (intros H; symmetry in H; exact (audio_not_script _ _ H)).
        cbn [files]. rewrite lookup_insert_eq. eauto.
      + apply Hnotclip. intros i H. symmetry in H. exact (clip_not_script _ _ _ H).
      + intros out H. symmetry in H. exact (png_not_script _ _ _ H).
    - destruct Hafile as (a & b & Hf). exists a, b. rewrite <- Hf. apply Hkeep.
      + apply Hnotclip. intros i H. symmetry in H. exact (clip_not_audio _ _ H).
      + intros out H. symmetry in H. exact (png_not_audio _ _ H).
    - intros i Hi. apply Hcfiles, clip_paths_elem. eauto. }
  split; [exact Hready|]. split.
  - intros final w4 Hcomp.
    apply compile_frame in Hcomp as Hframe. destruct Hframe as (Hframe & -> & Hfinal & Hconcat & Htemp).
    destruct Hready as [Rs Ra Rc].
    assert (Hstill : forall p, p <> concat_path (output_dir self) -> p <> temp_path (output_dir self) ->
              p <> final_path env (output_dir self) -> is_file w3 p -> is_file w4 p).
    { intros p H1 H2 H3 (a & b & Hf). exists a, b. now rewrite Hframe. }
    destruct (cleanup_ok clips audio w4) as (w5 & Hclean & Hgone & Hagone & Hrest).
    + rewrite Hcpaths. apply clip_paths_NoDup.
    + rewrite Hcpaths. intros p Hp. apply clip_paths_elem in Hp as (i & Hi & ->).
      apply Hstill; [apply clip_not_concat|apply clip_not_temp|apply clip_not_final|now apply Rc].
    + rewrite Hapath. apply Hstill;
        [apply audio_not_concat|apply audio_not_temp|apply audio_not_final|exact Ra].
    + rewrite Hapath, Hcpaths. apply Hnotclip. intros i H. symmetry in H.
      exact (clip_not_audio _ _ H).
    + rewrite Hapath, Hcpaths in *.
      exists w5. split.
      { unfold generate. unfold Sys.bind at 1. rewrite Hin.
        unfold Sys.bind at 1. rewrite Hcomp. unfold Sys.bind at 1. rewrite Hclean. reflexivity. }
      split; [reflexivity|].
      assert (Hfinal5 : files w5 !! final_path env (output_dir self) = files w4 !! final_path env (output_dir self)).
      { apply Hrest.
        - apply Hnotclip. intros i H. symmetry in H. exact (clip_not_final _ _ _ H).
        - intros H. symmetry in H. exact (audio_not_final _ _ H). }
      assert (Hscript5 : files w5 !! script_path env (output_dir self) = files w3 !! script_path env (output_dir self)).
      { rewrite Hrest.
        - apply Hframe; [apply script_not_concat|apply script_not_temp|apply script_not_final].
        - apply Hnotclip. intros i H. symmetry in H. exact (clip_not_script _ _ _ H).
        - intros H. symmetry in H. exact (audio_not_script _ _ H). }
      split; [destruct Hfinal as (a & b & Hf); exists a, b; now rewrite Hfinal5|].
      split; [destruct Rs as (a & b & Hf); exists a, b; now rewrite Hscript5|].
      split; [exact Hagone|].
      split; [intros i Hi; apply Hgone, clip_paths_elem; eauto|].
      intros p.
      destruct (decide (p = final_path env (output_dir self))) as [|Hpf]; [now left|].
      destruct (decide (p = script_path env (output_dir self))) as [|Hps]; [now right; left|].
      right. right.
      destruct (decide (p ∈ clip_paths (output_dir self) 0 (length (scenes script)))) as [Hpc|Hpc]; [left; now apply Hgone|].
      destruct (decide (p = audio_path (output_dir self))) as [->|Hpa]; [now left|].
      rewrite (Hrest p Hpc Hpa).
      destruct (decide (p = concat_path (output_dir self))) as [->|Hpk]; [now left|].
      destruct (decide (p = temp_path (output_dir self))) as [->|Hpt]; [now left|].
      rewrite (Hframe p Hpk Hpt Hpf).
      destruct (Hcother p Hpc) as [Heq|[_ Hnone]]; [|now left].
      right. rewrite Heq, (Haother p Hpa). cbn [files].
      rewrite lookup_insert_ne by congruence. now rewrite Hfiles1.
  - intros e w4 Hcomp. split.
    + unfold generate. unfold Sys.bind at 1. rewrite Hin.
      unfold Sys.bind at 1. rewrite Hcomp. reflexivity.
    + apply compile_frame in Hcomp as [Hframe _].
      destruct Hready as [Rs Ra Rc].
      assert (Hstill : forall p, p <> concat_path (output_dir self) -> p <> temp_path (output_dir self) ->
                p <> final_path env (output_dir self) -> is_file w3 p -> is_file w4 p).
      { intros p H1 H2 H3 (a & b & Hf). exists a, b. now rewrite Hframe. }
      split.
      * apply Hstill; [apply script_not_concat|apply script_not_temp|apply script_not_final|exact Rs].
      * apply Hstill; [apply audio_not_concat|apply audio_not_temp|apply audio_not_final|exact Ra].
      * intros i Hi. apply Hstill;
          [apply clip_not_concat|apply clip_not_temp|apply clip_not_final|now apply Rc].
Qed.

End PipelineArtifacts.

Lemma generate_cleans_up_after_assembly_witness :
  exists w5,
    Pipeline.generate quiet_env 1 demo_pipeline "doors" "dramatic" 60 empty_world
      = (Ret (final_path quiet_env "./output"), w5) /\
    is_file w5 (final_path quiet_env "./output") /\
    is_file w5 (Pipeline.script_path quiet_env "./output") /\
    files w5 !! Pipeline.audio_path "./output" = None /\
    (forall i, (i < 3)%nat -> files w5 !! Pipeline.clip_path "./output" i = None).
Proof.
  destruct (generate_cleans_up_after_assembly quiet_env 1 demo_pipeline
              "doors" "dramatic" 60 empty_world (snd demo_inputs)
              demo_script demo_audio demo_clips eq_refl)
    as (_ & Hok & _).
  destruct (Hok (final_path quiet_env "./output")
                (snd (Pipeline.compile quiet_env "./output" demo_clips demo_audio
                                       demo_script (snd demo_inputs)))
                eq_refl)
    as (w5 & Hrun & _ & Hfinal & Hscript & Haudio & Hclips & _).
  exists w5. repeat split; assumption.
Defined.

(** C3, as the specification has it, fails on the script JSON: in a run
    whose assembly succeeds, the clips and the voice track are deleted but
    the script JSON is still on disk when [generate] returns. *)
Lemma script_json_survives_cleanup :
  fst (Pipeline.generate quiet_env 1 demo_pipeline "doors" "dramatic" 60 empty_world)
    = Ret "./output/video_20240101_000001.mp4" /\
  files (snd (Pipeline.generate quiet_env 1 demo_pipeline "doors" "dramatic" 60
                                empty_world))
    !! "./output/script_20240101_000000.json"
    = Some (BFile "json.dump" "Backwards") /\
  map_to_list (files (snd (Pipeline.generate quiet_env 1 demo_pipeline "doors"
                                             "dramatic" 60 empty_world)))
    = [ ("./output/script_20240101_000000.json", BFile "json.dump" "Backwards");
        ("./output/video_20240101_000001.mp4",
         BFile "ffmpeg" "./output/video_20240101_000001.mp4") ].
Proof. repeat split; vm_compute; reflexivity. Qed.

(** ** generate_assets.py *)

Section AssetsResolution.

Import Assets.

(** C5: [ImageGenerator.generate] resolves the producer from the provider
    name and the credentials.  When the credential of the preferred
    provider is absent, the local placeholder writes the output file and
    the call returns its path, without any outside call.  When Replicate is
    attempted with its credential and the job ends in "failed", the
    [RuntimeError] with the remote reason reaches the caller; when the
    request of Replicate or OpenAI is refused, the HTTP error reaches the
    caller; in each case no file is written, so no placeholder is put in
    its place. *)
Theorem generate_resolves_provider (env : Env) (fuel : nat) (self : ImageGenerator)
    (prompt : string) (width height : Z) (output_path : string) (w : World) :
  (* the credential of the preferred provider is absent *)
  ((provider self = "replicate" -> truthy (replicate_token self) = false) ->
   (provider self = "openai" -> truthy (openai_key self) = false) ->
   generate env fuel self prompt width height output_path w =
     (Ret output_path,
      mkWorld (<[output_path := BFile "placeholder" prompt]> (files w)) (calls w)))
  /\
  (* Replicate is attempted with its credential and the job fails *)
  (provider self = "replicate" -> truthy (replicate_token self) = true ->
   forall url n,
     replicate_post env prompt = Some url ->
     (forall j, (j < n)%nat -> terminal (replicate_get env url j) = false) ->
     status (replicate_get env url n) = "failed" ->
     (n < fuel)%nat ->
     exists w',
       generate env fuel self prompt width height output_path w =
         (Raise (RuntimeError ("Generation failed: " +:+
                                error (replicate_get env url n))), w')
       /\ files w' = files w)
  /\
  (* a provider is attempted with its credential and the request is refused *)
  ((provider self = "replicate" -> truthy (replicate_token self) = true ->
    replicate_post env prompt = None ->
    exists w' url,
      generate env fuel self prompt width height output_path w =
        (Raise (HTTPStatusError url), w') /\ files w' = files w)
   /\
   (provider self = "openai" -> truthy (openai_key self) = true ->
    openai_image_ok env prompt = false ->
    exists w' url,
      generate env fuel self prompt width height output_path w =
        (Raise (HTTPStatusError url), w') /\ files w' = files w)).
Proof.
  unfold generate. repeat split.
  - intros Hr Ho.
    destruct (String.eqb_spec (provider self) "replicate") as [E|E].
    + rewrite (Hr E). simpl.
      destruct (String.eqb_spec (provider self) "openai") as [E'|E']; [congruence|].
      reflexivity.
    + simpl. destruct (String.eqb_spec (provider self) "openai") as [E'|E'].
      * rewrite (Ho E'). reflexivity.
      * reflexivity.
  - intros -> -> url n Hpost Hrun Hfail Hfuel. simpl.
    unfold _generate_replicate. unfold Sys.bind at 1. cbn [call]. rewrite Hpost.
    edestruct (poll_image_reaches env url fuel n 0%nat) as (w' & Hf & Hpoll).
    + exact Hrun.
    + simpl. unfold terminal. rewrite Hfail. reflexivity.
    + exact Hfuel.
    + unfold Sys.bind at 1. rewrite Hpoll. simpl. rewrite Hfail. simpl.
      eexists. split; [reflexivity|]. rewrite Hf. reflexivity.
  - intros -> -> Hpost. simpl.
    unfold _generate_replicate. unfold Sys.bind at 1. cbn [call]. rewrite Hpost.
    do 2 eexists. split; reflexivity.
  - intros -> -> Hbad. simpl.
    unfold _generate_openai. unfold Sys.bind at 1. cbn [call]. rewrite Hbad.
    do 2 eexists. split; reflexivity.
Qed.

(** [_generate_assets] asks for the placeholder when no Replicate token is
    set, whatever else is configured. *)
Lemma assets_provider_without_token env fuel prompt width height output_path w :
  truthy (getenv env "REPLICATE_API_TOKEN") = false ->
  generate env fuel (new_generator env (Orchestrate.assets_provider env))
           prompt width height output_path w =
    (Ret output_path,
     mkWorld (<[output_path := BFile "placeholder" prompt]> (files w)) (calls w)).
Proof.
  intros H. unfold Orchestrate.assets_provider. rewrite H. reflexivity.
Qed.

End AssetsResolution.

Lemma generate_resolves_provider_witness :
  Assets.generate failing_env 5 (Assets.mkImageGenerator "replicate" None None)
                  "a red door" 512 768 "assets/door.png" empty_world
    = (Ret "assets/door.png",
       mkWorld (<["assets/door.png" := BFile "placeholder" "a red door"]> ∅) []) /\
  exists w',
    Assets.generate failing_env 5
                    (Assets.new_generator failing_env "replicate")
                    "a red door" 512 768 "assets/door.png" empty_world
      = (Raise (RuntimeError "Generation failed: NSFW content detected"), w') /\
    files w' = files empty_world.
Proof.
  split.
  - apply (proj1 (generate_resolves_provider failing_env 5
                    (Assets.mkImageGenerator "replicate" None None)
                    "a red door" 512 768 "assets/door.png" empty_world)).
    + reflexivity.
    + discriminate.
  - apply (proj1 (proj2 (generate_resolves_provider failing_env 5
                           (Assets.new_generator failing_env "replicate")
                           "a red door" 512 768 "assets/door.png" empty_world))
                 eq_refl eq_refl job_url 2%nat eq_refl).
    + intros j Hj. destruct j as [|[|j]]; [reflexivity|reflexivity|lia].
    + reflexivity.
    + lia.
Defined.

(** The same two cases for a whole asset run of the orchestrator.  Without
    a Replicate token the run returns, makes no outside call, every asset
    is a placeholder and the manifest is written.  With a token and a job
    that fails, the error of the first asset ends the run and no asset file
    exists. *)
Lemma generate_assets_end_to_end :
  let hybrid := Orchestrate.mkHybrid "financial-basics" "minimal" "./output" in
  let offline := Orchestrate._generate_assets quiet_env 5 hybrid empty_world in
  let refused := Orchestrate._generate_assets failing_env 5 hybrid empty_world in
  fst offline = Ret tt /\
  calls (snd offline) = [] /\
  (forall file, file ∈ [ "backgrounds/bg_intro.png"; "backgrounds/bg_growth.png";
                         "backgrounds/bg_warning.png"; "backgrounds/bg_success.png";
                         "characters/character_friendly.png";
                         "characters/character_explaining.png";
                         "props/pie_chart.png"; "props/money_stack.png" ] ->
     exists prompt,
       files (snd offline) !! joinpath "./output/assets" file
       = Some (BFile "placeholder" prompt)) /\
  files (snd offline) !! "./output/assets/manifest.json"
    = Some (BManifest "financial-basics" "minimal"
              [ "backgrounds/bg_intro.png"; "backgrounds/bg_growth.png";
                "backgrounds/bg_warning.png"; "backgrounds/bg_success.png" ]
              [ "characters/character_friendly.png";
                "characters/character_explaining.png" ]
              [ "props/pie_chart.png"; "props/money_stack.png" ]) /\
  fst refused = Raise (RuntimeError "Generation failed: NSFW content detected") /\
  files (snd refused) !! "./output/assets/backgrounds/bg_intro.png" = None /\
  files (snd refused) !! "./output/assets/manifest.json" = None.
Proof.
  cbv zeta. repeat split; try (vm_compute; reflexivity).
  intros file Hfile.
  repeat (apply elem_of_cons in Hfile as [->|Hfile];
          [eexists; vm_compute; reflexivity|]).
  inversion Hfile.
Qed.

Section AssetsThemes.

Import Assets.

Lemma THEMES_dom : dom THEMES = {[ "uno-no-mercy"; "financial-basics" ]}.
Proof.
  unfold THEMES. cbn [list_to_map foldr].
  rewrite !dom_insert_L, dom_empty_L. set_solver.
Qed.

(** C10: for a theme name that is not a key of [THEMES],
    [generate_theme_assets] returns normally and leaves the world as it
    was: no directory, no asset file and no manifest is created, and no
    outside call is made. *)
Theorem unknown_theme_returns (env : Env) (fuel : nat)
    (theme_name style_name output_dir provider : string) (w : World) :
  theme_name ∉ dom THEMES ->
  generate_theme_assets env fuel theme_name style_name output_dir provider w
    = (Ret tt, w).
Proof.
  intros H. apply not_elem_of_dom in H.
  unfold generate_theme_assets. rewrite H. reflexivity.
Qed.

End AssetsThemes.

Lemma unknown_theme_returns_witness :
  Assets.generate_theme_assets quiet_env 3 "chess" "cartoon" "./output/assets"
                               "replicate" empty_world
  = (Ret tt, empty_world).
Proof.
  apply unknown_theme_returns. rewrite THEMES_dom.
  intros H. apply elem_of_union in H as [H|H];
    apply elem_of_singleton in H; discriminate.
Defined.

(** ** orchestrate.py *)

Section RendererScenes.

Import Orchestrate.

Lemma in_intervalb_spec scene t :
  in_intervalb scene t = true <-> in_interval scene t.
Proof.
  unfold in_intervalb, in_interval, Qltb.
  rewrite andb_true_iff, negb_true_iff, Qle_bool_iff.
  split; intros [H1 H2]; split; try assumption.
  - apply Qnot_le_lt. intros H. apply Qle_bool_iff in H. congruence.
  - destruct (Qle_bool (scene_end scene) t) eqn:E; [|reflexivity].
    apply Qle_bool_iff in E. exfalso. exact (Qlt_not_le _ _ H2 E).
Qed.

Lemma find_current_scene_cons first rest t :
  find_current_scene (first :: rest) t = Ret (scan_scenes t (first :: rest) first).
Proof. reflexivity. Qed.

Lemma find_current_scene_empty t : find_current_scene [] t = Raise IndexError.
Proof. reflexivity. Qed.

(** The loop returns a scene of the list or leaves [current] as it was. *)
Lemma scan_scenes_elem t sc current :
  scan_scenes t sc current ∈ sc \/ scan_scenes t sc current = current.
Proof.
  induction sc as [|s sc IH]; cbn [scan_scenes]; [now right|].
  destruct (scene_covers s t); [left; apply list_elem_of_here|].
  destruct IH as [IH|IH]; [left; now apply list_elem_of_further|now right].
Qed.

Lemma find_current_scene_elem first rest t :
  exists s, find_current_scene (first :: rest) t = Ret s /\ s ∈ first :: rest.
Proof.
  rewrite find_current_scene_cons. eexists. split; [reflexivity|].
  destruct (scan_scenes_elem t (first :: rest) first) as [H| ->];
    [exact H|apply list_elem_of_here].
Qed.

(** The loop returns the first scene that passes the test. *)
Lemma scan_scenes_first t pre s post current :
  Forall (fun s' => scene_covers s' t = false) pre ->
  scene_covers s t = true ->
  scan_scenes t (pre ++ s :: post) current = s.
Proof.
  intros Hpre Hs. induction Hpre as [|s' pre Hs' _ IH]; simpl.
  - now rewrite Hs.
  - now rewrite Hs'.
Qed.

(** When one element of a list passes a test and the list has exactly one
    such element, every element that passes is that one. *)
Lemma filter_one {A} (p : A -> bool) (l : list A) (x y : A) :
  length (List.filter p l) = 1%nat ->
  In x l -> p x = true -> In y l -> p y = true -> y = x.
Proof.
  intros Hlen Hx Hpx Hy Hpy.
  assert (Hfx : In x (List.filter p l)) by (apply filter_In; auto).
  assert (Hfy : In y (List.filter p l)) by (apply filter_In; auto).
  destruct (List.filter p l) as [|a [|b l']]; try discriminate.
  destruct Hfx as [<-|[]], Hfy as [<-|[]]. reflexivity.
Qed.

Lemma range_nonneg n : Forall (fun f => 0 <= f) (range n).
Proof.
  unfold range. apply Forall_forall. intros x Hx.
  apply list_elem_of_In, in_map_iff in Hx as (k & <- & _). lia.
Qed.

Lemma elem_of_range n f : f ∈ range n <-> 0 <= f < n.
Proof.
  unfold range. rewrite list_elem_of_fmap. split.
  - intros (i & -> & Hi). apply elem_of_seq in Hi. lia.
  - intros [H0 Hn]. exists (Z.to_nat f). split; [lia|]. apply elem_of_seq. lia.
Qed.

Lemma range_lookup n i : (i < Z.to_nat n)%nat -> range n !! i = Some (Z.of_nat i).
Proof.
  intros Hi. unfold range. rewrite list_lookup_fmap, lookup_seq_lt by exact Hi. reflexivity.
Qed.

Lemma range_length n : length (range n) = Z.to_nat n.
Proof. unfold range. now rewrite length_map, length_seq. Qed.

(** Every frame of the 75 seconds passes the check, however many
    backgrounds are loaded. *)
Lemma timeline_checked (n : nat) :
  forallb (frame_checked n) (range total_frames) = true.
Proof. destruct n as [|[|[|[|n]]]]; vm_compute; reflexivity. Qed.

(** C4: for every frame [f] of the rendered timeline, whatever the number
    of backgrounds, the renderer computes the time [f / fps] and selects a
    scene of its list; the half-open interval [[start, end)] of that scene
    contains the exact time [t = f / frame_rate]; no other scene's interval
    contains [t]; and the renderer's test on the rounded time agrees with
    membership of [t] in the interval on every scene.  In particular every
    frame has a scene whose interval contains [t], so that the case in
    which no scene matches does not arise on this timeline. *)
Theorem rendered_frames_select_their_scene (n : nat) (f : Z) :
  0 <= f < total_frames ->
  exists time scene,
    frame_time f fps = Ret time /\
    find_current_scene (scenes n) time = Ret scene /\
    scene ∈ scenes n /\
    in_interval scene (exact_time f fps) /\
    (forall s, s ∈ scenes n -> in_interval s (exact_time f fps) -> s = scene) /\
    (forall s, s ∈ scenes n ->
       scene_covers s time = true <-> in_interval s (exact_time f fps)).
Proof.
  intros Hf.
  pose proof (proj1 (forallb_forall _ _) (timeline_checked n) f) as Hchk.
  specialize (Hchk ltac:(apply list_elem_of_In, elem_of_range; exact Hf)).
  unfold frame_checked in Hchk.
  destruct (frame_time f fps) as [time| |]; try discriminate.
  destruct (find_current_scene (scenes n) time) as [scene| |] eqn:Hfind; try discriminate.
  apply andb_true_iff in Hchk as [Hchk Hagree].
  apply andb_true_iff in Hchk as [Hin Hone].
  apply Nat.eqb_eq in Hone. unfold covering in Hone.
  assert (Hmem : scene ∈ scenes n).
  { assert (Hsc : exists first rest, scenes n = first :: rest) by (unfold scenes; eauto).
    destruct Hsc as (first & rest & Hsc). rewrite Hsc in Hfind |- *.
    destruct (find_current_scene_elem first rest time) as (s & Hs & Hel). congruence. }
  exists time, scene. split; [reflexivity|]. split; [exact Hfind|].
  split; [exact Hmem|]. split; [now apply in_intervalb_spec|]. split.
  - intros s Hs Hint.
    apply (filter_one (fun s => in_intervalb s (exact_time f fps)) (scenes n));
      try assumption.
    + now apply list_elem_of_In.
    + now apply list_elem_of_In.
    + now apply in_intervalb_spec.
  - intros s Hs. rewrite <- in_intervalb_spec.
    pose proof (proj1 (forallb_forall _ _) Hagree s
                  ltac:(apply list_elem_of_In; exact Hs)) as He.
    apply Bool.eqb_prop in He. now rewrite He.
Qed.

End RendererScenes.

Lemma rendered_frames_select_their_scene_witness :
  exists time scene,
    Orchestrate.frame_time 90 Orchestrate.fps = Ret time /\
    Orchestrate.find_current_scene (Orchestrate.scenes 4) time = Ret scene /\
    scene ∈ Orchestrate.scenes 4 /\
    in_interval scene (exact_time 90 Orchestrate.fps) /\
    (forall s, s ∈ Orchestrate.scenes 4 ->
       in_interval s (exact_time 90 Orchestrate.fps) -> s = scene) /\
    (forall s, s ∈ Orchestrate.scenes 4 ->
       Orchestrate.scene_covers s time = true
       <-> in_interval s (exact_time 90 Orchestrate.fps)).
Proof.
  apply (rendered_frames_select_their_scene 4 90).
  unfold Orchestrate.total_frames, Orchestrate.fps, Orchestrate.duration. lia.
Defined.

(** A frame on a boundary belongs to the later scene.  On the renderer's
    timeline frame 89 is the last frame of the scene [[0, 3)] and frame 90
    the first of the scene [[3, 15)]; and the loop run on the example of
    the specification, scenes [[0,5)] and [[5,10)] at 30 frames per second,
    selects the first scene for frame 149 and the second for frame 150. *)
Lemma frame_boundary_example :
  (t <~ Orchestrate.frame_time 89 Orchestrate.fps ;;
   s <~ Orchestrate.find_current_scene (Orchestrate.scenes 4) t ;;
   Ret (Orchestrate.scene_text s)) = Ret "UNO NO MERCY" /\
  (t <~ Orchestrate.frame_time 90 Orchestrate.fps ;;
   s <~ Orchestrate.find_current_scene (Orchestrate.scenes 4) t ;;
   Ret (Orchestrate.scene_start s, Orchestrate.scene_end s)) = Ret (3%Q, 15%Q) /\
  (t <~ Orchestrate.frame_time 149 30 ;;
   Orchestrate.find_current_scene two_scenes t)
    = Ret (Orchestrate.mkScene 0 5 "first" 0) /\
  (t <~ Orchestrate.frame_time 150 30 ;;
   Orchestrate.find_current_scene two_scenes t)
    = Ret (Orchestrate.mkScene 5 10 "second" 1).
Proof. repeat split; vm_compute; reflexivity. Qed.

Section RendererCharacters.

Import Orchestrate.

Lemma character_index_value f T (k : nat) :
  0 <= f -> (0 < k)%nat -> Z.of_nat k <= T ->
  character_index f T k = Ret (Some (Z.min (f / (T / Z.of_nat k)) (Z.of_nat k - 1))).
Proof.
  intros Hf Hk HT. unfold character_index.
  destruct (Nat.eqb_spec k 0) as [->|_]; [lia|].
  destruct (Z.ltb_spec 1 (Z.of_nat k)) as [H1|H1]; simpl.
  - unfold floordiv.
    destruct (Z.eqb_spec (Z.of_nat k) 0) as [?|_]; [lia|]. simpl.
    assert (0 < T / Z.of_nat k) by (apply Z.div_str_pos; lia).
    destruct (Z.eqb_spec (T / Z.of_nat k) 0) as [?|_]; [lia|]. reflexivity.
  - assert (Z.of_nat k = 1) as -> by lia.
    rewrite Z.div_1_r. do 2 f_equal.
    assert (0 <= f / T) by (apply Z.div_pos; lia). lia.
Qed.

(** C6, as the code has it: with no character no frame gets an overlay.
    With [k] characters, [0 < k <= total_frames], the frame range is cut
    into parts of [w = total_frames // k] frames, and the last part also
    takes the [total_frames mod k] frames that remain: character [i] is on
    frame [f] exactly when [i * w <= f], and [f < (i + 1) * w] unless [i] is
    the last character.  When [k] divides [total_frames] these are the [k]
    equal parts of [[0, total_frames)]. *)
Theorem character_index_partition (f T : Z) (k : nat) :
  0 <= f < T ->
  (k = 0%nat -> character_index f T k = Ret None) /\
  ((0 < k)%nat -> Z.of_nat k <= T ->
   let w := T / Z.of_nat k in
   (forall i, 0 <= i < Z.of_nat k ->
      character_index f T k = Ret (Some i) <->
      i * w <= f /\ (i < Z.of_nat k - 1 -> f < (i + 1) * w)) /\
   ((Z.of_nat k | T) ->
    forall i, character_index f T k = Ret (Some i) <-> spec_equal_partition T k i f)).
Proof.
  intros [Hf HfT]. split; [intros ->; reflexivity|].
  intros Hk HT w.
  rewrite character_index_value by lia. fold w.
  assert (Hw : 0 < w) by (apply Z.div_str_pos; lia).
  pose proof (Z.div_mod f w ltac:(lia)) as Hdm.
  pose proof (Z.mod_pos_bound f w Hw) as Hmb.
  set (q := f / w) in *.
  split.
  - intros i Hi. split.
    + intros [= <-]. split; [|]; destruct (Z.min_spec q (Z.of_nat k - 1)) as [[? ->]|[? ->]]; nia.
    + intros [Hlo Hhi]. do 2 f_equal.
      destruct (Z.min_spec q (Z.of_nat k - 1)) as [[? ->]|[? ->]]; nia.
  - intros [c Hc] i.
    assert (Hwc : w = c).
    { unfold w. rewrite Hc. apply Z.div_mul. lia. }
    unfold spec_equal_partition. rewrite Hc. rewrite <- Hwc.
    split.
    + intros [= <-]. destruct (Z.min_spec q (Z.of_nat k - 1)) as [[? ->]|[? ->]]; nia.
    + intros [Hlo Hhi]. do 2 f_equal.
      destruct (Z.min_spec q (Z.of_nat k - 1)) as [[? ->]|[? ->]]; nia.
Qed.

End RendererCharacters.

Lemma character_index_partition_witness :
  Orchestrate.character_index 1124 2250 4 = Ret (Some 2) <->
  2 * (2250 / 4) <= 1124 /\ (2 < 4 - 1 -> 1124 < (2 + 1) * (2250 / 4)).
Proof.
  exact (proj1 (proj2 (character_index_partition 1124 2250 4 ltac:(lia))
                      ltac:(lia) ltac:(lia))
               2 ltac:(lia)).
Defined.

(** C6, as the specification has it, fails when the number of characters
    does not divide the number of frames: with the 2250 frames of the
    renderer and the four characters of the first theme, frame 1124 lies in
    the second of four equal parts ([562.5 <= 1124 < 1125]) but carries the
    third character. *)
Lemma character_parts_are_not_equal :
  Orchestrate.character_index 1124 Orchestrate.total_frames 4 = Ret (Some 2) /\
  spec_equal_partition Orchestrate.total_frames 4 1 1124 /\
  ~ spec_equal_partition Orchestrate.total_frames 4 2 1124.
Proof.
  split; [reflexivity|].
  unfold spec_equal_partition, Orchestrate.total_frames, Orchestrate.fps,
    Orchestrate.duration.
  split; lia.
Qed.


Section FrameNames.
Import Orchestrate.

Lemma zero_cons (s : string) : "0" +:+ s = String (Ascii.ascii_of_nat 48) s.
Proof. reflexivity. Qed.

Lemma decimal_value_zeros k s :
  decimal_value (Nat.iter k (String.append "0") s) = decimal_value s.
Proof.
  induction k as [|k IH]; [reflexivity|].
  rewrite Nat.iter_succ, zero_cons, decimal_value_cons, IH.
  vm_compute (digit_value _). lia.
Qed.

Lemma length_zeros k s :
  String.length (Nat.iter k (String.append "0") s) = (k + String.length s)%nat.
Proof.
  induction k as [|k IH]; [reflexivity|].
  rewrite Nat.iter_succ, zero_cons. cbn [String.length].
  rewrite IH. lia.
Qed.

Lemma pretty_N_go_length (k : nat) : forall x s,
  (x < 10 ^ N.of_nat k)%N ->
  (String.length (pretty_N_go x s) <= k + String.length s)%nat.
Proof.
  induction k as [|k IH]; intros x s Hx.
  - assert (x = 0%N) as -> by (simpl in Hx; lia). rewrite pretty_N_go_0. lia.
  - destruct (N.eq_dec x 0%N) as [->|Hne]; [rewrite pretty_N_go_0; lia|].
    rewrite pretty_N_go_step by lia.
    etransitivity; [apply IH|cbn [String.length]; lia].
    rewrite Nat2N.inj_succ, N.pow_succ_r' in Hx.
    apply N.Div0.div_lt_upper_bound. lia.
Qed.

Lemma pretty_length (k i : nat) :
  (0 < k)%nat -> (N.of_nat i < 10 ^ N.of_nat k)%N -> (String.length (pretty i) <= k)%nat.
Proof.
  intros Hk Hi. unfold pretty, pretty_nat, pretty, pretty_N.
  destruct (decide (N.of_nat i = 0%N)) as [_|_]; [simpl; lia|].
  pose proof (pretty_N_go_length k (N.of_nat i) "" Hi) as H. simpl in H. lia.
Qed.

Lemma decimal_value_fmt_05d i : decimal_value (fmt_05d i) = N.of_nat i.
Proof. unfold fmt_05d. rewrite decimal_value_zeros. apply decimal_value_pretty. Qed.

Lemma fmt_05d_length i :
  (N.of_nat i < 100000)%N -> String.length (fmt_05d i) = 5%nat.
Proof.
  intros Hi. unfold fmt_05d. rewrite length_zeros.
  pose proof (pretty_length 5 i ltac:(lia) Hi). lia.
Qed.

Lemma frame_path_inj self f g :
  0 <= f -> 0 <= g -> frame_path self f = frame_path self g -> f = g.
Proof.
  intros Hf Hg H. apply joinpath_inj, String.app_inj in H.
  apply string_app_same_end in H as [H _]; [|reflexivity].
  apply (f_equal decimal_value) in H. rewrite !decimal_value_fmt_05d in H. lia.
Qed.

(** X20: the file name of every frame of the video is [frame_] followed by
    exactly five digits that read back as the frame number, as the pattern
    [frame_%05d.png] given to ffmpeg expects, and different frame numbers
    give different paths. *)
Theorem frame_names_fixed_width (self : HybridPipeline) (f : Z) :
  0 <= f < total_frames ->
  (exists digits,
     frame_path self f = joinpath (frames_dir self) ("frame_" +:+ digits +:+ ".png") /\
     String.length digits = 5%nat /\ decimal_value digits = Z.to_N f) /\
  (forall g, 0 <= g -> frame_path self f = frame_path self g -> f = g).
Proof.
  intros [Hf HT]. split.
  - exists (fmt_05d (Z.to_nat f)). split; [reflexivity|]. split.
    + apply fmt_05d_length. unfold total_frames, fps, duration in HT. lia.
    + rewrite decimal_value_fmt_05d. lia.
  - intros g Hg. now apply frame_path_inj.
Qed.
End FrameNames.

Lemma frame_names_fixed_width_witness :
  exists digits,
    Orchestrate.frame_path demo_hybrid 7
      = joinpath (Orchestrate.frames_dir demo_hybrid)
                 ("frame_" +:+ digits +:+ ".png") /\
    String.length digits = 5%nat /\ decimal_value digits = 7%N.
Proof.
  apply (proj1 (frame_names_fixed_width demo_hybrid 7
                  ltac:(unfold Orchestrate.total_frames, Orchestrate.fps,
                          Orchestrate.duration; lia))).
Defined.

Section RendererBackgrounds.

Import Orchestrate.

Lemma getitem_in_range {A} (l : list A) i :
  0 <= i < Z.of_nat (length l) -> exists x, getitem l i = Ret x /\ l !! Z.to_nat i = Some x.
Proof.
  intros [Hlo Hhi]. unfold getitem.
  destruct (Z.ltb_spec i 0) as [?|_]; [lia|].
  destruct (lookup_lt_is_Some_2 l (Z.to_nat i) ltac:(lia)) as [x Hx].
  rewrite Hx. eauto.
Qed.

(** *** Loading the images *)

Lemma image_open_ok w p :
  opens_as_image w p -> image_open p w = (Ret tt, w).
Proof. intros (producer & payload & Hf & Hp). unfold image_open. now rewrite Hf, Hp. Qed.

Lemma elem_of_present_files self w names file :
  file ∈ present_files self w names <->
  file ∈ names /\ is_Some (files w !! joinpath (assets_dir self) file).
Proof.
  unfold present_files. rewrite !list_elem_of_In, filter_In, bool_decide_eq_true.
  reflexivity.
Qed.

(** When every listed file that exists can be opened, the loop loads the
    files that exist, in the order of the list, and changes nothing. *)
Lemma load_images_ret self mk names w :
  (forall file, file ∈ present_files self w names ->
     opens_as_image w (joinpath (assets_dir self) file)) ->
  load_images self mk names w
  = (Ret (map (fun file => mk (joinpath (assets_dir self) file))
              (present_files self w names)), w).
Proof.
  induction names as [|f names IH]; intros Hopen; [reflexivity|].
  cbn [load_images]. unfold Sys.bind at 1. cbn [path_exists].
  assert (Hrest : forall file, file ∈ present_files self w names ->
            opens_as_image w (joinpath (assets_dir self) file)).
  { intros file Hfile. apply Hopen. apply elem_of_present_files.
    apply elem_of_present_files in Hfile as [H1 H2].
    split; [now apply list_elem_of_further|exact H2]. }
  unfold present_files at 1. cbn [List.filter]. fold (present_files self w names).
  destruct (bool_decide (is_Some (files w !! joinpath (assets_dir self) f))) eqn:E.
  - unfold Sys.bind at 1. rewrite image_open_ok.
    + unfold Sys.bind at 1. rewrite (IH Hrest). reflexivity.
    + apply Hopen. apply elem_of_present_files. split; [apply list_elem_of_here|].
      now apply bool_decide_eq_true in E.
  - unfold Sys.bind at 1. cbn [ret]. unfold Sys.bind at 1. rewrite (IH Hrest).
    reflexivity.
Qed.

Lemma or_default_gradient_nonempty l : or_default_gradient l <> [].
Proof. destruct l; discriminate. Qed.

(** *** One frame *)

Lemma scenes_bg_in_range (n : nat) s :
  (0 < n)%nat -> s ∈ scenes n -> 0 <= scene_bg_idx s < Z.of_nat n.
Proof.
  intros Hn Hs. unfold scenes in Hs.
  repeat (apply elem_of_cons in Hs as [->|Hs];
          [cbv [scene_bg_idx];
           try (match goal with |- context [(?k <? n)%nat] =>
                  destruct (Nat.ltb_spec k n) end); lia|]).
  inversion Hs.
Qed.

Lemma character_index_in_range f T (k : nat) :
  0 <= f -> (0 < k)%nat -> Z.of_nat k <= T ->
  exists i, character_index f T k = Ret (Some i) /\ 0 <= i < Z.of_nat k.
Proof.
  intros Hf Hk HT. rewrite character_index_value by assumption.
  eexists. split; [reflexivity|].
  assert (0 < T / Z.of_nat k) by (apply Z.div_str_pos; lia).
  assert (0 <= f / (T / Z.of_nat k)) by (apply Z.div_pos; lia). lia.
Qed.

(** With more characters than frames the width of a part is zero. *)
Lemma character_index_too_many f T (k : nat) :
  0 <= T < Z.of_nat k -> (1 < k)%nat ->
  character_index f T k = Raise ZeroDivisionError.
Proof.
  intros [HT Hk] H1. unfold character_index.
  destruct (Nat.eqb_spec k 0) as [->|_]; [lia|].
  destruct (Z.ltb_spec 1 (Z.of_nat k)) as [_|?]; [|lia].
  unfold floordiv. destruct (Z.eqb_spec (Z.of_nat k) 0) as [?|_]; [lia|]. cbn [obind].
  rewrite Z.div_small by lia. reflexivity.
Qed.

Lemma frame_time_ret f : exists time, frame_time f fps = Ret time.
Proof. unfold frame_time. change (fps =? 0) with false. eauto. Qed.

(** The steps of a frame before the character is chosen never fail. *)
Lemma render_frame_scene (backgrounds : list Image) f :
  backgrounds <> [] ->
  exists time s bg,
    frame_time f fps = Ret time /\
    find_current_scene (scenes (length backgrounds)) time = Ret s /\
    s ∈ scenes (length backgrounds) /\
    pymod (scene_bg_idx s) (Z.of_nat (length backgrounds)) = Ret (scene_bg_idx s) /\
    getitem backgrounds (scene_bg_idx s) = Ret bg /\
    backgrounds !! Z.to_nat (scene_bg_idx s) = Some bg.
Proof.
  intros Hbg.
  assert (Hn : (0 < length backgrounds)%nat)
    by (destruct backgrounds; [congruence|simpl; lia]).
  set (n := length backgrounds) in *.
  destruct (frame_time_ret f) as [time Htime].
  assert (Hsc : exists first rest, scenes n = first :: rest) by (unfold scenes; eauto).
  destruct Hsc as (first & rest & Hsc).
  destruct (find_current_scene_elem first rest time) as (s & Hfind & Hs).
  rewrite <- Hsc in Hfind, Hs.
  pose proof (scenes_bg_in_range n s Hn Hs) as Hidx.
  destruct (getitem_in_range backgrounds (scene_bg_idx s) Hidx) as (bg & Hget & Hbgl).
  exists time, s, bg. repeat (split; [assumption|]). split; [|split; assumption].
  unfold pymod. destruct (Z.eqb_spec (Z.of_nat n) 0) as [?|_]; [lia|].
  now rewrite Z.mod_small by exact Hidx.
Qed.

Lemma render_frame_ok backgrounds characters f :
  backgrounds <> [] -> 0 <= f ->
  Z.of_nat (length characters) <= total_frames ->
  exists fr,
    render_frame (scenes (length backgrounds)) backgrounds characters f = Ret fr /\
    frame_ok backgrounds characters f fr.
Proof.
  intros Hbg Hf Hlen. unfold render_frame.
  destruct (render_frame_scene backgrounds f Hbg)
    as (time & s & bg & Ht & Hfind & Hs & Hmod & Hget & Hbgl).
  rewrite Ht. cbn [obind]. rewrite Hfind. cbn [obind]. rewrite Hmod. cbn [obind].
  rewrite Hget. cbn [obind].
  destruct characters as [|c cs] eqn:E.
  - cbn. exists (mkFrame f bg (scene_text s) None).
    split; [reflexivity|]. split; [reflexivity|]. split; [eauto|reflexivity].
  - rewrite <- E in *.
    destruct (character_index_in_range f total_frames (length characters)) as (i & -> & Hi);
      [lia|subst; simpl; lia|lia|].
    cbn [obind].
    destruct (getitem_in_range characters i Hi) as (ch & -> & Hch). cbn [obind].
    exists (mkFrame f bg (scene_text s) (Some ch)).
    split; [reflexivity|]. split; [reflexivity|]. split; [eauto|].
    cbn. apply list_elem_of_lookup. eauto.
Qed.

Lemma render_frame_too_many backgrounds characters f :
  backgrounds <> [] ->
  total_frames < Z.of_nat (length characters) ->
  render_frame (scenes (length backgrounds)) backgrounds characters f
  = Raise ZeroDivisionError.
Proof.
  intros Hbg Hlen. unfold render_frame.
  destruct (render_frame_scene backgrounds f Hbg)
    as (time & s & bg & Ht & Hfind & Hs & Hmod & Hget & Hbgl).
  rewrite Ht. cbn [obind]. rewrite Hfind. cbn [obind]. rewrite Hmod. cbn [obind].
  rewrite Hget. cbn [obind]. rewrite character_index_too_many; [reflexivity| |].
  - unfold total_frames, fps, duration in *. lia.
  - unfold total_frames, fps, duration in *. lia.
Qed.

(** *** The frame loop *)

(** What a frame loop that returns has done: it made no outside call,
    each frame is the rendering of its number, the file of each frame holds
    it, and no other path changed. *)
Lemma render_and_save_ret self sc bgs chars fs : forall w frames w',
  Forall (fun f => 0 <= f) fs ->
  render_and_save self sc bgs chars fs w = (Ret frames, w') ->
  calls w' = calls w /\
  Forall2 (fun f fr => render_frame sc bgs chars f = Ret fr) fs frames /\
  (forall f fr, f ∈ fs -> render_frame sc bgs chars f = Ret fr ->
     files w' !! frame_path self f = Some (BFile "frame" (frame_text fr))) /\
  (forall p, (forall f, f ∈ fs -> p <> frame_path self f) ->
     files w' !! p = files w !! p).
Proof.
  induction fs as [|f fs IH]; intros w frames w' Hpos Hrun.
  - cbn in Hrun. injection Hrun as <- <-.
    split; [reflexivity|]. split; [constructor|]. split; [|reflexivity].
    intros f fr Hf. inversion Hf.
  - apply Forall_cons in Hpos as [Hf Hpos].
    cbn [render_and_save] in Hrun. unfold Sys.bind at 1 in Hrun. unfold lift in Hrun.
    destruct (render_frame sc bgs chars f) as [fr|e|] eqn:Hfr; try discriminate.
    unfold Sys.bind at 1 in Hrun. cbn [write_file] in Hrun.
    unfold Sys.bind at 1 in Hrun.
    match type of Hrun with context [render_and_save _ _ _ _ _ ?x] =>
      set (w1 := x) in * end.
    destruct (render_and_save self sc bgs chars fs w1) as [[frs|e|] w2] eqn:Hrest;
      try discriminate.
    cbn [ret] in Hrun. injection Hrun as <- <-.
    destruct (IH w1 frs w2 Hpos Hrest) as (Hc & Hall & Hsaved & Hother).
    split; [exact Hc|]. split; [constructor; assumption|]. split.
    + intros g gr Hg Hgr. destruct (decide (g ∈ fs)) as [Hin|Hout].
      * now apply Hsaved.
      * apply elem_of_cons in Hg as [->|Hg]; [|contradiction].
        rewrite Hother.
        -- unfold w1. cbn [files]. rewrite lookup_insert_eq. congruence.
        -- intros h Hh Heq. apply frame_path_inj in Heq; [subst; contradiction|assumption|].
           now apply (proj1 (Forall_forall _ _) Hpos).
    + intros p Hp. rewrite Hother.
      * unfold w1. cbn [files]. rewrite lookup_insert_ne; [reflexivity|].
        intros Heq. apply (Hp f); [apply list_elem_of_here|now symmetry].
      * intros g Hg. apply Hp. now apply list_elem_of_further.
Qed.

(** A frame loop all of whose frames render returns. *)
Lemma render_and_save_total self sc bgs chars fs : forall w,
  Forall (fun f => exists fr, render_frame sc bgs chars f = Ret fr) fs ->
  exists frames w', render_and_save self sc bgs chars fs w = (Ret frames, w').
Proof.
  induction fs as [|f fs IH]; intros w Hall; [cbn; eauto|].
  apply Forall_cons in Hall as [[fr Hfr] Hall].
  cbn [render_and_save]. unfold Sys.bind at 1. unfold lift. rewrite Hfr.
  unfold Sys.bind at 1. cbn [write_file]. unfold Sys.bind at 1.
  match goal with |- context [render_and_save _ _ _ _ _ ?x] =>
    destruct (IH x Hall) as (frames & w' & ->) end.
  cbn [ret]. eauto.
Qed.

Lemma render_and_save_ok self bgs chars fs w :
  bgs <> [] -> Forall (fun f => 0 <= f) fs ->
  Z.of_nat (length chars) <= total_frames ->
  exists frames w',
    render_and_save self (scenes (length bgs)) bgs chars fs w = (Ret frames, w') /\
    calls w' = calls w /\
    Forall2 (frame_ok bgs chars) fs frames /\
    (forall i f fr, fs !! i = Some f -> frames !! i = Some fr ->
       files w' !! frame_path self f = Some (BFile "frame" (frame_text fr))) /\
    (forall p, (forall f, f ∈ fs -> p <> frame_path self f) ->
       files w' !! p = files w !! p).
Proof.
  intros Hbg Hpos Hlen.
  destruct (render_and_save_total self (scenes (length bgs)) bgs chars fs w)
    as (frames & w' & Hrun).
  { apply Forall_forall. intros f Hf.
    destruct (render_frame_ok bgs chars f Hbg
                (proj1 (Forall_forall _ _) Hpos f Hf) Hlen) as (fr & Hfr & _).
    eauto. }
  exists frames, w'. split; [exact Hrun|].
  destruct (render_and_save_ret _ _ _ _ _ _ _ _ Hpos Hrun) as (Hc & Hall & Hsaved & Hother).
  split; [exact Hc|]. split; [|split; [|exact Hother]].
  - clear -Hbg Hlen Hpos Hall.
    induction Hall as [|f fr fs frames Hfr _ IH]; [constructor|].
    apply Forall_cons in Hpos as [Hf Hpos]. constructor; [|now apply IH].
    destruct (render_frame_ok bgs chars f Hbg Hf Hlen) as (fr' & Hfr' & Hok).
    congruence.
  - intros i f fr Hi Hfri. apply Hsaved; [now apply list_elem_of_lookup_2 in Hi|].
    destruct (Forall2_lookup_l _ _ _ _ _ Hall Hi) as (fr' & Hfr' & Hrf). congruence.
Qed.
End RendererBackgrounds.

Section RendererGradient.

Import Orchestrate.

(** *** The default gradient *)


Lemma range_head n : 0 < n -> exists rest, range n = 0 :: rest.
Proof.
  intros Hn. unfold range.
  replace (Z.to_nat n) with (S (Z.to_nat (n - 1))) by lia.
  cbn [seq map]. eauto.
Qed.


End RendererGradient.



(** * Further properties of the three programs *)

(** ** Wrapped prompt text, the fallback clip and a failing script *)

Section WrappedText.


Lemma removelast_snoc {A} (l : list A) x : removelast (l ++ [x]) = l.
Proof. apply removelast_last. Qed.

Lemma wrap_loop_groups limit words : forall lines current_line groups,
  lines = map (join " ") groups ->
  Forall (fits limit) groups ->
  fits limit current_line \/ current_line = [] ->
  exists groups' current',
    wrap_loop limit words lines current_line = (map (join " ") groups', current') /\
    Forall (fits limit) groups' /\
    (fits limit current' \/ current' = []) /\
    (words <> [] -> current' <> []) /\
    (current_line <> [] -> current' <> []) /\
    concat groups' ++ current' = concat groups ++ current_line ++ words.
Proof.
  induction words as [|word rest IH]; intros lines cur groups Hl Hg Hc.
  - exists groups, cur. simpl. rewrite app_nil_r. subst. repeat split; auto.
  - cbn [wrap_loop].
    destruct (limit <? String.length (join " " (cur ++ [word])))%nat eqn:E.
    + rewrite removelast_snoc.
      assert (Hcur : fits limit cur).
      { destruct Hc as [Hc| ->]; [exact Hc|]. left. simpl. lia. }
      destruct (IH (lines ++ [join " " cur]) [word] (groups ++ [cur]))
        as (g' & c' & Heq & Hg' & Hc' & Hne1 & Hne2 & Hcat).
      * subst. now rewrite map_app.
      * apply Forall_app. split; [exact Hg|]. constructor; [exact Hcur|constructor].
      * left. now right.
      * exists g', c'. split; [exact Heq|]. split; [exact Hg'|]. split; [exact Hc'|].
        split; [intros _; apply Hne2; discriminate|].
        split; [intros _; apply Hne2; discriminate|].
        rewrite Hcat, concat_app. simpl. rewrite app_nil_r, <- !app_assoc. reflexivity.
    + apply Nat.ltb_ge in E.
      destruct (IH lines (cur ++ [word]) groups Hl Hg) as (g' & c' & Heq & Hg' & Hc' & Hne1 & Hne2 & Hcat).
      * left. now left.
      * exists g', c'. split; [exact Heq|]. split; [exact Hg'|]. split; [exact Hc'|].
        assert (cur ++ [word] <> []) by (destruct cur; discriminate).
        split; [intros _; now apply Hne2|]. split; [intros _; now apply Hne2|].
        rewrite Hcat, <- !app_assoc. reflexivity.
Qed.

(** X1: the text wrapping of the two placeholder producers loses no word and
    keeps the order: the lines are the words of consecutive groups joined by
    single spaces, the groups concatenated give back the list of words, and
    every line is at most [limit] characters long unless it consists of a
    single word. *)
Theorem wrap_lines_groups (limit : nat) (words : list string) :
  exists groups,
    wrap_lines limit words = map (join " ") groups /\
    concat groups = words /\
    Forall (fun g => (String.length (join " " g) <= limit)%nat \/ length g = 1%nat)
           groups.
Proof.
  destruct (wrap_loop_groups limit words [] [] [] eq_refl ltac:(constructor) ltac:(now right))
    as (g & c & Heq & Hg & Hc & _ & _ & Hcat).
  unfold wrap_lines. rewrite Heq. simpl in Hcat.
  destruct c as [|x c].
  - exists g. rewrite app_nil_r in Hcat. auto.
  - exists (g ++ [x :: c]). rewrite map_app. split; [reflexivity|]. split.
    + rewrite concat_app. simpl. now rewrite app_nil_r.
    + apply Forall_app. split; [exact Hg|]. constructor; [|constructor].
      destruct Hc as [Hc|Hc]; [exact Hc|discriminate].
Qed.
End WrappedText.

Section WrappedTextEdge.

Lemma wrap_loop_prefix limit words : forall l0 lines cur,
  wrap_loop limit words (l0 ++ lines) cur
  = (l0 ++ fst (wrap_loop limit words lines cur), snd (wrap_loop limit words lines cur)).
Proof.
  induction words as [|word rest IH]; intros l0 lines cur; cbn [wrap_loop]; [reflexivity|].
  destruct (limit <? _)%nat; [|apply IH].
  rewrite <- app_assoc. apply IH.
Qed.

Lemma wrap_lines_long_first limit word rest :
  (limit < String.length word)%nat ->
  exists tail, wrap_lines limit (word :: rest) = "" :: tail /\ tail <> [].
Proof.
  intros Hlong. unfold wrap_lines. cbn [wrap_loop app].
  change (join " " [word]) with word.
  destruct (Nat.ltb_spec limit (String.length word)) as [_|?]; [|lia].
  change [join " " (removelast [word])] with ([""] ++ @nil string).
  rewrite wrap_loop_prefix.
  destruct (wrap_loop_groups limit rest [] [word] [] eq_refl ltac:(constructor)
              ltac:(left; now right))
    as (g & c & Heq & _ & _ & _ & Hne & _).
  rewrite Heq. cbn [fst snd]. specialize (Hne ltac:(discriminate)).
  destruct c as [|x c]; [congruence|].
  exists (map (join " ") g ++ [join " " (x :: c)]). split; [reflexivity|].
  destruct (map (join " ") g); discriminate.
Qed.

(** X2: a prompt whose first word is longer than the width of the wrapped
    text starts with an empty line: the fallback clip image draws the empty
    string at its first offset 800 before any word, and the wrapped prompt
    of the asset placeholder starts with the empty line as well. *)
Theorem long_first_word_draws_empty_line (prompt word : string) (rest : list string) :
  split prompt = word :: rest ->
  (40 < String.length word)%nat ->
  (exists tail, Pipeline.drawn_lines prompt = (800, "") :: tail /\ tail <> []) /\
  (exists tail, Assets.wrap_prompt prompt = "" :: tail /\ tail <> []).
Proof.
  intros Hsplit Hlong. split.
  - unfold Pipeline.drawn_lines, Pipeline.wrap_prompt. rewrite Hsplit.
    destruct (wrap_lines_long_first 30 word rest ltac:(lia)) as (tail & -> & Htail).
    destruct tail as [|l tail]; [congruence|].
    cbn [take imap]. eexists. split; [reflexivity|discriminate].
  - unfold Assets.wrap_prompt. rewrite Hsplit. now apply wrap_lines_long_first.
Qed.
End WrappedTextEdge.

Lemma long_first_word_draws_empty_line_witness :
  exists tail, Pipeline.drawn_lines long_prompt = (800, "") :: tail /\ tail <> [].
Proof.
  refine (proj1 (long_first_word_draws_empty_line long_prompt long_word ["door"] _ _)).
  - vm_compute. reflexivity.
  - vm_compute. lia.
Defined.

Section PipelineFallback.
Import Pipeline.

(** X5: [FallbackImageProvider.generate_clip] on an output path that is not
    itself a [.png] path calls ffmpeg once.  If ffmpeg succeeds the asset is
    returned, the clip is on disk and the intermediate image has been
    removed.  If ffmpeg fails the call raises [CalledProcessError], the
    intermediate image is left on disk, and the output path holds a partial
    file or what it held before. *)
Theorem fallback_clip_outcomes (env : Env) (fuel : nat) (prompt out : string)
    (d : Q) (w : World) :
  with_suffix out ".png" <> out ->
  exists w',
    calls w' = calls w ++ [CallFfmpeg out] /\
    match ffmpeg_run env out with
    | ExitOk =>
        generate_clip env fuel FallbackImageProvider prompt d out w
        = (Ret (mkAsset out "video" d [("type", "image_fallback"); ("prompt", prompt)]),
           w') /\
        files w' !! out = Some (BFile "ffmpeg" out) /\
        files w' !! with_suffix out ".png" = None
    | ExitFail partial =>
        generate_clip env fuel FallbackImageProvider prompt d out w
        = (Raise (CalledProcessError "ffmpeg"), w') /\
        files w' !! with_suffix out ".png" = Some (BFile "placeholder-image" prompt) /\
        files w' !! out
        = (if partial then Some (BFile "ffmpeg-partial" out) else files w !! out)
    end.
Proof.
  intros Hne. unfold generate_clip, run_ffmpeg.
  unfold Sys.bind at 1. cbn [write_file]. unfold Sys.bind at 1. unfold Sys.bind at 1.
  cbn [call]. destruct (ffmpeg_run env out) as [|partial].
  - cbn [write_file]. unfold Sys.bind at 1. unfold unlink. cbn [files calls].
    rewrite lookup_insert_ne, lookup_insert_eq by congruence.
    cbn [ret]. eexists. split; [|split; [reflexivity|]]; cbn [files calls].
    + reflexivity.
    + rewrite lookup_delete_ne, lookup_insert_eq by congruence.
      split; [reflexivity|apply lookup_delete_eq].
  - destruct partial; cbn [Sys.bind write_file ret raise files calls];
      (eexists; split; [|split; [reflexivity|]]; cbn [files calls]; [reflexivity|]).
    + rewrite lookup_insert_ne, !lookup_insert_eq by congruence. split; reflexivity.
    + rewrite lookup_insert_eq, lookup_insert_ne by congruence. split; reflexivity.
Qed.

(** X6: when the output path already has the suffix [.png], the intermediate
    image of [FallbackImageProvider.generate_clip] is the output file
    itself: after a successful ffmpeg run the returned asset names a path
    that no longer exists. *)
Theorem fallback_clip_deletes_png_output (env : Env) (fuel : nat)
    (prompt out : string) (d : Q) (w : World) :
  with_suffix out ".png" = out ->
  ffmpeg_run env out = ExitOk ->
  exists asset w',
    generate_clip env fuel FallbackImageProvider prompt d out w = (Ret asset, w') /\
    path asset = out /\ files w' !! out = None.
Proof.
  intros Heq Hff. unfold generate_clip, run_ffmpeg. rewrite Heq, Hff.
  unfold Sys.bind at 1. cbn [write_file]. unfold Sys.bind at 1. unfold Sys.bind at 1.
  cbn [call write_file]. unfold Sys.bind at 1. unfold unlink. cbn [files calls].
  rewrite lookup_insert_eq. cbn [ret]. eexists _, _. split; [reflexivity|].
  cbn [path files]. split; [reflexivity|]. apply lookup_delete_eq.
Qed.

(** X11: when the script provider raises, [VideoPipeline.generate] raises
    the same exception, no file has been written, and the request to the
    script model is the only outside call. *)
Theorem generate_stops_when_script_fails (env : Env) (fuel : nat)
    (self : VideoPipeline) (topic style : string) (duration : Z) (w : World) (e : exn) :
  fst (generate_script env topic style duration w) = Raise e ->
  generate env fuel self topic style duration w
  = (Raise e, mkWorld (files w) (calls w ++ [CallClaude topic style duration])).
Proof.
  unfold generate, generate_inputs, generate_script.
  unfold Sys.bind at 1. unfold Sys.bind at 2. unfold Sys.bind at 2. unfold Sys.bind at 2.
  cbn [call].
  destruct (claude_reply env topic style duration); cbn [raise ret fst]; intros H;
    try discriminate; injection H as <-; reflexivity.
Qed.
End PipelineFallback.

Lemma fallback_clip_outcomes_witness :
  exists w',
    Pipeline.generate_clip quiet_env 1 Pipeline.FallbackImageProvider "a door" 5%Q
      "./output/clip_00.mp4" empty_world
    = (Ret (Pipeline.mkAsset "./output/clip_00.mp4" "video" 5%Q
              [("type", "image_fallback"); ("prompt", "a door")]), w') /\
    files w' !! "./output/clip_00.png" = None.
Proof.
  destruct (fallback_clip_outcomes quiet_env 1 "a door" "./output/clip_00.mp4" 5%Q
              empty_world ltac:(vm_compute; discriminate)) as (w' & _ & H).
  exists w'. exact (conj (proj1 H) (proj2 (proj2 H))).
Defined.

Lemma fallback_clip_deletes_png_output_witness :
  exists asset w',
    Pipeline.generate_clip quiet_env 1 Pipeline.FallbackImageProvider "a door" 5%Q
      "./output/clip.png" empty_world = (Ret asset, w') /\
    Pipeline.path asset = "./output/clip.png" /\
    files w' !! "./output/clip.png" = None.
Proof.
  apply (fallback_clip_deletes_png_output quiet_env 1 "a door" "./output/clip.png"
           5%Q empty_world); reflexivity.
Defined.

Lemma generate_stops_when_script_fails_witness :
  Pipeline.generate stuck_env 1 demo_pipeline "doors" "dramatic" 60 empty_world
  = (Raise (HTTPStatusError "https://api.anthropic.com/v1/messages"),
     mkWorld ∅ [CallClaude "doors" "dramatic" 60]).
Proof.
  apply (generate_stops_when_script_fails stuck_env 1 demo_pipeline
           "doors" "dramatic" 60 empty_world).
  reflexivity.
Defined.

(** ** Traces of the Replicate providers *)

Section ReplicateTraces.
Import Pipeline Assets.
Variable env : Env.
Variable url : string.


Lemma poll_calls_S secs n : poll_calls url secs (S n) = [CallSleep secs; CallReplicateGet url] ++ poll_calls url secs n.
Proof. reflexivity. Qed.

Lemma poll_video_trace fuel : forall n k w,
  (forall j, (j < n)%nat -> terminal (replicate_get env url (k + j)) = false) ->
  terminal (replicate_get env url (k + n)) = true ->
  (n < fuel)%nat ->
  poll_video env fuel url k w =
    (if String.eqb (status (replicate_get env url (k + n))) "succeeded"
     then Ret (output (replicate_get env url (k + n)))
     else Raise (RuntimeError ("Video generation failed: " +:+
                                error (replicate_get env url (k + n)))),
     mkWorld (files w) (calls w ++ poll_calls url 5 (S n))).
Proof.
  induction fuel as [|fuel IH]; intros n k w Hrun Hterm Hfuel; [lia|].
  cbn [poll_video]. unfold Sys.bind at 1; cbn [call]; unfold Sys.bind at 1; cbn [call files calls].
  destruct n as [|n].
  - rewrite Nat.add_0_r in *. unfold terminal in Hterm.
    cbn [poll_calls replicate concat]. rewrite app_nil_r.
    replace (calls w ++ [CallSleep 5; CallReplicateGet url])
      with ((calls w ++ [CallSleep 5]) ++ [CallReplicateGet url])
      by (now rewrite <- app_assoc).
    destruct (String.eqb (status (replicate_get env url k)) "succeeded") eqn:E.
    + reflexivity.
    + simpl in Hterm. rewrite Hterm. reflexivity.
  - pose proof (Hrun 0%nat ltac:(lia)) as H0. rewrite Nat.add_0_r in H0.
    unfold terminal in H0. apply orb_false_iff in H0 as [-> ->].
    rewrite (IH n (S k)).
    + replace (S k + n)%nat with (k + S n)%nat by lia. f_equal. cbn [files calls].
      f_equal. rewrite (poll_calls_S 5 (S n)). now rewrite <- !app_assoc.
    + intros j Hj. replace (S k + j)%nat with (k + S j)%nat by lia. apply Hrun. lia.
    + replace (S k + n)%nat with (k + S n)%nat by lia. exact Hterm.
    + lia.
Qed.

Lemma poll_image_trace fuel : forall n k w,
  (forall j, (j < n)%nat -> terminal (replicate_get env url (k + j)) = false) ->
  terminal (replicate_get env url (k + n)) = true ->
  (n < fuel)%nat ->
  poll_image env fuel url k w =
    (if String.eqb (status (replicate_get env url (k + n))) "succeeded"
     then Ret (output (replicate_get env url (k + n)))
     else Raise (RuntimeError ("Generation failed: " +:+
                                error (replicate_get env url (k + n)))),
     mkWorld (files w) (calls w ++ poll_calls url 3 (S n))).
Proof.
  induction fuel as [|fuel IH]; intros n k w Hrun Hterm Hfuel; [lia|].
  cbn [poll_image]. unfold Sys.bind at 1; cbn [call]; unfold Sys.bind at 1; cbn [call files calls].
  destruct n as [|n].
  - rewrite Nat.add_0_r in *. unfold terminal in Hterm.
    cbn [poll_calls replicate concat]. rewrite app_nil_r.
    replace (calls w ++ [CallSleep 3; CallReplicateGet url])
      with ((calls w ++ [CallSleep 3]) ++ [CallReplicateGet url])
      by (now rewrite <- app_assoc).
    destruct (String.eqb (status (replicate_get env url k)) "succeeded") eqn:E.
    + reflexivity.
    + simpl in Hterm. rewrite Hterm. reflexivity.
  - pose proof (Hrun 0%nat ltac:(lia)) as H0. rewrite Nat.add_0_r in H0.
    unfold terminal in H0. apply orb_false_iff in H0 as [-> ->].
    rewrite (IH n (S k)).
    + replace (S k + n)%nat with (k + S n)%nat by lia. f_equal. cbn [files calls].
      f_equal. rewrite (poll_calls_S 3 (S n)). now rewrite <- !app_assoc.
    + intros j Hj. replace (S k + j)%nat with (k + S j)%nat by lia. apply Hrun. lia.
    + replace (S k + n)%nat with (k + S n)%nat by lia. exact Hterm.
    + lia.
Qed.

(** X3: when the prediction is created at [url], the first [n] polls find
    it unfinished, poll [n] finds it succeeded and the loop is granted more
    than [n] turns, [ReplicateVideoProvider.generate_clip] returns a video
    asset with the requested path, duration, model and prompt; the output
    file holds the download of the prediction's output; and the outside
    calls are exactly the POST, [n + 1] rounds of a 5 second sleep followed
    by a GET, and one download. *)
Theorem replicate_clip_succeeds (fuel n : nat) (model prompt : string) (d : Q)
    (out : string) (w : World) :
  replicate_post env prompt = Some url ->
  (forall j, (j < n)%nat -> terminal (replicate_get env url j) = false) ->
  status (replicate_get env url n) = "succeeded" ->
  (n < fuel)%nat ->
  generate_clip env fuel (ReplicateVideoProvider model) prompt d out w =
    (Ret (mkAsset out "video" d [("model", model); ("prompt", prompt)]),
     mkWorld (<[out := BFile "replicate" (output (replicate_get env url n))]> (files w))
             (calls w ++ [CallReplicatePost model prompt] ++ poll_calls url 5 (S n)
                ++ [CallDownload (output (replicate_get env url n))])).
Proof.
  intros Hpost Hrun Hok Hfuel. unfold generate_clip.
  unfold Sys.bind at 1. cbn [call]. rewrite Hpost. unfold Sys.bind at 1.
  rewrite (poll_video_trace fuel n 0%nat); [|exact Hrun|unfold terminal; cbn; now rewrite Hok|exact Hfuel].
  cbn [Nat.add]. rewrite Hok. cbn [String.eqb].
  replace ("succeeded" =? "succeeded")%string with true by reflexivity.
  cbn [Sys.bind call write_file ret files calls]. 
  do 2 f_equal. now rewrite <- !app_assoc.
Qed.

(** X4: under the same conditions with poll [n] reporting "failed",
    [ReplicateVideoProvider.generate_clip] raises [RuntimeError] with the
    message "Video generation failed: " followed by the prediction's error,
    no file is written and nothing is downloaded. *)
Theorem replicate_clip_fails (fuel n : nat) (model prompt : string) (d : Q)
    (out : string) (w : World) :
  replicate_post env prompt = Some url ->
  (forall j, (j < n)%nat -> terminal (replicate_get env url j) = false) ->
  status (replicate_get env url n) = "failed" ->
  (n < fuel)%nat ->
  generate_clip env fuel (ReplicateVideoProvider model) prompt d out w =
    (Raise (RuntimeError ("Video generation failed: " +:+ error (replicate_get env url n))),
     mkWorld (files w)
             (calls w ++ [CallReplicatePost model prompt] ++ poll_calls url 5 (S n))).
Proof.
  intros Hpost Hrun Hok Hfuel. unfold generate_clip.
  unfold Sys.bind at 1. cbn [call]. rewrite Hpost. unfold Sys.bind at 1.
  rewrite (poll_video_trace fuel n 0%nat); [|exact Hrun|unfold terminal; cbn; now rewrite Hok|exact Hfuel].
  cbn [Nat.add]. rewrite Hok.
  replace ("failed" =? "succeeded")%string with false by reflexivity.
  cbn [files calls]. do 2 f_equal. now rewrite <- !app_assoc.
Qed.

(** X14: when the prediction is created at [url], succeeds at poll [n] after
    [n] unfinished polls, and the loop is granted more than [n] turns,
    [ImageGenerator._generate_replicate] returns the output path; the file
    holds the downloaded image, resized in place when the requested width or
    height exceeds 1024; and the outside calls are exactly the POST,
    [n + 1] rounds of a 3 second sleep followed by a GET, and one
    download. *)
Theorem replicate_image_succeeds (fuel n : nat) (self : ImageGenerator)
    (prompt : string) (wd ht : Z) (out : string) (w : World) :
  replicate_post env prompt = Some url ->
  (forall j, (j < n)%nat -> terminal (replicate_get env url j) = false) ->
  status (replicate_get env url n) = "succeeded" ->
  (n < fuel)%nat ->
  _generate_replicate env fuel self prompt wd ht out w =
    (Ret out,
     mkWorld (<[out := BFile (if (1024 <? wd) || (1024 <? ht)
                              then "replicate-resized" else "replicate")
                             (output (replicate_get env url n))]> (files w))
             (calls w ++ [CallReplicatePost sdxl_version prompt] ++ poll_calls url 3 (S n)
                ++ [CallDownload (output (replicate_get env url n))])).
Proof.
  intros Hpost Hrun Hok Hfuel. unfold _generate_replicate.
  unfold Sys.bind at 1. cbn [call]. rewrite Hpost. unfold Sys.bind at 1.
  rewrite (poll_image_trace fuel n 0%nat); [|exact Hrun|unfold terminal; cbn; now rewrite Hok|exact Hfuel].
  cbn [Nat.add]. rewrite Hok.
  replace ("succeeded" =? "succeeded")%string with true by reflexivity.
  cbn [Sys.bind call write_file ret files calls].
  destruct ((1024 <? wd) || (1024 <? ht)); cbn [Sys.bind call write_file ret files calls];
    rewrite ?insert_insert_eq; do 2 f_equal; now rewrite <- !app_assoc.
Qed.
End ReplicateTraces.

Lemma replicate_clip_succeeds_witness :
  Pipeline.generate_clip ready_env 5 (Pipeline.ReplicateVideoProvider "minimax/video-01")
    "a door" 5%Q "./output/clip_00.mp4" empty_world
  = (Ret (Pipeline.mkAsset "./output/clip_00.mp4" "video" 5%Q
            [("model", "minimax/video-01"); ("prompt", "a door")]),
     mkWorld (<["./output/clip_00.mp4" :=
                  BFile "replicate" "https://replicate.delivery/out"]> ∅)
             ([CallReplicatePost "minimax/video-01" "a door"]
                ++ poll_calls job_url 5 3
                ++ [CallDownload "https://replicate.delivery/out"])).
Proof.
  apply (replicate_clip_succeeds ready_env job_url 5 2
           "minimax/video-01" "a door" 5%Q "./output/clip_00.mp4" empty_world).
  - reflexivity.
  - intros [|[|j]] Hj; [reflexivity|reflexivity|lia].
  - reflexivity.
  - lia.
Defined.

Lemma replicate_clip_fails_witness :
  Pipeline.generate_clip failing_env 5 (Pipeline.ReplicateVideoProvider "minimax/video-01")
    "a door" 5%Q "./output/clip_00.mp4" empty_world
  = (Raise (RuntimeError "Video generation failed: NSFW content detected"),
     mkWorld ∅ ([CallReplicatePost "minimax/video-01" "a door"]
                  ++ poll_calls job_url 5 3)).
Proof.
  apply (replicate_clip_fails failing_env job_url 5 2
           "minimax/video-01" "a door" 5%Q "./output/clip_00.mp4" empty_world).
  - reflexivity.
  - intros [|[|j]] Hj; [reflexivity|reflexivity|lia].
  - reflexivity.
  - lia.
Defined.

Lemma replicate_image_succeeds_witness :
  Assets._generate_replicate ready_env 5 (Assets.new_generator ready_env "replicate")
    "a red door" 1080 1920 "assets/door.png" empty_world
  = (Ret "assets/door.png",
     mkWorld (<["assets/door.png" :=
                  BFile "replicate-resized" "https://replicate.delivery/out"]> ∅)
             ([CallReplicatePost Assets.sdxl_version "a red door"]
                ++ poll_calls job_url 3 3
                ++ [CallDownload "https://replicate.delivery/out"])).
Proof.
  apply (replicate_image_succeeds ready_env job_url 5 2
           (Assets.new_generator ready_env "replicate")
           "a red door" 1080 1920 "assets/door.png" empty_world).
  - reflexivity.
  - intros [|[|j]] Hj; [reflexivity|reflexivity|lia].
  - reflexivity.
  - lia.
Defined.

(** ** Failures inside [VideoPipeline.generate] *)

Section PipelineFailures.
Import Pipeline.






Lemma generate_audio_frame env provider text out voice w o w' :
  generate_audio env provider text out voice w = (o, w') ->
  forall p, p <> out -> files w' !! p = files w !! p.
Proof.
  intros H p Hp. unfold generate_audio in H.
  destruct provider; unfold Sys.bind at 1 in H; cbn [call] in H.
  - destruct (edge_tts_error env text).
    + cbn [raise] in H. now injection H as <- <-.
    + unfold Sys.bind at 1 in H. cbn [write_file] in H. unfold Sys.bind at 1 in H.
      cbn [call] in H. unfold Sys.bind at 1 in H. unfold lift in H.
      destruct (probed_duration env (ffprobe_stdout env out));
        cbn [ret files calls] in H; injection H as <- <-; cbn [files];
        now rewrite lookup_insert_ne by congruence.
  - destruct (openai_speech_ok env text).
    + unfold Sys.bind at 1 in H. cbn [write_file] in H. unfold Sys.bind at 1 in H.
      cbn [call] in H. unfold Sys.bind at 1 in H. unfold lift in H.
      destruct (probed_duration env (ffprobe_stdout env out));
        cbn [ret files calls] in H; injection H as <- <-; cbn [files];
        now rewrite lookup_insert_ne by congruence.
    + cbn [raise] in H. now injection H as <- <-.
Qed.


(** X12: when the script is generated but speech synthesis raises,
    [VideoPipeline.generate] raises the same exception; the script JSON is
    on disk, and no clip path and not the final video path has been
    touched. *)
Theorem generate_stops_when_speech_fails (env : Env) (fuel : nat) (self : VideoPipeline)
    (topic style : string) (duration : Z) (w w1 w2 : World)
    (script : VideoScript) (e : exn) :
  generate_script env topic style duration w = (Ret script, w1) ->
  generate_audio env (tts_provider self) (to_narration script)
    (audio_path (output_dir self)) (default_voice (tts_provider self))
    (mkWorld (<[script_path env (output_dir self) := BFile "json.dump" (title script)]>
                (files w1)) (calls w1)) = (Raise e, w2) ->
  generate env fuel self topic style duration w = (Raise e, w2) /\
  is_file w2 (script_path env (output_dir self)) /\
  (forall i, files w2 !! clip_path (output_dir self) i
             = files w !! clip_path (output_dir self) i) /\
  files w2 !! final_path env (output_dir self)
    = files w !! final_path env (output_dir self).
Proof.
  intros Hs Ha. split.
  - unfold generate, generate_inputs. unfold Sys.bind at 1. unfold Sys.bind at 1.
    rewrite Hs. unfold Sys.bind at 1. cbn [write_file]. unfold Sys.bind at 1.
    rewrite Ha. reflexivity.
  - pose proof (generate_audio_frame _ _ _ _ _ _ _ _ Ha) as Hframe. cbn [files] in Hframe.
    apply generate_script_inv in Hs as (t & data & _ & _ & ->). cbn [files] in Hframe.
    split; [|split].
    + unfold is_file. rewrite Hframe by (intros H; symmetry in H; exact (audio_not_script _ _ H)).
      rewrite lookup_insert_eq. eauto.
    + intros i. rewrite Hframe by apply clip_not_audio.
      rewrite lookup_insert_ne; [reflexivity|].
      intros H. symmetry in H. exact (clip_not_script _ _ _ H).
    + rewrite Hframe by (intros H; exact (audio_not_final _ _ (eq_sym H))).
      rewrite lookup_insert_ne; [reflexivity|]. apply script_not_final.
Qed.

End PipelineFailures.

Lemma generate_stops_when_speech_fails_witness :
  exists w2,
    Pipeline.generate mute_env 1 demo_pipeline "doors" "dramatic" 60 empty_world
    = (Raise (HTTPStatusError "https://api.openai.com/v1/audio/speech"), w2) /\
    is_file w2 (Pipeline.script_path mute_env "./output").
Proof.
  set (w1 := mkWorld ∅ [CallClaude "doors" "dramatic" 60]).
  set (w2 := snd (Pipeline.generate_audio mute_env Pipeline.OpenAITTSProvider
                    (Pipeline.to_narration studio_script)
                    "./output/voiceover.mp3" "onyx"
                    (mkWorld (<[Pipeline.script_path mute_env "./output" :=
                                  BFile "json.dump" "Backwards"]> (files w1))
                             (calls w1)))).
  destruct (generate_stops_when_speech_fails mute_env 1 demo_pipeline
              "doors" "dramatic" 60 empty_world w1 w2 studio_script
              (HTTPStatusError "https://api.openai.com/v1/audio/speech")
              eq_refl eq_refl) as (H1 & H2 & _).
  exists w2. split; assumption.
Defined.


(** ** Clips, assembly and the duration probe *)

Section PipelineOutputs.
Import Pipeline.

(** X9: the number printed in a clip's file name reads back as the scene's
    position, and two positions give the same clip path only if they are
    equal, so no clip overwrites another. *)
Theorem clip_names_are_distinct (dir : string) (i j : nat) :
  decimal_value (fmt_02d i) = N.of_nat i /\
  (clip_path dir i = clip_path dir j <-> i = j).
Proof.
  split; [apply decimal_value_fmt_02d|]. split; [apply clip_path_inj|now intros ->].
Qed.

Lemma generate_clips_assets env fuel self todo : forall i w clips w',
  generate_clips env fuel self i todo w = (Ret clips, w') ->
  Forall2 (fun scene clip =>
             duration clip = (end_time scene - start_time scene)%Q /\
             asset_type clip = "video")
          todo clips.
Proof.
  induction todo as [|scene todo IH]; intros i w clips w' H.
  - cbn [generate_clips ret] in H. injection H as <- <-. constructor.
  - cbn [generate_clips] in H. unfold Sys.bind at 1 in H.
    destruct (generate_clip _ _ _ _ _ _ w) as [[clip|e|] w1] eqn:Hclip; try discriminate.
    unfold Sys.bind at 1 in H.
    destruct (generate_clips _ _ _ _ _ w1) as [[rest|e|] w2] eqn:Hrest; try discriminate.
    cbn [ret] in H. injection H as <- <-. constructor; [|exact (IH _ _ _ _ Hrest)].
    clear Hrest IH. unfold generate_clip in Hclip.
    destruct (video_provider self) as [model|].
    + unfold Sys.bind at 1 in Hclip. cbn [call] in Hclip.
      destruct (replicate_post env _); [|discriminate].
      unfold Sys.bind at 1 in Hclip.
      destruct (poll_video _ _ _ _ _) as [[u|e|] w3]; try discriminate.
      cbn [Sys.bind ret call write_file] in Hclip. injection Hclip as <- _. split; reflexivity.
    + unfold Sys.bind at 1 in Hclip. cbn [write_file] in Hclip.
      unfold Sys.bind at 1 in Hclip.
      destruct (run_ffmpeg _ _ _) as [[[]|e|] w3]; try discriminate.
      unfold Sys.bind at 1 in Hclip.
      destruct (unlink _ _) as [[[]|e|] w4]; try discriminate.
      cbn [ret] in Hclip. injection Hclip as <- _. split; reflexivity.
Qed.

(** X10: when steps 1 to 3 of [VideoPipeline.generate] return, there is
    exactly one clip per scene, in scene order; the clip of the scene at
    position [i] has the path [clip_NN.mp4] of that position, the duration
    [end_time - start_time] of that scene and type "video", and it is on
    disk. *)
Theorem one_clip_per_scene (env : Env) (fuel : nat) (self : VideoPipeline)
    (topic style : string) (duration : Z) (w0 w3 : World)
    (script : VideoScript) (audio : GeneratedAsset) (clips : list GeneratedAsset) :
  generate_inputs env fuel self topic style duration w0
    = (Ret (script, audio, clips), w3) ->
  length clips = length (scenes script) /\
  forall i scene,
    scenes script !! i = Some scene ->
    exists clip,
      clips !! i = Some clip /\
      path clip = clip_path (output_dir self) i /\
      Pipeline.duration clip = (end_time scene - start_time scene)%Q /\
      asset_type clip = "video" /\
      is_file w3 (path clip).
Proof.
  intros Hin.
  destruct (generate_inputs_inv _ _ _ _ _ _ _ _ _ _ _ Hin) as (w1 & w2 & _ & _ & Hc).
  pose proof (generate_clips_assets _ _ _ _ _ _ _ _ Hc) as Hall.
  apply generate_clips_ret in Hc as (Hpaths & Hfiles & _).
  split; [symmetry; exact (Forall2_length _ _ _ Hall)|].
  intros i scene Hscene.
  destruct (Forall2_lookup_l _ _ _ _ _ Hall Hscene) as (clip & Hclip & Hd & Ht).
  exists clip. split; [exact Hclip|].
  assert (Hp : path clip = clip_path (output_dir self) i).
  { assert (map path clips !! i = Some (path clip)) as H
      by (rewrite list_lookup_fmap, Hclip; reflexivity).
    rewrite Hpaths in H. unfold clip_paths in H.
    rewrite list_lookup_fmap in H.
    destruct (seq 0 (length (scenes script)) !! i) as [j|] eqn:Hj; [|discriminate].
    apply lookup_seq in Hj as [-> _]. simpl in H. now injection H as <-. }
  repeat split; try assumption.
  rewrite Hp. apply Hfiles. apply clip_paths_elem. exists i. split; [|reflexivity].
  apply lookup_lt_Some in Hscene. exact Hscene.
Qed.

(** X8: [VideoCompiler.compile] touches only the concat list, the temporary
    video and the final video, and it always ends.  When it returns, it
    returns the final path, the final video is on disk and both scratch
    files are gone; when it raises, the error is ffmpeg's
    [CalledProcessError], the concat list is still on disk with the clip
    paths in order, and so is the temporary video if the first ffmpeg run
    had succeeded. *)
Theorem compile_scratch_files (env : Env) (dir : string)
    (clips : list GeneratedAsset) (audio : GeneratedAsset) (script : VideoScript)
    (w w' : World) (o : outcome string) :
  compile env dir clips audio script w = (o, w') ->
  (forall p, p <> concat_path dir -> p <> temp_path dir -> p <> final_path env dir ->
     files w' !! p = files w !! p) /\
  match o with
  | Ret final =>
      final = final_path env dir /\ is_file w' final /\
      files w' !! concat_path dir = None /\ files w' !! temp_path dir = None
  | Raise e =>
      e = CalledProcessError "ffmpeg" /\
      files w' !! concat_path dir
        = Some (BFile "concat-list" (join "," (map path clips))) /\
      (ffmpeg_run env (temp_path dir) = ExitOk -> is_file w' (temp_path dir))
  | Pending => False
  end.
Proof.
  intros H. pose proof (compile_frame _ _ _ _ _ _ _ _ H) as [Hframe Hout].
  split; [exact Hframe|]. destruct o as [final|e|]; try exact Hout.
  split; [exact Hout|].
  pose proof (concat_not_temp dir) as Hct.
  pose proof (final_not_concat env dir) as Hfc.
  pose proof (final_not_temp env dir) as Hft.
  unfold compile in H. fold (final_path env dir) (concat_path dir) (temp_path dir) in H.
  unfold Sys.bind at 1 in H. cbn [write_file] in H.
  unfold Sys.bind at 1 in H. unfold run_ffmpeg at 1 in H. unfold Sys.bind at 1 in H.
  cbn [call] in H.
  destruct (ffmpeg_run env (temp_path dir)) as [|partial1].
  - cbn [write_file] in H. unfold Sys.bind at 1 in H. unfold run_ffmpeg at 1 in H.
    unfold Sys.bind at 1 in H. cbn [call] in H.
    destruct (ffmpeg_run env (final_path env dir)) as [|partial2].
    + cbn [write_file] in H. unfold Sys.bind at 1 in H. unfold unlink at 1 in H.
      cbn [files calls] in H.
      rewrite !lookup_insert_ne, lookup_insert_eq in H by congruence.
      unfold Sys.bind at 1 in H. unfold unlink at 1 in H. cbn [files calls] in H.
      rewrite lookup_delete_ne, lookup_insert_ne, lookup_insert_eq in H by congruence.
      cbn [ret] in H. discriminate.
    + destruct partial2; cbn [Sys.bind ret raise write_file files calls] in H;
        injection H as _ <-; unfold is_file; cbn [files]; (split; [|intros _]);
        rewrite ?lookup_insert_ne by congruence; rewrite ?lookup_insert_eq; eauto.
  - destruct partial1; cbn [Sys.bind ret raise write_file files calls] in H;
      injection H as _ <-; cbn [files]; (split; [|discriminate]);
      rewrite ?lookup_insert_ne by congruence; now rewrite ?lookup_insert_eq.
Qed.

(** X7: when speech synthesis succeeds and ffprobe prints something other
    than white space, [generate_audio] of either provider returns an asset
    whose duration is the parsed number; if the text is no number it raises
    [ValueError] carrying the stripped text, and in both cases the audio
    file stays on disk. *)
Theorem generate_audio_probed_duration (env : Env) (provider : TTSProvider)
    (text output_path voice : string) (w : World) :
  synthesized env provider text ->
  strip (ffprobe_stdout env output_path) <> "" ->
  (forall d,
     float_of_string env (strip (ffprobe_stdout env output_path)) = Some d ->
     exists asset w',
       generate_audio env provider text output_path voice w = (Ret asset, w') /\
       duration asset = d /\ path asset = output_path /\ is_file w' output_path) /\
  (float_of_string env (strip (ffprobe_stdout env output_path)) = None ->
   exists w',
     generate_audio env provider text output_path voice w
       = (Raise (ValueError (strip (ffprobe_stdout env output_path))), w') /\
     is_file w' output_path).
Proof.
  intros Hsyn Hprobe.
  assert (Hne : negb (strip (ffprobe_stdout env output_path) =? "")%string = true).
  { apply negb_true_iff, String.eqb_neq. exact Hprobe. }
  split.
  - intros d Hd. destruct provider; simpl in Hsyn; unfold generate_audio;
      unfold Sys.bind at 1; cbn [call]; rewrite Hsyn;
      unfold Sys.bind at 1; cbn [write_file]; unfold Sys.bind at 1; cbn [call];
      unfold Sys.bind at 1; unfold lift, probed_duration; rewrite Hne, Hd;
      do 2 eexists; (split; [reflexivity|]); unfold is_file; cbn [duration path files];
      repeat split; rewrite lookup_insert_eq; eauto.
  - intros Hd. destruct provider; simpl in Hsyn; unfold generate_audio;
      unfold Sys.bind at 1; cbn [call]; rewrite Hsyn;
      unfold Sys.bind at 1; cbn [write_file]; unfold Sys.bind at 1; cbn [call];
      unfold Sys.bind at 1; unfold lift, probed_duration; rewrite Hne, Hd;
      eexists; (split; [reflexivity|]); unfold is_file; cbn [files];
      rewrite lookup_insert_eq; eauto.
Qed.
End PipelineOutputs.

Lemma generate_audio_probed_duration_witness :
  exists asset w',
    Pipeline.generate_audio studio_env Pipeline.OpenAITTSProvider "Hook."
      "./output/voiceover.mp3" "onyx" empty_world = (Ret asset, w') /\
    Pipeline.duration asset = (25 # 2)%Q /\
    Pipeline.path asset = "./output/voiceover.mp3" /\
    is_file w' "./output/voiceover.mp3".
Proof.
  apply (proj1 (generate_audio_probed_duration studio_env Pipeline.OpenAITTSProvider
                  "Hook." "./output/voiceover.mp3" "onyx" empty_world
                  eq_refl ltac:(vm_compute; discriminate))).
  reflexivity.
Defined.

Lemma compile_scratch_files_witness :
  exists w',
    Pipeline.compile quiet_env "./output" demo_clips demo_audio demo_script
                     (snd demo_inputs)
      = (Ret (final_path quiet_env "./output"), w') /\
    is_file w' (final_path quiet_env "./output") /\
    files w' !! concat_path "./output" = None /\
    files w' !! temp_path "./output" = None.
Proof.
  exists (snd (Pipeline.compile quiet_env "./output" demo_clips demo_audio demo_script
                                (snd demo_inputs))).
  split; [reflexivity|].
  exact (proj2 (proj2 (compile_scratch_files quiet_env "./output" demo_clips
                         demo_audio demo_script (snd demo_inputs) _
                         (Ret (final_path quiet_env "./output")) eq_refl))).
Defined.

Lemma one_clip_per_scene_witness :
  length demo_clips = length (Pipeline.scenes demo_script).
Proof.
  exact (proj1 (one_clip_per_scene quiet_env 1 demo_pipeline "doors" "dramatic" 60
                  empty_world (snd demo_inputs) demo_script demo_audio demo_clips
                  eq_refl)).
Defined.

(** ** Asset generation without a service *)

Section AssetsOffline.
Import Assets.

Lemma generate_offline env fuel g prompt wd ht out w :
  offline g ->
  generate env fuel g prompt wd ht out w =
    (Ret out, mkWorld (<[out := BFile "placeholder" prompt]> (files w)) (calls w)).
Proof.
  intros [Hr Ho]. unfold generate.
  destruct (String.eqb_spec (provider g) "replicate") as [E|E].
  - rewrite (Hr E). simpl.
    destruct (String.eqb_spec (provider g) "openai") as [E'|E']; [congruence|].
    reflexivity.
  - simpl. destruct (String.eqb_spec (provider g) "openai") as [E'|E'].
    + rewrite (Ho E'). reflexivity.
    + reflexivity.
Qed.

Lemma opens_as_image_is_file w p : opens_as_image w p -> is_file w p.
Proof. intros (x & y & H & _). exists x, y. exact H. Qed.

(** Writing an image keeps the images that are on disk. *)
Lemma image_kept w p q producer payload c :
  existsb (String.eqb producer) Orchestrate.image_producers = true ->
  opens_as_image w p ->
  opens_as_image (mkWorld (<[q := BFile producer payload]> (files w)) c) p.
Proof.
  intros Hp (x & y & H & Hx). unfold opens_as_image. cbn [files].
  destruct (decide (q = p)) as [->|Hne];
    [rewrite lookup_insert_eq|rewrite lookup_insert_ne by exact Hne]; eauto.
Qed.

Lemma image_written w q producer payload c :
  existsb (String.eqb producer) Orchestrate.image_producers = true ->
  opens_as_image (mkWorld (<[q := BFile producer payload]> (files w)) c) q.
Proof.
  intros Hp. unfold opens_as_image. cbn [files]. rewrite lookup_insert_eq. eauto.
Qed.

(** The step "remove background if needed" after a placeholder was
    written. *)
Lemma strip_step_offline env (strip : bool) a dir payload w :
  exists w2,
    (if strip
     then Sys.bind (remove_background_file env (asset_path dir a)) (fun _ => ret tt)
     else ret tt)
      (mkWorld (<[asset_path dir a := BFile "placeholder" payload]> (files w)) (calls w))
    = (Ret tt, w2) /\
    calls w2 = calls w /\
    opens_as_image w2 (asset_path dir a) /\
    (forall p, opens_as_image w p -> opens_as_image w2 p) /\
    (forall p, p <> asset_path dir a -> files w2 !! p = files w !! p).
Proof.
  destruct strip; [unfold remove_background_file; destruct (rembg_installed env)|].
  - eexists. split; [reflexivity|]. split; [reflexivity|].
    split; [now apply image_written|]. split.
    + intros p Hp. apply image_kept; [reflexivity|]. now apply image_kept.
    + intros p Hp. cbn [files]. now rewrite !lookup_insert_ne by congruence.
  - eexists. split; [reflexivity|]. split; [reflexivity|].
    split; [now apply image_written|]. split.
    + intros p Hp. now apply image_kept.
    + intros p Hp. cbn [files]. now rewrite lookup_insert_ne by congruence.
  - eexists. split; [reflexivity|]. split; [reflexivity|].
    split; [now apply image_written|]. split.
    + intros p Hp. now apply image_kept.
    + intros p Hp. cbn [files]. now rewrite lookup_insert_ne by congruence.
Qed.

Lemma generate_category_offline env fuel g dir suffix strip_bg assets : forall w,
  offline g ->
  exists w',
    generate_category env fuel g dir suffix strip_bg assets w = (Ret tt, w') /\
    calls w' = calls w /\
    (forall a, a ∈ assets -> opens_as_image w' (asset_path dir a)) /\
    (forall p, opens_as_image w p -> opens_as_image w' p) /\
    (forall p, (forall a, a ∈ assets -> p <> asset_path dir a) ->
       files w' !! p = files w !! p).
Proof.
  intros w Hoff. revert w. unfold generate_category.
  induction assets as [|a assets IH]; intros w.
  - exists w. cbn. repeat split; auto. intros a Ha. inversion Ha.
  - cbn [for_each]. unfold Sys.bind at 1. unfold Sys.bind at 1.
    rewrite (generate_offline _ _ _ _ _ _ _ _ Hoff).
    fold (asset_path dir a).
    destruct (strip_step_offline env (strip_bg && remove_background a) a dir
                (prompt a +:+ suffix) w) as (w2 & -> & Hc2 & Hf2 & Hk2 & Ho2).
    destruct (IH w2) as (w' & Hrun & Hc & Hf & Hk & Ho).
    exists w'. split; [exact Hrun|]. split; [congruence|]. split; [|split].
    + intros b Hb. apply elem_of_cons in Hb as [->|Hb]; [now apply Hk|now apply Hf].
    + intros p Hp. now apply Hk, Hk2.
    + intros p Hp. rewrite Ho, Ho2; [reflexivity| |].
      * apply Hp. apply list_elem_of_here.
      * intros b Hb. apply Hp. now apply list_elem_of_further.
Qed.

Lemma mkdir_free p w :
  free_for_dir w p ->
  mkdir p w = (Ret tt, mkWorld (<[p := BDir]> (files w)) (calls w)).
Proof. unfold mkdir. intros [-> | ->]; reflexivity. Qed.

Lemma free_after_mkdir w p q c :
  free_for_dir w p -> free_for_dir (mkWorld (<[q := BDir]> (files w)) c) p.
Proof.
  unfold free_for_dir. cbn [files]. intros H.
  destruct (decide (q = p)) as [->|Hne];
    [rewrite lookup_insert_eq; now right|now rewrite lookup_insert_ne by exact Hne].
Qed.

Lemma entry_path dir category a :
  joinpath dir (category +:+ "/" +:+ name a +:+ ".png")
  = asset_path (joinpath dir category) a.
Proof. unfold asset_path, joinpath. now rewrite !string_app_assoc. Qed.

Lemma elem_of_manifest_entries entry category assets :
  entry ∈ manifest_entries category assets ->
  exists a, a ∈ assets /\ entry = category +:+ "/" +:+ name a +:+ ".png".
Proof.
  unfold manifest_entries. intros H. apply list_elem_of_fmap in H as (a & -> & Ha). eauto.
Qed.

(** The run of [generate_theme_assets] without a service: every file the
    manifest lists holds an image. *)
Lemma theme_assets_offline_ret env fuel theme_name style_name output_dir provider
    w theme :
  THEMES !! theme_name = Some theme ->
  offline (new_generator env provider) ->
  (forall d, d ∈ ["backgrounds"; "characters"; "props"] ->
     free_for_dir w (joinpath output_dir d)) ->
  exists w',
    generate_theme_assets env fuel theme_name style_name output_dir provider w
      = (Ret tt, w') /\
    calls w' = calls w /\
    files w' !! joinpath output_dir "manifest.json"
      = Some (BManifest theme_name style_name
                (manifest_entries "backgrounds" (backgrounds theme))
                (manifest_entries "characters" (characters theme))
                (manifest_entries "props" (props theme))) /\
    (forall entry,
       entry ∈ manifest_entries "backgrounds" (backgrounds theme)
               ++ manifest_entries "characters" (characters theme)
               ++ manifest_entries "props" (props theme) ->
       opens_as_image w' (joinpath output_dir entry)).
Proof.
  intros Htheme Hoff Hfree. unfold generate_theme_assets. rewrite Htheme.
  assert (Hb := Hfree "backgrounds" ltac:(set_solver)).
  assert (Hc := Hfree "characters" ltac:(set_solver)).
  assert (Hp := Hfree "props" ltac:(set_solver)).
  unfold Sys.bind at 1. rewrite (mkdir_free _ _ Hb).
  unfold Sys.bind at 1. rewrite (mkdir_free _ _ (free_after_mkdir _ _ _ _ Hc)).
  unfold Sys.bind at 1.
  rewrite (mkdir_free _ _ (free_after_mkdir _ _ _ _ (free_after_mkdir _ _ _ _ Hp))).
  cbn [files calls].
  match goal with |- context [Sys.bind _ _ ?w0] => set (wd := w0) end.
  destruct (generate_category_offline env fuel (new_generator env provider)
              (joinpath output_dir "backgrounds") (default "" (STYLES !! style_name))
              false (backgrounds theme) wd Hoff) as (w1 & H1 & C1 & F1 & K1 & _).
  destruct (generate_category_offline env fuel (new_generator env provider)
              (joinpath output_dir "characters") (default "" (STYLES !! style_name))
              true (characters theme) w1 Hoff) as (w2 & H2 & C2 & F2 & K2 & _).
  destruct (generate_category_offline env fuel (new_generator env provider)
              (joinpath output_dir "props") (default "" (STYLES !! style_name))
              true (props theme) w2 Hoff) as (w3 & H3 & C3 & F3 & K3 & _).
  unfold Sys.bind at 1. rewrite H1. unfold Sys.bind at 1. rewrite H2.
  unfold Sys.bind at 1. rewrite H3. cbn [write_file].
  eexists. split; [reflexivity|]. cbn [files calls]. split; [|split].
  - rewrite C3, C2, C1. reflexivity.
  - apply lookup_insert_eq.
  - intros entry Hentry.
    assert (Hfile : opens_as_image w3 (joinpath output_dir entry)).
    { rewrite !elem_of_app in Hentry. destruct Hentry as [He|[He|He]];
        apply elem_of_manifest_entries in He as (a & Ha & ->); rewrite entry_path.
      - apply K3, K2, F1, Ha.
      - apply K3, F2, Ha.
      - apply F3, Ha. }
    destruct Hfile as (x & y & Hf & Hx). exists x, y. cbn [files]. split; [|exact Hx].
    rewrite lookup_insert_ne; [exact Hf|].
    intros Heq. apply joinpath_inj in Heq.
    rewrite !elem_of_app in Hentry. destruct Hentry as [He|[He|He]];
      apply elem_of_manifest_entries in He as (a & Ha & ->);
      cbv [String.append] in Heq; discriminate.
Qed.

(** X15: for a known theme, a generator without credentials for its provider
    and category directories that can be created, [generate_theme_assets]
    returns without any outside call, writes the manifest with the file
    lists of the three categories, and every file the manifest lists is on
    disk under the output directory. *)
Theorem theme_assets_offline (env : Env) (fuel : nat)
    (theme_name style_name output_dir provider : string) (w : World) (theme : Theme) :
  THEMES !! theme_name = Some theme ->
  offline (new_generator env provider) ->
  (forall d, d ∈ ["backgrounds"; "characters"; "props"] ->
     free_for_dir w (joinpath output_dir d)) ->
  exists w',
    generate_theme_assets env fuel theme_name style_name output_dir provider w
      = (Ret tt, w') /\
    calls w' = calls w /\
    files w' !! joinpath output_dir "manifest.json"
      = Some (BManifest theme_name style_name
                (manifest_entries "backgrounds" (backgrounds theme))
                (manifest_entries "characters" (characters theme))
                (manifest_entries "props" (props theme))) /\
    (forall entry,
       entry ∈ manifest_entries "backgrounds" (backgrounds theme)
               ++ manifest_entries "characters" (characters theme)
               ++ manifest_entries "props" (props theme) ->
       is_file w' (joinpath output_dir entry)).
Proof.
  intros Htheme Hoff Hfree.
  destruct (theme_assets_offline_ret env fuel theme_name style_name output_dir provider
              w theme Htheme Hoff Hfree) as (w' & H1 & H2 & H3 & H4).
  exists w'. repeat (split; [assumption|]).
  intros entry He. apply opens_as_image_is_file. now apply H4.
Qed.
End AssetsOffline.

Lemma theme_assets_offline_witness :
  exists w',
    Assets.generate_theme_assets quiet_env 1 "uno-no-mercy" "cartoon"
      "./output/assets" "placeholder" empty_world = (Ret tt, w') /\
    calls w' = [] /\
    is_Some (files w' !! "./output/assets/manifest.json").
Proof.
  destruct (theme_assets_offline quiet_env 1 "uno-no-mercy" "cartoon"
              "./output/assets" "placeholder" empty_world Assets.theme_uno_no_mercy
              eq_refl
              (conj (fun _ => eq_refl) (fun _ => eq_refl))
              (fun d _ => or_introl eq_refl))
    as (w' & H1 & H2 & H3 & _).
  exists w'. split; [exact H1|]. split; [exact H2|]. eexists. exact H3.
Defined.

(** ** The manifest is written last *)

Section UntouchedPaths.
Lemma untouched_ret {A} p (a : A) : untouched p (ret a).
Proof. intros w. reflexivity. Qed.
Lemma untouched_raise {A} p e : untouched p (@raise A e).
Proof. intros w. reflexivity. Qed.
Lemma untouched_pending {A} p : untouched p (@pending A).
Proof. intros w. reflexivity. Qed.
Lemma untouched_lift {A} p (o : outcome A) : untouched p (lift o).
Proof. intros w. reflexivity. Qed.
Lemma untouched_call p c : untouched p (call c).
Proof. intros w. reflexivity. Qed.
Lemma untouched_path_exists p q : untouched p (path_exists q).
Proof. intros w. reflexivity. Qed.
Lemma untouched_write_file p q b : p <> q -> untouched p (write_file q b).
Proof. intros H w. cbn. now rewrite lookup_insert_ne by congruence. Qed.
Lemma untouched_mkdir p q : p <> q -> untouched p (mkdir q).
Proof.
  intros H w. unfold mkdir.
  destruct (files w !! q) as [[]|]; cbn [snd files]; rewrite ?lookup_insert_ne by congruence; reflexivity.
Qed.
Lemma untouched_bind {A B} p (m : M A) (k : A -> M B) :
  untouched p m -> (forall a, untouched p (k a)) -> untouched p (Sys.bind m k).
Proof.
  intros Hm Hk w. unfold Sys.bind. specialize (Hm w).
  destruct (m w) as [[a|e|] w1]; cbn [snd] in *; [|exact Hm..].
  rewrite Hk. exact Hm.
Qed.
Lemma untouched_for_each {A} p (xs : list A) f :
  (forall x, x ∈ xs -> untouched p (f x)) -> untouched p (for_each xs f).
Proof.
  induction xs as [|x xs IH]; intros Hf; cbn [for_each]; [apply untouched_ret|].
  apply untouched_bind; [apply Hf, list_elem_of_here|intros _].
  apply IH. intros y Hy. apply Hf. now apply list_elem_of_further.
Qed.
Lemma unless_returns_bind {A B} p (m : M A) (k : A -> M B) :
  untouched p m -> (forall a, untouched_unless_returns p (k a)) ->
  untouched_unless_returns p (Sys.bind m k).
Proof.
  intros Hm Hk w. unfold Sys.bind. specialize (Hm w).
  destruct (m w) as [[a|e|] w1] eqn:E; cbn [fst snd] in *; intros Hne; [|exact Hm..].
  rewrite Hk; [exact Hm|exact Hne].
Qed.
End UntouchedPaths.

Ltac untouched_step :=
  match goal with
  | |- untouched _ (Sys.bind _ _) => apply untouched_bind; [|intros ?]
  | |- untouched _ (ret _) => apply untouched_ret
  | |- untouched _ (raise _) => apply untouched_raise
  | |- untouched _ pending => apply untouched_pending
  | |- untouched _ (lift _) => apply untouched_lift
  | |- untouched _ (call _) => apply untouched_call
  | |- untouched _ (path_exists _) => apply untouched_path_exists
  | |- untouched _ (write_file _ _) => apply untouched_write_file; try assumption
  | |- untouched _ (mkdir _) => apply untouched_mkdir; try assumption
  | |- untouched _ (match ?x with _ => _ end) => destruct x
  end.

Section AssetsManifest.
Import Assets.

Lemma untouched_poll_image p env fuel url : forall k, untouched p (poll_image env fuel url k).
Proof.
  induction fuel as [|fuel IH]; intros k; cbn [poll_image]; [apply untouched_pending|].
  repeat untouched_step. apply IH.
Qed.

Lemma untouched_generate p env fuel g prompt wd ht out :
  p <> out -> untouched p (generate env fuel g prompt wd ht out).
Proof.
  intros H. unfold generate, _generate_replicate, _generate_openai, _generate_placeholder.
  repeat untouched_step; try apply untouched_poll_image.
Qed.

Lemma untouched_generate_category p env fuel g dir suffix strip_bg assets :
  (forall a, a ∈ assets -> p <> asset_path dir a) ->
  untouched p (generate_category env fuel g dir suffix strip_bg assets).
Proof.
  intros H. unfold generate_category. apply untouched_for_each. intros a Ha.
  specialize (H a Ha). unfold asset_path in H.
  apply untouched_bind; [now apply untouched_generate|intros _].
  unfold remove_background_file. repeat untouched_step.
Qed.

Lemma manifest_is_no_asset dir category a :
  category ∈ ["backgrounds"; "characters"; "props"] ->
  joinpath dir "manifest.json" <> asset_path (joinpath dir category) a.
Proof.
  intros Hc Heq. rewrite <- entry_path in Heq. apply joinpath_inj in Heq.
  repeat (apply elem_of_cons in Hc as [->|Hc]; [cbv [String.append] in Heq; discriminate|]).
  inversion Hc.
Qed.

Lemma manifest_is_no_dir dir category :
  category ∈ ["backgrounds"; "characters"; "props"] ->
  joinpath dir "manifest.json" <> joinpath dir category.
Proof.
  intros Hc Heq. apply joinpath_inj in Heq.
  repeat (apply elem_of_cons in Hc as [->|Hc]; [discriminate|]).
  inversion Hc.
Qed.

(** X16: [generate_theme_assets] writes the manifest last: in every run
    that does not return, whether an asset raised or a polling loop is still
    waiting, the manifest path holds what it held before. *)
Theorem no_manifest_unless_all_assets (env : Env) (fuel : nat)
    (theme_name style_name output_dir provider : string) (w : World) :
  fst (generate_theme_assets env fuel theme_name style_name output_dir provider w)
    <> Ret tt ->
  files (snd (generate_theme_assets env fuel theme_name style_name output_dir
                                    provider w))
    !! joinpath output_dir "manifest.json"
  = files w !! joinpath output_dir "manifest.json".
Proof.
  intros Hne.
  assert (H : untouched_unless_returns (joinpath output_dir "manifest.json")
            (generate_theme_assets env fuel theme_name style_name output_dir provider)).
  { unfold generate_theme_assets. destruct (THEMES !! theme_name) as [theme|].
    - repeat (apply unless_returns_bind; [|intros ?]);
        try (apply untouched_mkdir, manifest_is_no_dir; set_solver);
        try (apply untouched_generate_category; intros ? _;
             apply manifest_is_no_asset; set_solver).
      unfold untouched_unless_returns. intros w0 Hw0. exfalso. exact (Hw0 tt eq_refl).
    - unfold untouched_unless_returns. intros w0 Hw0. exfalso. exact (Hw0 tt eq_refl). }
  apply H. intros []. exact Hne.
Qed.
End AssetsManifest.

Lemma no_manifest_unless_all_assets_witness :
  files (snd (Assets.generate_theme_assets failing_env 5 "uno-no-mercy" "cartoon"
                "./output/assets" "replicate" empty_world))
    !! "./output/assets/manifest.json" = None.
Proof.
  apply (no_manifest_unless_all_assets failing_env 5 "uno-no-mercy" "cartoon"
           "./output/assets" "replicate" empty_world).
  vm_compute. discriminate.
Defined.

(** ** The renderer on any set of backgrounds *)

Section RendererFrames.
Import Orchestrate.

Lemma load_manifest_world self w o w' : load_manifest self w = (o, w') -> w' = w.
Proof.
  unfold load_manifest.
  destruct (files w !! joinpath (assets_dir self) "manifest.json") as [[]|];
    intros H; now injection H.
Qed.

Lemma image_open_world p w o w' : image_open p w = (o, w') -> w' = w.
Proof.
  unfold image_open. destruct (files w !! p) as [[| producer payload |]|];
    try (intros H; now injection H).
  destruct (existsb _ _); intros H; now injection H.
Qed.

(** Loading images changes nothing, whatever its outcome. *)
Lemma load_images_world self mk names : forall w o w',
  load_images self mk names w = (o, w') -> w' = w.
Proof.
  induction names as [|f names IH]; intros w o w' H.
  - cbn in H. now injection H.
  - cbn [load_images] in H. unfold Sys.bind at 1 in H. cbn [path_exists] in H.
    unfold Sys.bind at 1 in H.
    destruct (bool_decide _).
    + destruct (image_open _ w) as [[[]|e|] w1] eqn:Hopen;
        apply image_open_world in Hopen as ->; try (now injection H).
      unfold Sys.bind at 1 in H.
      destruct (load_images self mk names w) as [[l|e|] w2] eqn:Hrest;
        apply IH in Hrest as ->; now injection H.
    + cbn [ret] in H. unfold Sys.bind at 1 in H.
      destruct (load_images self mk names w) as [[l|e|] w2] eqn:Hrest;
        apply IH in Hrest as ->; now injection H.
Qed.

(** The general run of the renderer: with a readable manifest, files that
    open and no more characters than frames it returns. *)
Lemma render_python_ok self w bg_files char_files :
  load_manifest self w = (Ret (bg_files, char_files), w) ->
  (forall file, file ∈ present_files self w bg_files ++ present_files self w char_files ->
     opens_as_image w (joinpath (assets_dir self) file)) ->
  Z.of_nat (length (present_files self w char_files)) <= total_frames ->
  let bgs := or_default_gradient
               (map (fun file => Background (joinpath (assets_dir self) file) width height)
                    (present_files self w bg_files)) in
  let chars := map (fun file => Character (joinpath (assets_dir self) file))
                   (present_files self w char_files) in
  exists frames w',
    _render_frames_python self w = (Ret frames, w') /\
    calls w' = calls w /\
    Forall2 (frame_ok bgs chars) (range total_frames) frames /\
    (forall i f fr, range total_frames !! i = Some f -> frames !! i = Some fr ->
       files w' !! frame_path self f = Some (BFile "frame" (frame_text fr))) /\
    (forall p, (forall f, f ∈ range total_frames -> p <> frame_path self f) ->
       files w' !! p = files w !! p).
Proof.
  intros Hman Hopen Hlen bgs chars.
  assert (Hbg := load_images_ret self (fun p => Background p width height) bg_files w
                   ltac:(intros file H; apply Hopen, elem_of_app; now left)).
  assert (Hch := load_images_ret self Character char_files w
                   ltac:(intros file H; apply Hopen, elem_of_app; now right)).
  destruct (render_and_save_ok self bgs chars (range total_frames) w)
    as (frames & w' & Hsave & Hrest).
  { apply or_default_gradient_nonempty. } { apply range_nonneg. }
  { unfold chars. now rewrite length_map. }
  exists frames, w'. split; [|exact Hrest].
  unfold _render_frames_python. unfold Sys.bind at 1. rewrite Hman. cbn [fst snd].
  unfold Sys.bind at 1. rewrite Hbg. unfold Sys.bind at 1. rewrite Hch.
  exact Hsave.
Qed.

(** X17: whenever the manifest is missing or can be read, every background
    and character file that exists can be opened as an image, and at most as
    many character files exist as there are frames, the Python renderer
    returns all 2250 frames; the background of every frame is a background
    file of the manifest that exists on disk, or the default gradient when
    no such file exists. *)
Theorem render_never_fails_on_backgrounds (self : HybridPipeline) (w : World)
    (bg_files char_files : list string) :
  load_manifest self w = (Ret (bg_files, char_files), w) ->
  (forall file, file ∈ present_files self w bg_files ++ present_files self w char_files ->
     opens_as_image w (joinpath (assets_dir self) file)) ->
  Z.of_nat (length (present_files self w char_files)) <= total_frames ->
  exists frames w',
    _render_frames_python self w = (Ret frames, w') /\
    length frames = Z.to_nat total_frames /\
    forall fr, fr ∈ frames ->
      (present_files self w bg_files = [] /\ frame_background fr = default_gradient) \/
      exists file, file ∈ present_files self w bg_files /\
        frame_background fr = Background (joinpath (assets_dir self) file) width height.
Proof.
  intros Hman Hopen Hlen.
  destruct (render_python_ok self w bg_files char_files Hman Hopen Hlen)
    as (frames & w' & Hrun & _ & Hall & _).
  exists frames, w'. split; [exact Hrun|]. split.
  - rewrite <- (Forall2_length _ _ _ Hall). apply range_length.
  - intros fr Hfr. apply list_elem_of_lookup in Hfr as [i Hi].
    destruct (Forall2_lookup_r _ _ _ _ _ Hall Hi) as (f & _ & _ & (s & _ & Hlook & _) & _).
    apply list_elem_of_lookup_2 in Hlook.
    destruct (present_files self w bg_files) as [|b bs] eqn:E.
    + left. split; [reflexivity|]. cbn in Hlook.
      now apply list_elem_of_singleton in Hlook.
    + right. cbn [or_default_gradient map] in Hlook.
      change (Background (joinpath (assets_dir self) b) width height
                :: map (fun file => Background (joinpath (assets_dir self) file) width height) bs)
        with (map (fun file => Background (joinpath (assets_dir self) file) width height)
                  (b :: bs)) in Hlook.
      apply list_elem_of_fmap in Hlook as (file & -> & Hfile). eauto.
Qed.

(** X18: whatever backgrounds are loaded, when more character files exist
    than there are frames the width [total_frames // len(characters)] is
    zero: the renderer raises [ZeroDivisionError] on the first frame and
    leaves the world as it was. *)
Theorem render_raises_with_too_many_characters (self : HybridPipeline) (w : World)
    (bg_files char_files : list string) :
  load_manifest self w = (Ret (bg_files, char_files), w) ->
  (forall file, file ∈ present_files self w bg_files ++ present_files self w char_files ->
     opens_as_image w (joinpath (assets_dir self) file)) ->
  total_frames < Z.of_nat (length (present_files self w char_files)) ->
  _render_frames_python self w = (Raise ZeroDivisionError, w).
Proof.
  intros Hman Hopen Hmany.
  assert (Hbg := load_images_ret self (fun p => Background p width height) bg_files w
                   ltac:(intros file H; apply Hopen, elem_of_app; now left)).
  assert (Hch := load_images_ret self Character char_files w
                   ltac:(intros file H; apply Hopen, elem_of_app; now right)).
  unfold _render_frames_python. unfold Sys.bind at 1. rewrite Hman. cbn [fst snd].
  unfold Sys.bind at 1. rewrite Hbg. unfold Sys.bind at 1. rewrite Hch.
  destruct (range_head total_frames) as [rest ->];
    [unfold total_frames, fps, duration; lia|].
  cbn [render_and_save]. unfold Sys.bind at 1. unfold lift.
  rewrite render_frame_too_many; [reflexivity|apply or_default_gradient_nonempty|].
  now rewrite length_map.
Qed.

(** X19: with at least one character and no more characters than frames, the
    index of the character shown never decreases from one frame to a later
    one, and every character is shown on some frame. *)
Theorem characters_appear_in_order (T : Z) (k : nat) :
  (0 < k)%nat -> Z.of_nat k <= T ->
  (forall f g i j, 0 <= f <= g ->
     character_index f T k = Ret (Some i) ->
     character_index g T k = Ret (Some j) -> i <= j) /\
  (forall i, 0 <= i < Z.of_nat k ->
     exists f, 0 <= f < T /\ character_index f T k = Ret (Some i)).
Proof.
  intros Hk HT.
  assert (Hw : 0 < T / Z.of_nat k) by (apply Z.div_str_pos; lia).
  split.
  - intros f g i j [Hf Hfg] Hi Hj.
    rewrite character_index_value in Hi, Hj by lia.
    injection Hi as <-. injection Hj as <-.
    pose proof (Z.div_le_mono f g (T / Z.of_nat k) Hw Hfg). lia.
  - intros i Hi. exists (i * (T / Z.of_nat k)). split.
    + pose proof (Z.mul_div_le T (Z.of_nat k) ltac:(lia)). nia.
    + rewrite character_index_value by nia. rewrite Z.div_mul by lia.
      do 2 f_equal. lia.
Qed.

(** A frame that renders carries its number. *)
Lemma render_frame_num sc bgs chars f fr :
  render_frame sc bgs chars f = Ret fr -> frame_num fr = f.
Proof.
  unfold render_frame.
  destruct (frame_time f fps) as [t| |]; try discriminate. cbn [obind].
  destruct (find_current_scene sc t) as [s| |]; try discriminate. cbn [obind].
  destruct (pymod _ _) as [i| |]; try discriminate. cbn [obind].
  destruct (getitem bgs i) as [bg| |]; try discriminate. cbn [obind].
  destruct (character_index _ _ _) as [[j|]| |]; try discriminate; cbn [obind].
  - destruct (getitem chars j) as [c| |]; try discriminate. cbn [obind].
    now intros [= <-].
  - now intros [= <-].
Qed.

(** What a render that returns has done. *)
Lemma render_python_inv self w frames w' :
  _render_frames_python self w = (Ret frames, w') ->
  length frames = Z.to_nat total_frames /\
  calls w' = calls w /\
  (forall i fr, frames !! i = Some fr ->
     frame_num fr = Z.of_nat i /\
     files w' !! frame_path self (Z.of_nat i) = Some (BFile "frame" (frame_text fr))) /\
  (forall p, (forall f, 0 <= f < total_frames -> p <> frame_path self f) ->
     files w' !! p = files w !! p).
Proof.
  unfold _render_frames_python. intros Hrun.
  unfold Sys.bind at 1 in Hrun.
  destruct (load_manifest self w) as [[m|e|] w1] eqn:Hman; try discriminate.
  apply load_manifest_world in Hman as ->.
  unfold Sys.bind at 1 in Hrun.
  destruct (load_images self _ (fst m) w) as [[bgs|e|] w1] eqn:Hbg; try discriminate.
  apply load_images_world in Hbg as ->.
  unfold Sys.bind at 1 in Hrun.
  destruct (load_images self Character (snd m) w) as [[chars|e|] w1] eqn:Hch;
    try discriminate.
  apply load_images_world in Hch as ->.
  apply render_and_save_ret in Hrun as (Hc & Hall & Hsaved & Hother);
    [|apply range_nonneg].
  split; [|split; [exact Hc|split]].
  - rewrite <- (Forall2_length _ _ _ Hall). apply range_length.
  - intros i fr Hi.
    destruct (Forall2_lookup_r _ _ _ _ _ Hall Hi) as (f & Hf & Hfr).
    assert (Hlen : (i < Z.to_nat total_frames)%nat).
    { apply lookup_lt_Some in Hf. now rewrite range_length in Hf. }
    rewrite range_lookup in Hf by exact Hlen. injection Hf as <-.
    split; [now apply render_frame_num in Hfr|].
    apply Hsaved; [|exact Hfr]. apply elem_of_range. lia.
  - intros p Hp. apply Hother. intros f Hf. apply Hp. now apply elem_of_range.
Qed.

(** X21: whenever the Python renderer returns, it has rendered exactly 2250
    frames and made no outside call; the [i]-th frame carries the number
    [i] and the file of frame [i] holds it; and no path that is not a frame
    path has changed. *)
Theorem frames_are_saved (self : HybridPipeline) (w w' : World) (frames : list Frame) :
  _render_frames_python self w = (Ret frames, w') ->
  length frames = Z.to_nat total_frames /\
  calls w' = calls w /\
  (forall i fr, frames !! i = Some fr ->
     frame_num fr = Z.of_nat i /\
     files w' !! frame_path self (Z.of_nat i) = Some (BFile "frame" (frame_text fr))) /\
  (forall p, (forall f, 0 <= f < total_frames -> p <> frame_path self f) ->
     files w' !! p = files w !! p).
Proof. apply render_python_inv. Qed.
End RendererFrames.

Lemma render_never_fails_on_backgrounds_witness :
  exists frames w',
    Orchestrate._render_frames_python demo_hybrid stage_world = (Ret frames, w') /\
    length frames = Z.to_nat Orchestrate.total_frames.
Proof.
  destruct (render_never_fails_on_backgrounds demo_hybrid stage_world
              ["backgrounds/bg_intro.png"] ["characters/character_shocked.png"])
    as (frames & w' & H1 & H2 & _).
  - reflexivity.
  - intros file H. vm_compute in H. apply list_elem_of_singleton in H as ->.
    exists "placeholder", "intro". split; reflexivity.
  - vm_compute. discriminate.
  - exists frames, w'. split; [exact H1|exact H2].
Defined.

Lemma characters_appear_in_order_witness :
  exists f, 0 <= f < 2250 /\ Orchestrate.character_index f 2250 3 = Ret (Some 2).
Proof.
  apply (proj2 (characters_appear_in_order 2250 3 ltac:(lia) ltac:(lia)) 2). lia.
Defined.

Lemma frames_are_saved_witness :
  exists frames w',
    Orchestrate._render_frames_python demo_hybrid empty_world = (Ret frames, w') /\
    length frames = Z.to_nat Orchestrate.total_frames /\
    calls w' = [].
Proof.
  destruct (render_python_ok demo_hybrid empty_world [] [] eq_refl
              (fun file H => False_ind _ (not_elem_of_nil file H))
              ltac:(vm_compute; discriminate))
    as (frames & w' & Hrun & _).
  destruct (frames_are_saved demo_hybrid empty_world w' frames Hrun) as (H1 & H2 & _).
  exists frames, w'. split; [exact Hrun|]. split; [exact H1|exact H2].
Defined.

Lemma render_raises_with_too_many_characters_witness :
  Orchestrate._render_frames_python demo_hybrid crowded_stage_world
    = (Raise ZeroDivisionError, crowded_stage_world).
Proof.
  apply (render_raises_with_too_many_characters demo_hybrid crowded_stage_world
           ["backgrounds/bg_intro.png"] crowd).
  - reflexivity.
  - intros file H. apply elem_of_app in H as [H|H];
      apply elem_of_present_files in H as [H _].
    + apply list_elem_of_singleton in H as ->.
      exists "placeholder", "intro". split; reflexivity.
    + apply elem_of_replicate in H as [-> _].
      exists "placeholder", "a player". split; reflexivity.
  - vm_compute. reflexivity.
Defined.

(** ** The stages of the hybrid run *)

Section KeptPaths.
Lemma keeps_ret {A} (a : A) : keeps (ret a).
Proof. intros w p H. exact H. Qed.
Lemma keeps_raise {A} e : keeps (@raise A e).
Proof. intros w p H. exact H. Qed.
Lemma keeps_pending {A} : keeps (@pending A).
Proof. intros w p H. exact H. Qed.
Lemma keeps_lift {A} (o : outcome A) : keeps (lift o).
Proof. intros w p H. exact H. Qed.
Lemma keeps_call c : keeps (call c).
Proof. intros w p H. exact H. Qed.
Lemma keeps_path_exists q : keeps (path_exists q).
Proof. intros w p H. exact H. Qed.
Lemma keeps_write_file q b : keeps (write_file q b).
Proof.
  intros w p H. cbn. destruct (decide (q = p)) as [->|Hne];
    [rewrite lookup_insert_eq; eauto|now rewrite lookup_insert_ne by exact Hne].
Qed.
Lemma keeps_mkdir q : keeps (mkdir q).
Proof.
  intros w p H. unfold mkdir.
  destruct (files w !! q) as [[]|]; cbn [snd files]; try exact H;
    (destruct (decide (q = p)) as [->|Hne];
     [rewrite lookup_insert_eq; eauto|now rewrite lookup_insert_ne by exact Hne]).
Qed.
Lemma keeps_bind {A B} (m : M A) (k : A -> M B) :
  keeps m -> (forall a, keeps (k a)) -> keeps (Sys.bind m k).
Proof.
  intros Hm Hk w p H. unfold Sys.bind. specialize (Hm w p H).
  destruct (m w) as [[a|e|] w1]; cbn [snd] in *; [|exact Hm..].
  now apply Hk.
Qed.
Lemma keeps_for_each {A} (xs : list A) f :
  (forall x, keeps (f x)) -> keeps (for_each xs f).
Proof.
  intros Hf. induction xs as [|x xs IH]; cbn [for_each]; [apply keeps_ret|].
  apply keeps_bind; [apply Hf|intros _; exact IH].
Qed.
End KeptPaths.

Ltac keeps_step :=
  match goal with
  | |- keeps (Sys.bind _ _) => apply keeps_bind; [|intros ?]
  | |- keeps (ret _) => apply keeps_ret
  | |- keeps (raise _) => apply keeps_raise
  | |- keeps pending => apply keeps_pending
  | |- keeps (lift _) => apply keeps_lift
  | |- keeps (call _) => apply keeps_call
  | |- keeps (path_exists _) => apply keeps_path_exists
  | |- keeps (write_file _ _) => apply keeps_write_file
  | |- keeps (mkdir _) => apply keeps_mkdir
  | |- keeps (for_each _ _) => apply keeps_for_each; intros ?
  | |- keeps (match ?x with _ => _ end) => destruct x
  end.

Section HybridRun.
Import Orchestrate.

Lemma keeps_poll_image env fuel url : forall k, keeps (Assets.poll_image env fuel url k).
Proof.
  induction fuel as [|fuel IH]; intros k; cbn [Assets.poll_image]; [apply keeps_pending|].
  repeat keeps_step. apply IH.
Qed.

Lemma keeps_generate_theme_assets env fuel theme_name style_name dir provider :
  keeps (Assets.generate_theme_assets env fuel theme_name style_name dir provider).
Proof.
  unfold Assets.generate_theme_assets, Assets.generate_category, Assets.generate,
    Assets._generate_replicate, Assets._generate_openai, Assets._generate_placeholder,
    Assets.remove_background_file.
  repeat keeps_step; try apply keeps_poll_image.
Qed.

Lemma keeps_load_manifest self : keeps (load_manifest self).
Proof.
  intros w p H. unfold load_manifest.
  destruct (files w !! joinpath (assets_dir self) "manifest.json") as [[]|]; exact H.
Qed.

Lemma keeps_image_open p : keeps (image_open p).
Proof.
  intros w q H. unfold image_open.
  destruct (files w !! p) as [[| producer payload |]|]; try exact H.
  destruct (existsb _ _); exact H.
Qed.

Lemma keeps_load_images self mk names : keeps (load_images self mk names).
Proof.
  induction names as [|f names IH]; cbn [load_images];
    repeat first [apply keeps_image_open | exact IH | keeps_step].
Qed.

Lemma keeps_render_and_save self sc bgs chars fs :
  keeps (render_and_save self sc bgs chars fs).
Proof.
  induction fs as [|f fs IH]; cbn [render_and_save]; repeat keeps_step. exact IH.
Qed.

Lemma keeps_render_python self : keeps (_render_frames_python self).
Proof.
  unfold _render_frames_python.
  apply keeps_bind; [apply keeps_load_manifest|intros m].
  apply keeps_bind; [apply keeps_load_images|intros bgs]. cbv zeta.
  apply keeps_bind; [apply keeps_load_images|intros chars].
  apply keeps_render_and_save.
Qed.

Lemma keeps_render_frames cargo rust self : keeps (_render_frames cargo rust self).
Proof.
  unfold _render_frames.
  repeat first [apply keeps_render_python | keeps_step].
Qed.

Lemma keeps_run_ffmpeg env out : keeps (Pipeline.run_ffmpeg env out).
Proof. unfold Pipeline.run_ffmpeg. repeat keeps_step. Qed.

Lemma keeps_run env cargo rust fuel self : keeps (run env cargo rust fuel self).
Proof.
  unfold run, _generate_assets, _generate_voiceover, _compile_video.
  repeat first [apply keeps_generate_theme_assets | apply keeps_render_frames
               | apply keeps_run_ffmpeg | keeps_step].
Qed.

(** X23: [HybridPipeline.run] removes nothing, whatever its outcome: every
    path that is on disk before the run is on disk after it. *)
Theorem hybrid_run_never_deletes (env : Env) (cargo : Cargo) (rust_project : string)
    (fuel : nat) (self : HybridPipeline) (w : World) (p : string) :
  is_Some (files w !! p) ->
  is_Some (files (snd (run env cargo rust_project fuel self w)) !! p).
Proof. apply keeps_run. Qed.

(** *** [_render_frames] *)

Lemma for_each_write {A} (xs : list A) (path : A -> string) (blob : A -> Blob) : forall w,
  exists w',
    for_each xs (fun x => write_file (path x) (blob x)) w = (Ret tt, w') /\
    calls w' = calls w /\
    (forall x, x ∈ xs -> is_Some (files w' !! path x)) /\
    (forall p, (forall x, x ∈ xs -> p <> path x) -> files w' !! p = files w !! p).
Proof.
  induction xs as [|x xs IH]; intros w.
  - exists w. split; [reflexivity|]. split; [reflexivity|]. split; [|reflexivity].
    intros x Hx. inversion Hx.
  - cbn [for_each]. unfold Sys.bind. cbn [write_file].
    match goal with |- context [for_each _ _ ?x] => set (w1 := x) end.
    destruct (IH w1) as (w' & Hrun & Hc & Hin & Hother). exists w'.
    split; [exact Hrun|]. split; [exact Hc|]. split.
    + intros y Hy. apply elem_of_cons in Hy as [->|Hy]; [|now apply Hin].
      pose proof (keeps_for_each xs (fun x => write_file (path x) (blob x))
                    (fun x => keeps_write_file _ _) w1 (path x)) as Hk.
      rewrite Hrun in Hk. apply Hk. unfold w1. cbn [files].
      rewrite lookup_insert_eq. eauto.
    + intros p Hp. rewrite Hother.
      * unfold w1. cbn [files]. rewrite lookup_insert_ne; [reflexivity|].
        intros Heq. apply (Hp x); [apply list_elem_of_here|now symmetry].
      * intros y Hy. apply Hp. now apply list_elem_of_further.
Qed.

Lemma render_python_then_tt self w w' :
  Sys.bind (_render_frames_python self) (fun _ => ret tt) w = (Ret tt, w') ->
  exists frames, _render_frames_python self w = (Ret frames, w').
Proof.
  unfold Sys.bind. destruct (_render_frames_python self w) as [[frames|e|] w1];
    try discriminate.
  cbn [ret]. intros H. injection H as <-. eauto.
Qed.

(** X22: when [_render_frames] returns, either the Rust project exists and
    both cargo runs returned 0, in which case only the engine's frame files
    were written, or the Python fallback ran and the files of all 2250
    frames are on disk. *)
Theorem render_frames_postcondition (cargo : Cargo) (rust_project : string)
    (self : HybridPipeline) (w w' : World) :
  _render_frames cargo rust_project self w = (Ret tt, w') ->
  (is_Some (files w !! rust_project) /\
   build_returncode cargo = 0 /\ run_returncode cargo = 0 /\
   (forall name, name ∈ engine_frames cargo ->
      is_Some (files w' !! joinpath (frames_dir self) name)) /\
   (forall p, (forall name, name ∈ engine_frames cargo ->
                 p <> joinpath (frames_dir self) name) ->
      files w' !! p = files w !! p))
  \/
  (forall f, 0 <= f < total_frames ->
     exists text, files w' !! frame_path self f = Some (BFile "frame" text)).
Proof.
  assert (Hpy : forall w0, Sys.bind (_render_frames_python self) (fun _ => ret tt) w0
                           = (Ret tt, w') ->
    forall f, 0 <= f < total_frames ->
      exists text, files w' !! frame_path self f = Some (BFile "frame" text)).
  { intros w0 H f Hf. apply render_python_then_tt in H as [frames H].
    pose proof (render_python_inv _ _ _ _ H) as (Hlen & _ & Hsaved & _).
    destruct (lookup_lt_is_Some_2 frames (Z.to_nat f) ltac:(lia)) as [fr Hfr].
    destruct (Hsaved _ _ Hfr) as [_ Hfile]. rewrite Z2Nat.id in Hfile by lia. eauto. }
  unfold _render_frames. unfold Sys.bind at 1. cbn [path_exists].
  destruct (bool_decide (is_Some (files w !! rust_project))) eqn:Hfound; cbn [negb].
  2: { intros H. right. exact (Hpy w H). }
  apply bool_decide_eq_true in Hfound.
  destruct (Z.eqb_spec (build_returncode cargo) 0) as [Hb|Hb]; cbn [negb].
  2: { intros H. right. exact (Hpy w H). }
  unfold Sys.bind at 1.
  destruct (for_each_write (engine_frames cargo)
              (fun name => joinpath (frames_dir self) name)
              (fun name => BFile "rust-engine" name) w) as (w1 & -> & _ & Hin & Hother).
  destruct (Z.eqb_spec (run_returncode cargo) 0) as [Hr|Hr]; cbn [negb].
  2: { intros H. right. exact (Hpy w1 H). }
  cbn [ret]. intros H. injection H as <-. left. repeat split; assumption.
Qed.

(** *** The whole run *)


Lemma file_kept (m : gmap string Blob) p q producer payload :
  (exists x y, m !! p = Some (BFile x y)) ->
  exists x y, <[q := BFile producer payload]> m !! p = Some (BFile x y).
Proof.
  intros (x & y & H).
  destruct (decide (q = p)) as [->|Hne];
    [rewrite lookup_insert_eq|rewrite lookup_insert_ne by exact Hne]; eauto.
Qed.

Lemma file_written (m : gmap string Blob) q producer payload :
  exists x y, <[q := BFile producer payload]> m !! q = Some (BFile x y).
Proof. rewrite lookup_insert_eq. eauto. Qed.

Lemma voice_and_video_ret env self w :
  edge_tts_error env voiceover_script = None ->
  ffmpeg_run env (video_path env self) = ExitOk ->
  exists w',
    Sys.bind (_generate_voiceover env self)
      (fun audio_path => Sys.bind (_compile_video env self audio_path)
         (fun video_path => ret video_path)) w = (Ret (video_path env self), w') /\
    calls w' = calls w ++ [CallEdgeTTS voiceover_script "en-US-GuyNeural";
                           CallFfmpeg (video_path env self)] /\
    is_file w' (video_path env self) /\
    is_file w' (voiceover_path self) /\
    is_file w' (voiceover_script_path self) /\
    (forall p, is_file w p -> is_file w' p).
Proof.
  intros Htts Hff. unfold _generate_voiceover, _compile_video, Pipeline.run_ffmpeg.
  fold (video_path env self). rewrite Htts, Hff.
  eexists. split; [reflexivity|]. cbn [calls files].
  split; [now rewrite <- app_assoc|].
  unfold video_path, voiceover_path, voiceover_script_path, is_file. cbn [files].
  split; [apply file_written|].
  split; [apply file_kept, file_written|].
  split; [apply file_kept, file_kept, file_written|].
  intros p Hp. now apply file_kept, file_kept, file_kept.
Qed.

Lemma voice_and_video_inv env self w p w' :
  Sys.bind (_generate_voiceover env self)
    (fun audio_path => Sys.bind (_compile_video env self audio_path)
       (fun video_path => ret video_path)) w = (Ret p, w') ->
  edge_tts_error env voiceover_script = None /\
  ffmpeg_run env (video_path env self) = ExitOk /\
  p = video_path env self.
Proof.
  unfold _generate_voiceover, _compile_video, Pipeline.run_ffmpeg.
  fold (video_path env self).
  destruct (edge_tts_error env voiceover_script) as [e|]; [discriminate|].
  destruct (ffmpeg_run env (video_path env self)) as [|[]]; try discriminate.
  intros H. apply (f_equal fst) in H. cbn in H. injection H as <-. auto.
Qed.

(** X24: when [HybridPipeline.run] returns a path, it is
    [hybrid_video_<timestamp>.mp4] in the output directory; that file, the
    voice track and the narration script are on disk; and the last two
    outside calls are the speech request and the ffmpeg run, in this
    order. *)
Theorem hybrid_run_postcondition (env : Env) (cargo : Cargo) (rust_project : string)
    (fuel : nat) (self : HybridPipeline) (w w' : World) (p : string) :
  run env cargo rust_project fuel self w = (Ret p, w') ->
  p = video_path env self /\
  is_file w' p /\ is_file w' (voiceover_path self) /\
  is_file w' (voiceover_script_path self) /\
  exists earlier,
    calls w' = earlier ++ [CallEdgeTTS voiceover_script "en-US-GuyNeural"; CallFfmpeg p].
Proof.
  unfold run. intros Hrun. unfold Sys.bind at 1 in Hrun.
  destruct (_generate_assets env fuel self w) as [[[]|e|] w1]; try discriminate.
  unfold Sys.bind at 1 in Hrun.
  destruct (_render_frames cargo rust_project self w1) as [[[]|e|] w2]; try discriminate.
  destruct (voice_and_video_inv env self w2 p w' Hrun) as (Htts & Hff & ->).
  destruct (voice_and_video_ret env self w2 Htts Hff) as (w3 & Hret & Hc & H1 & H2 & H3 & _).
  rewrite Hret in Hrun. injection Hrun as <-.
  split; [reflexivity|]. repeat (split; [assumption|]). eauto.
Qed.
End HybridRun.

Lemma render_frames_postcondition_witness :
  is_Some (files (snd (Orchestrate._render_frames good_engine rust_project
                         demo_hybrid engine_world))
             !! "./output/frames/frame_00001.png").
Proof.
  destruct (render_frames_postcondition good_engine rust_project demo_hybrid
              engine_world
              (snd (Orchestrate._render_frames good_engine rust_project
                      demo_hybrid engine_world))
              eq_refl) as [(_ & _ & _ & H & _)|H].
  - apply (H "frame_00001.png"). apply list_elem_of_further, list_elem_of_here.
  - destruct (H 1 ltac:(unfold Orchestrate.total_frames, Orchestrate.fps,
                          Orchestrate.duration; lia)) as [text Ht].
    exists (BFile "frame" text). exact Ht.
Defined.

Lemma hybrid_run_never_deletes_witness :
  is_Some (files (snd (Orchestrate.run quiet_env no_engine rust_project 1
                         demo_hybrid engine_world))
             !! rust_project).
Proof.
  apply hybrid_run_never_deletes. exists BDir. reflexivity.
Defined.

(** ** The hybrid run without services *)

Section HybridOffline.
Import Orchestrate.

Lemma THEMES_lookup theme_name th :
  Assets.THEMES !! theme_name = Some th ->
  th = Assets.theme_uno_no_mercy \/ th = Assets.theme_financial_basics.
Proof.
  unfold Assets.THEMES. cbn [list_to_map foldr]. intros H.
  apply lookup_insert_Some in H as [[_ <-]|[_ H]]; [now left|].
  apply lookup_insert_Some in H as [[_ <-]|[_ H]]; [now right|].
  now rewrite lookup_empty in H.
Qed.

Lemma THEMES_sizes theme_name th :
  Assets.THEMES !! theme_name = Some th ->
  Assets.backgrounds th <> [] /\ Assets.characters th <> [] /\
  Z.of_nat (length (Assets.characters th)) <= total_frames.
Proof.
  intros H. apply THEMES_lookup in H as [-> | ->];
    (split; [discriminate|split; [discriminate|]]); cbn; unfold total_frames, fps, duration; lia.
Qed.

Lemma placeholder_is_offline env :
  truthy (getenv env "REPLICATE_API_TOKEN") = false ->
  offline (Assets.new_generator env (assets_provider env)).
Proof.
  intros H. unfold offline, assets_provider, Assets.new_generator. rewrite H.
  cbn [Assets.provider Assets.replicate_token]. split; [auto|discriminate].
Qed.

Lemma render_frames_fallback cargo rust self w :
  build_returncode cargo <> 0 ->
  _render_frames cargo rust self w
  = Sys.bind (_render_frames_python self) (fun _ => ret tt) w.
Proof.
  intros Hb. unfold _render_frames. unfold Sys.bind at 1. cbn [path_exists].
  destruct (bool_decide _); cbn [negb]; [|reflexivity].
  destruct (Z.eqb_spec (build_returncode cargo) 0) as [?|_]; [contradiction|reflexivity].
Qed.

Lemma asset_is_no_frame self entry f :
  joinpath (assets_dir self) entry <> frame_path self f.
Proof.
  unfold frame_path, frames_dir, assets_dir, joinpath. rewrite !string_app_assoc.
  intros H. apply String.app_inj in H. cbv [String.append] in H. discriminate.
Qed.

Lemma present_files_all self w names :
  (forall file, file ∈ names -> is_Some (files w !! joinpath (assets_dir self) file)) ->
  present_files self w names = names.
Proof.
  induction names as [|f names IH]; intros H; [reflexivity|].
  unfold present_files. cbn [List.filter].
  rewrite bool_decide_true by (apply H, list_elem_of_here).
  f_equal. apply IH. intros file Hf. apply H. now apply list_elem_of_further.
Qed.

(** The asset step followed by the renderer, without a service. *)
Lemma assets_then_render env fuel self th w :
  Assets.THEMES !! theme self = Some th ->
  truthy (getenv env "REPLICATE_API_TOKEN") = false ->
  (forall d, d ∈ ["backgrounds"; "characters"; "props"] ->
     free_for_dir w (joinpath (assets_dir self) d)) ->
  exists w1 frames w2,
    _generate_assets env fuel self w = (Ret tt, w1) /\
    calls w1 = calls w /\
    (forall entry,
       entry ∈ Assets.manifest_entries "backgrounds" (Assets.backgrounds th)
               ++ Assets.manifest_entries "characters" (Assets.characters th)
               ++ Assets.manifest_entries "props" (Assets.props th) ->
       opens_as_image w1 (joinpath (assets_dir self) entry)) /\
    _render_frames_python self w1 = (Ret frames, w2) /\
    Forall (from_theme self th) frames.
Proof.
  intros Hth Htok Hfree.
  destruct (theme_assets_offline_ret env fuel (theme self) (style self) (assets_dir self)
              (assets_provider env) w th Hth (placeholder_is_offline env Htok) Hfree)
    as (w1 & Hgen & Hc & Hman & Hfiles).
  destruct (THEMES_sizes _ _ Hth) as (Hbgs & Hchs & Hlen).
  set (bgE := Assets.manifest_entries "backgrounds" (Assets.backgrounds th)) in *.
  set (chE := Assets.manifest_entries "characters" (Assets.characters th)) in *.
  assert (Hload : load_manifest self w1 = (Ret (bgE, chE), w1)).
  { unfold load_manifest. now rewrite Hman. }
  assert (Himg : forall entry, entry ∈ bgE ++ chE ->
            opens_as_image w1 (joinpath (assets_dir self) entry)).
  { intros entry He. apply Hfiles. rewrite app_assoc. apply elem_of_app. now left. }
  assert (Hpb : present_files self w1 bgE = bgE).
  { apply present_files_all. intros file Hf.
    destruct (Himg file) as (x & y & -> & _); [apply elem_of_app; now left|eauto]. }
  assert (Hpc : present_files self w1 chE = chE).
  { apply present_files_all. intros file Hf.
    destruct (Himg file) as (x & y & -> & _); [apply elem_of_app; now right|eauto]. }
  destruct (render_python_ok self w1 bgE chE Hload) as (frames & w2 & Hrun & _ & Hall & _).
  { rewrite Hpb, Hpc. exact Himg. }
  { rewrite Hpc. unfold chE, Assets.manifest_entries. now rewrite length_map. }
  rewrite Hpb, Hpc in Hall.
  exists w1, frames, w2. split; [exact Hgen|]. split; [exact Hc|].
  split; [exact Hfiles|]. split; [exact Hrun|].
  assert (Hdef : or_default_gradient
                   (map (fun file => Background (joinpath (assets_dir self) file) width height) bgE)
                 = map (fun file => Background (joinpath (assets_dir self) file) width height) bgE).
  { unfold bgE, Assets.manifest_entries. destruct (Assets.backgrounds th);
      [congruence|reflexivity]. }
  rewrite Hdef in Hall.
  apply Forall_forall. intros fr Hfr. apply list_elem_of_lookup in Hfr as [i Hi].
  destruct (Forall2_lookup_r _ _ _ _ _ Hall Hi) as (f & _ & _ & (s & _ & Hlook & _) & Hchar).
  split.
  - apply list_elem_of_lookup_2 in Hlook.
    apply list_elem_of_fmap in Hlook as (entry & -> & He).
    apply elem_of_manifest_entries in He as (a & Ha & ->). eauto.
  - destruct (frame_character fr) as [c|].
    + apply list_elem_of_fmap in Hchar as (entry & -> & He).
      apply elem_of_manifest_entries in He as (a & Ha & ->). eauto.
    + exfalso. unfold chE, Assets.manifest_entries in Hchar.
      destruct (Assets.characters th); [congruence|discriminate].
Qed.

(** X25: for a known theme, no Replicate token and category directories
    that can be created, the asset step returns and the Python renderer,
    run on the world it leaves, returns 2250 frames each of which shows a
    background and a character generated for the theme, never the default
    gradient. *)
Theorem renderer_uses_generated_assets (env : Env) (fuel : nat)
    (self : HybridPipeline) (th : Assets.Theme) (w : World) :
  Assets.THEMES !! theme self = Some th ->
  truthy (getenv env "REPLICATE_API_TOKEN") = false ->
  (forall d, d ∈ ["backgrounds"; "characters"; "props"] ->
     free_for_dir w (joinpath (assets_dir self) d)) ->
  exists w1 frames w2,
    _generate_assets env fuel self w = (Ret tt, w1) /\
    _render_frames_python self w1 = (Ret frames, w2) /\
    length frames = Z.to_nat total_frames /\
    Forall (from_theme self th) frames.
Proof.
  intros Hth Htok Hfree.
  destruct (assets_then_render env fuel self th w Hth Htok Hfree)
    as (w1 & frames & w2 & H1 & _ & _ & H2 & H3).
  exists w1, frames, w2. split; [exact H1|]. split; [exact H2|]. split; [|exact H3].
  now destruct (render_python_inv _ _ _ _ H2) as (Hlen & _).
Qed.

Lemma hybrid_run_offline_ret (env : Env) (cargo : Cargo) (rust_project : string)
    (fuel : nat) (self : HybridPipeline) (th : Assets.Theme) (w : World) :
  Assets.THEMES !! theme self = Some th ->
  truthy (getenv env "REPLICATE_API_TOKEN") = false ->
  (forall d, d ∈ ["backgrounds"; "characters"; "props"] ->
     free_for_dir w (joinpath (assets_dir self) d)) ->
  build_returncode cargo <> 0 ->
  edge_tts_error env voiceover_script = None ->
  ffmpeg_run env (video_path env self) = ExitOk ->
  exists w',
    run env cargo rust_project fuel self w = (Ret (video_path env self), w') /\
    calls w' = calls w ++ [CallEdgeTTS voiceover_script "en-US-GuyNeural";
                           CallFfmpeg (video_path env self)] /\
    is_file w' (video_path env self) /\
    is_file w' (voiceover_path self) /\
    (forall f, 0 <= f < total_frames -> is_file w' (frame_path self f)) /\
    (forall entry,
       entry ∈ Assets.manifest_entries "backgrounds" (Assets.backgrounds th)
               ++ Assets.manifest_entries "characters" (Assets.characters th)
               ++ Assets.manifest_entries "props" (Assets.props th) ->
       is_file w' (joinpath (assets_dir self) entry)).
Proof.
  intros Hth Htok Hfree Hbuild Htts Hff.
  destruct (assets_then_render env fuel self th w Hth Htok Hfree)
    as (w1 & frames & w2 & Hgen & Hc1 & Hassets & Hrender & _).
  destruct (render_python_inv self w1 frames w2 Hrender) as (Hlen & Hc2 & Hsaved & Hother).
  destruct (voice_and_video_ret env self w2 Htts Hff)
    as (w3 & Hrun3 & Hc3 & Hvideo & Hvoice & _ & Hkeep).
  exists w3. split; [|split; [|split; [|split; [|split]]]].
  - unfold run. unfold Sys.bind at 1. rewrite Hgen.
    unfold Sys.bind at 1. rewrite render_frames_fallback by exact Hbuild.
    unfold Sys.bind at 1. rewrite Hrender. cbn [ret]. exact Hrun3.
  - rewrite Hc3, Hc2, Hc1. reflexivity.
  - exact Hvideo.
  - exact Hvoice.
  - intros f Hf. apply Hkeep.
    destruct (lookup_lt_is_Some_2 frames (Z.to_nat f) ltac:(lia)) as [fr Hfr].
    destruct (Hsaved _ _ Hfr) as [_ Hfile]. rewrite Z2Nat.id in Hfile by lia.
    unfold is_file. eauto.
  - intros entry He. apply Hkeep. specialize (Hassets entry He).
    destruct Hassets as (x & y & Hfile & _). exists x, y. rewrite Hother; [exact Hfile|].
    intros f _. apply asset_is_no_frame.
Qed.

End HybridOffline.

Lemma renderer_uses_generated_assets_witness :
  exists w1 frames w2,
    Orchestrate._generate_assets quiet_env 1 demo_hybrid empty_world = (Ret tt, w1) /\
    Orchestrate._render_frames_python demo_hybrid w1 = (Ret frames, w2) /\
    length frames = Z.to_nat Orchestrate.total_frames /\
    Forall (from_theme demo_hybrid Assets.theme_uno_no_mercy) frames.
Proof.
  apply (renderer_uses_generated_assets quiet_env 1 demo_hybrid
           Assets.theme_uno_no_mercy empty_world).
  - reflexivity.
  - reflexivity.
  - intros d _. left. reflexivity.
Defined.


Lemma hybrid_run_postcondition_witness :
  exists w',
    Orchestrate.run quiet_env no_engine rust_project 1 demo_hybrid empty_world
      = (Ret (video_path quiet_env demo_hybrid), w') /\
    is_file w' (video_path quiet_env demo_hybrid) /\
    is_file w' (voiceover_path demo_hybrid).
Proof.
  destruct (hybrid_run_offline_ret quiet_env no_engine rust_project 1 demo_hybrid
              Assets.theme_uno_no_mercy empty_world
              eq_refl eq_refl (fun d _ => or_introl eq_refl)
              ltac:(vm_compute; discriminate) eq_refl eq_refl) as (w' & Hrun & _).
  destruct (hybrid_run_postcondition quiet_env no_engine rust_project 1 demo_hybrid
              empty_world w' (video_path quiet_env demo_hybrid) Hrun)
    as (_ & H1 & H2 & _).
  exists w'. split; [exact Hrun|]. split; assumption.
Defined.
